(** * GIM: a shallow embedding of the year-step engine and its sub-models

    The Python sources are embedded function by function.  Conventions:

    - a Python [float] is a real number of [R] (rounding, infinities and NaN
      of IEEE arithmetic are outside the model); decimal literals are the
      exact rationals they denote;
    - a Python [int] is a [Z];
    - a [dict] with string keys is an association list in insertion order
      ([dict V]); lookups return the first binding, updates keep the position
      of an existing key and append a new one, as Python does;
    - attributes that the code attaches lazily ([tfp], [_scale_factor],
      [_gdp_prev], [_debt_crisis_this_step], ...) are [option] fields, [None]
      standing for "attribute not set";
    - a function that can raise returns an [option]; [None] is the raise;
    - objects mutated in place are threaded through explicitly: a function
      that mutates the world takes a [WorldState] and returns the new one. *)

From Stdlib Require Import String Ascii Bool ZArith List Reals Lra Lia Classical.
Import ListNotations.
Open Scope R_scope.

(** ** Python built-ins *)

Definition dict (V : Type) : Type := list (string * V).

Fixpoint dict_get {V : Type} (d : dict V) (k : string) : option V :=
  match d with
  | [] => None
  | (k', v) :: rest => if String.eqb k' k then Some v else dict_get rest k
  end.

Fixpoint dict_set {V : Type} (d : dict V) (k : string) (v : V) : dict V :=
  match d with
  | [] => [(k, v)]
  | (k', v') :: rest =>
      if String.eqb k' k then (k', v) :: rest else (k', v') :: dict_set rest k v
  end.

Definition dict_get_default {V : Type} (d : dict V) (k : string) (dflt : V) : V :=
  match dict_get d k with Some v => v | None => dflt end.

Definition dict_mem {V : Type} (d : dict V) (k : string) : bool :=
  match dict_get d k with Some _ => true | None => false end.

Definition dict_keys {V : Type} (d : dict V) : list string := map fst d.
Definition dict_values {V : Type} (d : dict V) : list V := map snd d.

(** [x > y], [x >= y], ... on floats, as booleans. *)
Definition Rltb (x y : R) : bool := if Rlt_dec x y then true else false.
Definition Rleb (x y : R) : bool := if Rle_dec x y then true else false.

(** [sum(xs)] *)
Definition Rsum (xs : list R) : R := fold_left Rplus xs 0.

(** [len(xs)] as a float *)
Definition Rlen {A : Type} (xs : list A) : R := INR (List.length xs).

(** [x ** y] on floats.  With an integer-valued exponent the result is a
    float for every base, but for zero raised to a negative power
    ([ZeroDivisionError]).  With any other exponent a negative base gives a
    complex number, which the callers go on to order ([max], [>]), and that
    raises; so this case is [None] too. *)
Definition py_pow (x y : R) : option R :=
  if Rlt_dec 0 x then Some (Rpower x y)
  else if Req_dec_T y (IZR (Int_part y)) then
    if Rlt_dec x 0 then Some (powerRZ x (Int_part y))
    else if Rle_dec 0 y then Some (powerRZ x (Int_part y)) else None
  else if Rlt_dec x 0 then None
  else if Rlt_dec 0 y then Some 0 else None.

(** [round(x)]: round half to even. *)
Definition py_round (x : R) : Z :=
  let f := Int_part x in
  let d := x - IZR f in
  if Rlt_dec d (1 / 2) then f
  else if Rlt_dec (1 / 2) d then (f + 1)%Z
  else if Z.even f then f else (f + 1)%Z.

(** [s.strip()].  A character of a [string] is a code point below 256; of
    these [str.isspace] holds of the tab to the carriage return (9-13), the
    four separators (28-31), the space (32), the next line (133) and the
    no-break space (160), and they are what [strip] without an argument
    removes at both ends. *)
Definition is_space (c : ascii) : bool :=
  let n := nat_of_ascii c in
  ((Nat.leb 9 n && Nat.leb n 13) || (Nat.leb 28 n && Nat.leb n 32)
   || Nat.eqb n 133 || Nat.eqb n 160)%bool.

Fixpoint lstrip (s : string) : string :=
  match s with
  | EmptyString => EmptyString
  | String c rest => if is_space c then lstrip rest else s
  end.

Fixpoint rstrip (s : string) : string :=
  match s with
  | EmptyString => EmptyString
  | String c rest =>
      match rstrip rest with
      | EmptyString => if is_space c then EmptyString else String c EmptyString
      | r => String c r
      end
  end.

Definition strip (s : string) : string := rstrip (lstrip s).

(** The error monad of raising code. *)
Definition bind {A B : Type} (m : option A) (f : A -> option B) : option B :=
  match m with Some a => f a | None => None end.

Notation "x <- m ;; k" := (bind m (fun x => k))
  (at level 61, m at next level, right associativity).

Fixpoint foldM {A S : Type} (f : S -> A -> option S) (xs : list A) (s : S) : option S :=
  match xs with
  | [] => Some s
  | x :: rest => s' <- f s x ;; foldM f rest s'
  end.

(** ** core.py (gim_11_1) *)

Module Core.

Definition CO2_PREINDUSTRIAL_GT : R := 2184.0.
Definition CO2_STOCK_2023_GT : R := 3270.0.
Definition TGLOBAL_2023_C : R := 1.2.
Definition BIODIVERSITY_2023 : R := 0.72.
Definition WATER_STRESS_2023 : R := 0.55.
Definition GTCO2_PER_PPM : R := 7.81.
Definition F2XCO2_W_M2 : R := 3.71.

Definition WORLD_URR_FOSSIL_ENERGY_ZJ : R := 35.0.
Definition WORLD_PROVEN_RESERVES_ZJ : R := 32.5.
Definition WORLD_ANNUAL_SUPPLY_CAP_ZJ : R := 0.65.

Inductive ClimatePolicy : Type := CP_none | CP_weak | CP_moderate | CP_strong.
Inductive TradeDirection : Type := TD_import | TD_export.
Inductive PricePreference : Type := PP_cheap | PP_fair | PP_premium.
Inductive SanctionType : Type := S_none | S_mild | S_strong.
Inductive SecurityActionType : Type :=
  SA_none | SA_military_exercise | SA_arms_buildup | SA_border_incident | SA_conflict.
Inductive TradeRestrictionLevel : Type := TR_none | TR_soft | TR_hard.

Definition RESOURCE_NAMES : list string := ["energy"; "food"; "metals"]%string.

Definition clamp01 (value : R) : R := Rmax 0 (Rmin 1 value).

Record EconomyState : Type := mkEconomyState {
  gdp : R;
  capital : R;
  population : R;
  public_debt : R;
  fx_reserves : R;
  taxes : R;
  gov_spending : R;
  social_spending : R;
  military_spending : R;
  rd_spending : R;
  climate_adaptation_spending : R;
  climate_shock_years : Z;
  climate_shock_penalty : R;
  interest_payments : R;
  net_exports : R;
  gdp_per_capita : R;
  unemployment : R;
  inflation : R;
  birth_rate : R;
  death_rate : R;
  tfp : option R;
  _scale_factor : option R;
  _gdp_prev : option R;
  gdp_share : option R;
  gdp_rank : option Z
}.

Record ResourceSubState : Type := mkResourceSubState {
  own_reserve : R;
  production : R;
  consumption : R;
  efficiency : R
}.

Record CulturalState : Type := mkCulturalState {
  pdi : R;
  idv : R;
  mas : R;
  uai : R;
  lto : R;
  ind : R;
  survival_self_expression : R;
  traditional_secular : R;
  regime_type : string
}.

Record SocietyState : Type := mkSocietyState {
  trust_gov : R;
  social_tension : R;
  inequality_gini : R
}.

Record ClimateSubState : Type := mkClimateSubState {
  climate_risk : R;
  co2_annual_emissions : R;
  biodiversity_local : R;
  _co2_intensity_base : option R
}.

Record RiskState : Type := mkRiskState {
  water_stress : R;
  regime_stability : R;
  debt_crisis_prone : R;
  conflict_proneness : R
}.

Record TechnologyState : Type := mkTechnologyState {
  tech_level : R;
  military_power : R;
  security_index : R
}.

Record PoliticalState : Type := mkPoliticalState {
  legitimacy : R;
  protest_pressure : R;
  hawkishness : R;
  protectionism : R;
  coalition_openness : R;
  sanction_propensity : R;
  policy_space : R;
  last_block_change : Z
}.

Record AgentState : Type := mkAgentState {
  id : string;
  agent_type : string;
  name : string;
  region : string;
  economy : EconomyState;
  resources : dict ResourceSubState;
  society : SocietyState;
  climate : ClimateSubState;
  culture : CulturalState;
  technology : TechnologyState;
  risk : RiskState;
  alliance_block : string;
  active_sanctions : dict SanctionType;
  sanction_years : dict Z;
  political : PoliticalState;
  memory_id : option string;
  _debt_crisis_this_step : option bool;
  _collapsed_this_step : option bool;
  influence_score : option R;
  security_margin : option R;
  credit_rating : option Z;
  credit_zone : option string;
  credit_risk_score : option R;
  credit_rating_details : option (dict R)
}.

Record GlobalState : Type := mkGlobalState {
  co2 : R;
  temperature_global : R;
  biodiversity_index : R;
  temperature_ocean : R;
  forcing_total : R;
  carbon_pools : list R;
  baseline_gdp_pc : R;
  prices : dict R;
  global_reserves : dict R
}.

Record RelationState : Type := mkRelationState {
  trade_intensity : R;
  trust : R;
  conflict_level : R;
  trade_barrier : R;
  at_war : bool;
  war_years : Z;
  war_start_gdp : R;
  war_start_pop : R;
  war_start_resource : R
}.

Record InstitutionState : Type := mkInstitutionState {
  org_id : string;
  org_name : string;
  org_type : string;
  mandate : list string;
  members : list string;
  org_legitimacy : R;
  budget : R;
  base_budget_share : R
}.

Record WorldState : Type := mkWorldState {
  time : Z;
  agents : dict AgentState;
  global_state : GlobalState;
  relations : dict (dict RelationState);
  institutions : dict InstitutionState
}.

Record TradeDeal : Type := mkTradeDeal {
  partner : string;
  resource : string;
  direction : TradeDirection;
  volume_change : R;
  price_preference : PricePreference
}.

Record TradeRestriction : Type := mkTradeRestriction {
  restr_target : string;
  level : TradeRestrictionLevel
}.

Record SanctionsAction : Type := mkSanctionsAction {
  sanc_target : string;
  sanc_type : SanctionType
}.

Record SecurityActions : Type := mkSecurityActions {
  sec_type : SecurityActionType;
  sec_target : option string
}.

Record DomesticPolicy : Type := mkDomesticPolicy {
  tax_fuel_change : R;
  social_spending_change : R;
  military_spending_change : R;
  rd_investment_change : R;
  climate_policy : ClimatePolicy
}.

Record ForeignPolicy : Type := mkForeignPolicy {
  proposed_trade_deals : list TradeDeal;
  sanctions_actions : list SanctionsAction;
  trade_restrictions : list TradeRestriction;
  security_actions : SecurityActions
}.

Record FinancePolicy : Type := mkFinancePolicy {
  borrow_from_global_markets : R;
  use_fx_reserves_change : R
}.

Record Action : Type := mkAction {
  agent_id : string;
  action_time : Z;
  domestic_policy : DomesticPolicy;
  foreign_policy : ForeignPolicy;
  finance : FinancePolicy
}.

(** In-place attribute assignment, one setter per assigned attribute. *)

Definition set_gdp (v : R) (r : EconomyState) : EconomyState :=
  mkEconomyState v (capital r) (population r) (public_debt r) (fx_reserves r) (taxes r)
    (gov_spending r) (social_spending r) (military_spending r) (rd_spending r)
    (climate_adaptation_spending r) (climate_shock_years r) (climate_shock_penalty r)
    (interest_payments r) (net_exports r) (gdp_per_capita r) (unemployment r) (inflation r)
    (birth_rate r) (death_rate r) (tfp r) (_scale_factor r) (_gdp_prev r) (gdp_share r)
    (gdp_rank r).
Definition set_capital (v : R) (r : EconomyState) : EconomyState :=
  mkEconomyState (gdp r) v (population r) (public_debt r) (fx_reserves r) (taxes r)
    (gov_spending r) (social_spending r) (military_spending r) (rd_spending r)
    (climate_adaptation_spending r) (climate_shock_years r) (climate_shock_penalty r)
    (interest_payments r) (net_exports r) (gdp_per_capita r) (unemployment r) (inflation r)
    (birth_rate r) (death_rate r) (tfp r) (_scale_factor r) (_gdp_prev r) (gdp_share r)
    (gdp_rank r).
Definition set_population (v : R) (r : EconomyState) : EconomyState :=
  mkEconomyState (gdp r) (capital r) v (public_debt r) (fx_reserves r) (taxes r)
    (gov_spending r) (social_spending r) (military_spending r) (rd_spending r)
    (climate_adaptation_spending r) (climate_shock_years r) (climate_shock_penalty r)
    (interest_payments r) (net_exports r) (gdp_per_capita r) (unemployment r) (inflation r)
    (birth_rate r) (death_rate r) (tfp r) (_scale_factor r) (_gdp_prev r) (gdp_share r)
    (gdp_rank r).
Definition set_public_debt (v : R) (r : EconomyState) : EconomyState :=
  mkEconomyState (gdp r) (capital r) (population r) v (fx_reserves r) (taxes r)
    (gov_spending r) (social_spending r) (military_spending r) (rd_spending r)
    (climate_adaptation_spending r) (climate_shock_years r) (climate_shock_penalty r)
    (interest_payments r) (net_exports r) (gdp_per_capita r) (unemployment r) (inflation r)
    (birth_rate r) (death_rate r) (tfp r) (_scale_factor r) (_gdp_prev r) (gdp_share r)
    (gdp_rank r).
Definition set_fx_reserves (v : R) (r : EconomyState) : EconomyState :=
  mkEconomyState (gdp r) (capital r) (population r) (public_debt r) v (taxes r)
    (gov_spending r) (social_spending r) (military_spending r) (rd_spending r)
    (climate_adaptation_spending r) (climate_shock_years r) (climate_shock_penalty r)
    (interest_payments r) (net_exports r) (gdp_per_capita r) (unemployment r) (inflation r)
    (birth_rate r) (death_rate r) (tfp r) (_scale_factor r) (_gdp_prev r) (gdp_share r)
    (gdp_rank r).
Definition set_taxes (v : R) (r : EconomyState) : EconomyState :=
  mkEconomyState (gdp r) (capital r) (population r) (public_debt r) (fx_reserves r) v
    (gov_spending r) (social_spending r) (military_spending r) (rd_spending r)
    (climate_adaptation_spending r) (climate_shock_years r) (climate_shock_penalty r)
    (interest_payments r) (net_exports r) (gdp_per_capita r) (unemployment r) (inflation r)
    (birth_rate r) (death_rate r) (tfp r) (_scale_factor r) (_gdp_prev r) (gdp_share r)
    (gdp_rank r).
Definition set_gov_spending (v : R) (r : EconomyState) : EconomyState :=
  mkEconomyState (gdp r) (capital r) (population r) (public_debt r) (fx_reserves r) (taxes
    r) v (social_spending r) (military_spending r) (rd_spending r)
    (climate_adaptation_spending r) (climate_shock_years r) (climate_shock_penalty r)
    (interest_payments r) (net_exports r) (gdp_per_capita r) (unemployment r) (inflation r)
    (birth_rate r) (death_rate r) (tfp r) (_scale_factor r) (_gdp_prev r) (gdp_share r)
    (gdp_rank r).
Definition set_social_spending (v : R) (r : EconomyState) : EconomyState :=
  mkEconomyState (gdp r) (capital r) (population r) (public_debt r) (fx_reserves r) (taxes
    r) (gov_spending r) v (military_spending r) (rd_spending r) (climate_adaptation_spending
    r) (climate_shock_years r) (climate_shock_penalty r) (interest_payments r) (net_exports
    r) (gdp_per_capita r) (unemployment r) (inflation r) (birth_rate r) (death_rate r) (tfp
    r) (_scale_factor r) (_gdp_prev r) (gdp_share r) (gdp_rank r).
Definition set_military_spending (v : R) (r : EconomyState) : EconomyState :=
  mkEconomyState (gdp r) (capital r) (population r) (public_debt r) (fx_reserves r) (taxes
    r) (gov_spending r) (social_spending r) v (rd_spending r) (climate_adaptation_spending
    r) (climate_shock_years r) (climate_shock_penalty r) (interest_payments r) (net_exports
    r) (gdp_per_capita r) (unemployment r) (inflation r) (birth_rate r) (death_rate r) (tfp
    r) (_scale_factor r) (_gdp_prev r) (gdp_share r) (gdp_rank r).
Definition set_rd_spending (v : R) (r : EconomyState) : EconomyState :=
  mkEconomyState (gdp r) (capital r) (population r) (public_debt r) (fx_reserves r) (taxes
    r) (gov_spending r) (social_spending r) (military_spending r) v
    (climate_adaptation_spending r) (climate_shock_years r) (climate_shock_penalty r)
    (interest_payments r) (net_exports r) (gdp_per_capita r) (unemployment r) (inflation r)
    (birth_rate r) (death_rate r) (tfp r) (_scale_factor r) (_gdp_prev r) (gdp_share r)
    (gdp_rank r).
Definition set_climate_adaptation_spending (v : R) (r : EconomyState) : EconomyState :=
  mkEconomyState (gdp r) (capital r) (population r) (public_debt r) (fx_reserves r) (taxes
    r) (gov_spending r) (social_spending r) (military_spending r) (rd_spending r) v
    (climate_shock_years r) (climate_shock_penalty r) (interest_payments r) (net_exports r)
    (gdp_per_capita r) (unemployment r) (inflation r) (birth_rate r) (death_rate r) (tfp r)
    (_scale_factor r) (_gdp_prev r) (gdp_share r) (gdp_rank r).
Definition set_climate_shock_years (v : Z) (r : EconomyState) : EconomyState :=
  mkEconomyState (gdp r) (capital r) (population r) (public_debt r) (fx_reserves r) (taxes
    r) (gov_spending r) (social_spending r) (military_spending r) (rd_spending r)
    (climate_adaptation_spending r) v (climate_shock_penalty r) (interest_payments r)
    (net_exports r) (gdp_per_capita r) (unemployment r) (inflation r) (birth_rate r)
    (death_rate r) (tfp r) (_scale_factor r) (_gdp_prev r) (gdp_share r) (gdp_rank r).
Definition set_climate_shock_penalty (v : R) (r : EconomyState) : EconomyState :=
  mkEconomyState (gdp r) (capital r) (population r) (public_debt r) (fx_reserves r) (taxes
    r) (gov_spending r) (social_spending r) (military_spending r) (rd_spending r)
    (climate_adaptation_spending r) (climate_shock_years r) v (interest_payments r)
    (net_exports r) (gdp_per_capita r) (unemployment r) (inflation r) (birth_rate r)
    (death_rate r) (tfp r) (_scale_factor r) (_gdp_prev r) (gdp_share r) (gdp_rank r).
Definition set_interest_payments (v : R) (r : EconomyState) : EconomyState :=
  mkEconomyState (gdp r) (capital r) (population r) (public_debt r) (fx_reserves r) (taxes
    r) (gov_spending r) (social_spending r) (military_spending r) (rd_spending r)
    (climate_adaptation_spending r) (climate_shock_years r) (climate_shock_penalty r) v
    (net_exports r) (gdp_per_capita r) (unemployment r) (inflation r) (birth_rate r)
    (death_rate r) (tfp r) (_scale_factor r) (_gdp_prev r) (gdp_share r) (gdp_rank r).
Definition set_net_exports (v : R) (r : EconomyState) : EconomyState :=
  mkEconomyState (gdp r) (capital r) (population r) (public_debt r) (fx_reserves r) (taxes
    r) (gov_spending r) (social_spending r) (military_spending r) (rd_spending r)
    (climate_adaptation_spending r) (climate_shock_years r) (climate_shock_penalty r)
    (interest_payments r) v (gdp_per_capita r) (unemployment r) (inflation r) (birth_rate r)
    (death_rate r) (tfp r) (_scale_factor r) (_gdp_prev r) (gdp_share r) (gdp_rank r).
Definition set_gdp_per_capita (v : R) (r : EconomyState) : EconomyState :=
  mkEconomyState (gdp r) (capital r) (population r) (public_debt r) (fx_reserves r) (taxes
    r) (gov_spending r) (social_spending r) (military_spending r) (rd_spending r)
    (climate_adaptation_spending r) (climate_shock_years r) (climate_shock_penalty r)
    (interest_payments r) (net_exports r) v (unemployment r) (inflation r) (birth_rate r)
    (death_rate r) (tfp r) (_scale_factor r) (_gdp_prev r) (gdp_share r) (gdp_rank r).
Definition set_unemployment (v : R) (r : EconomyState) : EconomyState :=
  mkEconomyState (gdp r) (capital r) (population r) (public_debt r) (fx_reserves r) (taxes
    r) (gov_spending r) (social_spending r) (military_spending r) (rd_spending r)
    (climate_adaptation_spending r) (climate_shock_years r) (climate_shock_penalty r)
    (interest_payments r) (net_exports r) (gdp_per_capita r) v (inflation r) (birth_rate r)
    (death_rate r) (tfp r) (_scale_factor r) (_gdp_prev r) (gdp_share r) (gdp_rank r).
Definition set_inflation (v : R) (r : EconomyState) : EconomyState :=
  mkEconomyState (gdp r) (capital r) (population r) (public_debt r) (fx_reserves r) (taxes
    r) (gov_spending r) (social_spending r) (military_spending r) (rd_spending r)
    (climate_adaptation_spending r) (climate_shock_years r) (climate_shock_penalty r)
    (interest_payments r) (net_exports r) (gdp_per_capita r) (unemployment r) v (birth_rate
    r) (death_rate r) (tfp r) (_scale_factor r) (_gdp_prev r) (gdp_share r) (gdp_rank r).
Definition set_birth_rate (v : R) (r : EconomyState) : EconomyState :=
  mkEconomyState (gdp r) (capital r) (population r) (public_debt r) (fx_reserves r) (taxes
    r) (gov_spending r) (social_spending r) (military_spending r) (rd_spending r)
    (climate_adaptation_spending r) (climate_shock_years r) (climate_shock_penalty r)
    (interest_payments r) (net_exports r) (gdp_per_capita r) (unemployment r) (inflation r)
    v (death_rate r) (tfp r) (_scale_factor r) (_gdp_prev r) (gdp_share r) (gdp_rank r).
Definition set_death_rate (v : R) (r : EconomyState) : EconomyState :=
  mkEconomyState (gdp r) (capital r) (population r) (public_debt r) (fx_reserves r) (taxes
    r) (gov_spending r) (social_spending r) (military_spending r) (rd_spending r)
    (climate_adaptation_spending r) (climate_shock_years r) (climate_shock_penalty r)
    (interest_payments r) (net_exports r) (gdp_per_capita r) (unemployment r) (inflation r)
    (birth_rate r) v (tfp r) (_scale_factor r) (_gdp_prev r) (gdp_share r) (gdp_rank r).
Definition set_tfp (v : option R) (r : EconomyState) : EconomyState :=
  mkEconomyState (gdp r) (capital r) (population r) (public_debt r) (fx_reserves r) (taxes
    r) (gov_spending r) (social_spending r) (military_spending r) (rd_spending r)
    (climate_adaptation_spending r) (climate_shock_years r) (climate_shock_penalty r)
    (interest_payments r) (net_exports r) (gdp_per_capita r) (unemployment r) (inflation r)
    (birth_rate r) (death_rate r) v (_scale_factor r) (_gdp_prev r) (gdp_share r) (gdp_rank
    r).
Definition set_scale_factor (v : option R) (r : EconomyState) : EconomyState :=
  mkEconomyState (gdp r) (capital r) (population r) (public_debt r) (fx_reserves r) (taxes
    r) (gov_spending r) (social_spending r) (military_spending r) (rd_spending r)
    (climate_adaptation_spending r) (climate_shock_years r) (climate_shock_penalty r)
    (interest_payments r) (net_exports r) (gdp_per_capita r) (unemployment r) (inflation r)
    (birth_rate r) (death_rate r) (tfp r) v (_gdp_prev r) (gdp_share r) (gdp_rank r).
Definition set_gdp_prev (v : option R) (r : EconomyState) : EconomyState :=
  mkEconomyState (gdp r) (capital r) (population r) (public_debt r) (fx_reserves r) (taxes
    r) (gov_spending r) (social_spending r) (military_spending r) (rd_spending r)
    (climate_adaptation_spending r) (climate_shock_years r) (climate_shock_penalty r)
    (interest_payments r) (net_exports r) (gdp_per_capita r) (unemployment r) (inflation r)
    (birth_rate r) (death_rate r) (tfp r) (_scale_factor r) v (gdp_share r) (gdp_rank r).
Definition set_gdp_share (v : option R) (r : EconomyState) : EconomyState :=
  mkEconomyState (gdp r) (capital r) (population r) (public_debt r) (fx_reserves r) (taxes
    r) (gov_spending r) (social_spending r) (military_spending r) (rd_spending r)
    (climate_adaptation_spending r) (climate_shock_years r) (climate_shock_penalty r)
    (interest_payments r) (net_exports r) (gdp_per_capita r) (unemployment r) (inflation r)
    (birth_rate r) (death_rate r) (tfp r) (_scale_factor r) (_gdp_prev r) v (gdp_rank r).
Definition set_gdp_rank (v : option Z) (r : EconomyState) : EconomyState :=
  mkEconomyState (gdp r) (capital r) (population r) (public_debt r) (fx_reserves r) (taxes
    r) (gov_spending r) (social_spending r) (military_spending r) (rd_spending r)
    (climate_adaptation_spending r) (climate_shock_years r) (climate_shock_penalty r)
    (interest_payments r) (net_exports r) (gdp_per_capita r) (unemployment r) (inflation r)
    (birth_rate r) (death_rate r) (tfp r) (_scale_factor r) (_gdp_prev r) (gdp_share r) v.

Definition set_own_reserve (v : R) (r : ResourceSubState) : ResourceSubState :=
  mkResourceSubState v (production r) (consumption r) (efficiency r).
Definition set_production (v : R) (r : ResourceSubState) : ResourceSubState :=
  mkResourceSubState (own_reserve r) v (consumption r) (efficiency r).
Definition set_consumption (v : R) (r : ResourceSubState) : ResourceSubState :=
  mkResourceSubState (own_reserve r) (production r) v (efficiency r).
Definition set_efficiency (v : R) (r : ResourceSubState) : ResourceSubState :=
  mkResourceSubState (own_reserve r) (production r) (consumption r) v.

Definition set_trust_gov (v : R) (r : SocietyState) : SocietyState :=
  mkSocietyState v (social_tension r) (inequality_gini r).
Definition set_social_tension (v : R) (r : SocietyState) : SocietyState :=
  mkSocietyState (trust_gov r) v (inequality_gini r).
Definition set_inequality_gini (v : R) (r : SocietyState) : SocietyState :=
  mkSocietyState (trust_gov r) (social_tension r) v.

Definition set_climate_risk (v : R) (r : ClimateSubState) : ClimateSubState :=
  mkClimateSubState v (co2_annual_emissions r) (biodiversity_local r) (_co2_intensity_base
    r).
Definition set_co2_annual_emissions (v : R) (r : ClimateSubState) : ClimateSubState :=
  mkClimateSubState (climate_risk r) v (biodiversity_local r) (_co2_intensity_base r).
Definition set_biodiversity_local (v : R) (r : ClimateSubState) : ClimateSubState :=
  mkClimateSubState (climate_risk r) (co2_annual_emissions r) v (_co2_intensity_base r).
Definition set_co2_intensity_base (v : option R) (r : ClimateSubState) : ClimateSubState :=
  mkClimateSubState (climate_risk r) (co2_annual_emissions r) (biodiversity_local r) v.

Definition set_regime_stability (v : R) (r : RiskState) : RiskState :=
  mkRiskState (water_stress r) v (debt_crisis_prone r) (conflict_proneness r).

Definition set_tech_level (v : R) (r : TechnologyState) : TechnologyState :=
  mkTechnologyState v (military_power r) (security_index r).
Definition set_military_power (v : R) (r : TechnologyState) : TechnologyState :=
  mkTechnologyState (tech_level r) v (security_index r).

Definition set_legitimacy (v : R) (r : PoliticalState) : PoliticalState :=
  mkPoliticalState v (protest_pressure r) (hawkishness r) (protectionism r)
    (coalition_openness r) (sanction_propensity r) (policy_space r) (last_block_change r).
Definition set_protest_pressure (v : R) (r : PoliticalState) : PoliticalState :=
  mkPoliticalState (legitimacy r) v (hawkishness r) (protectionism r) (coalition_openness r)
    (sanction_propensity r) (policy_space r) (last_block_change r).
Definition set_hawkishness (v : R) (r : PoliticalState) : PoliticalState :=
  mkPoliticalState (legitimacy r) (protest_pressure r) v (protectionism r)
    (coalition_openness r) (sanction_propensity r) (policy_space r) (last_block_change r).
Definition set_protectionism (v : R) (r : PoliticalState) : PoliticalState :=
  mkPoliticalState (legitimacy r) (protest_pressure r) (hawkishness r) v (coalition_openness
    r) (sanction_propensity r) (policy_space r) (last_block_change r).
Definition set_coalition_openness (v : R) (r : PoliticalState) : PoliticalState :=
  mkPoliticalState (legitimacy r) (protest_pressure r) (hawkishness r) (protectionism r) v
    (sanction_propensity r) (policy_space r) (last_block_change r).
Definition set_sanction_propensity (v : R) (r : PoliticalState) : PoliticalState :=
  mkPoliticalState (legitimacy r) (protest_pressure r) (hawkishness r) (protectionism r)
    (coalition_openness r) v (policy_space r) (last_block_change r).
Definition set_policy_space (v : R) (r : PoliticalState) : PoliticalState :=
  mkPoliticalState (legitimacy r) (protest_pressure r) (hawkishness r) (protectionism r)
    (coalition_openness r) (sanction_propensity r) v (last_block_change r).
Definition set_last_block_change (v : Z) (r : PoliticalState) : PoliticalState :=
  mkPoliticalState (legitimacy r) (protest_pressure r) (hawkishness r) (protectionism r)
    (coalition_openness r) (sanction_propensity r) (policy_space r) v.

Definition set_economy (v : EconomyState) (r : AgentState) : AgentState :=
  mkAgentState (id r) (agent_type r) (name r) (region r) v (resources r) (society r)
    (climate r) (culture r) (technology r) (risk r) (alliance_block r) (active_sanctions r)
    (sanction_years r) (political r) (memory_id r) (_debt_crisis_this_step r)
    (_collapsed_this_step r) (influence_score r) (security_margin r) (credit_rating r)
    (credit_zone r) (credit_risk_score r) (credit_rating_details r).
Definition set_resources (v : dict ResourceSubState) (r : AgentState) : AgentState :=
  mkAgentState (id r) (agent_type r) (name r) (region r) (economy r) v (society r) (climate
    r) (culture r) (technology r) (risk r) (alliance_block r) (active_sanctions r)
    (sanction_years r) (political r) (memory_id r) (_debt_crisis_this_step r)
    (_collapsed_this_step r) (influence_score r) (security_margin r) (credit_rating r)
    (credit_zone r) (credit_risk_score r) (credit_rating_details r).
Definition set_society (v : SocietyState) (r : AgentState) : AgentState :=
  mkAgentState (id r) (agent_type r) (name r) (region r) (economy r) (resources r) v
    (climate r) (culture r) (technology r) (risk r) (alliance_block r) (active_sanctions r)
    (sanction_years r) (political r) (memory_id r) (_debt_crisis_this_step r)
    (_collapsed_this_step r) (influence_score r) (security_margin r) (credit_rating r)
    (credit_zone r) (credit_risk_score r) (credit_rating_details r).
Definition set_climate (v : ClimateSubState) (r : AgentState) : AgentState :=
  mkAgentState (id r) (agent_type r) (name r) (region r) (economy r) (resources r) (society
    r) v (culture r) (technology r) (risk r) (alliance_block r) (active_sanctions r)
    (sanction_years r) (political r) (memory_id r) (_debt_crisis_this_step r)
    (_collapsed_this_step r) (influence_score r) (security_margin r) (credit_rating r)
    (credit_zone r) (credit_risk_score r) (credit_rating_details r).
Definition set_technology (v : TechnologyState) (r : AgentState) : AgentState :=
  mkAgentState (id r) (agent_type r) (name r) (region r) (economy r) (resources r) (society
    r) (climate r) (culture r) v (risk r) (alliance_block r) (active_sanctions r)
    (sanction_years r) (political r) (memory_id r) (_debt_crisis_this_step r)
    (_collapsed_this_step r) (influence_score r) (security_margin r) (credit_rating r)
    (credit_zone r) (credit_risk_score r) (credit_rating_details r).
Definition set_risk (v : RiskState) (r : AgentState) : AgentState :=
  mkAgentState (id r) (agent_type r) (name r) (region r) (economy r) (resources r) (society
    r) (climate r) (culture r) (technology r) v (alliance_block r) (active_sanctions r)
    (sanction_years r) (political r) (memory_id r) (_debt_crisis_this_step r)
    (_collapsed_this_step r) (influence_score r) (security_margin r) (credit_rating r)
    (credit_zone r) (credit_risk_score r) (credit_rating_details r).
Definition set_alliance_block (v : string) (r : AgentState) : AgentState :=
  mkAgentState (id r) (agent_type r) (name r) (region r) (economy r) (resources r) (society
    r) (climate r) (culture r) (technology r) (risk r) v (active_sanctions r)
    (sanction_years r) (political r) (memory_id r) (_debt_crisis_this_step r)
    (_collapsed_this_step r) (influence_score r) (security_margin r) (credit_rating r)
    (credit_zone r) (credit_risk_score r) (credit_rating_details r).
Definition set_active_sanctions (v : dict SanctionType) (r : AgentState) : AgentState :=
  mkAgentState (id r) (agent_type r) (name r) (region r) (economy r) (resources r) (society
    r) (climate r) (culture r) (technology r) (risk r) (alliance_block r) v (sanction_years
    r) (political r) (memory_id r) (_debt_crisis_this_step r) (_collapsed_this_step r)
    (influence_score r) (security_margin r) (credit_rating r) (credit_zone r)
    (credit_risk_score r) (credit_rating_details r).
Definition set_sanction_years (v : dict Z) (r : AgentState) : AgentState :=
  mkAgentState (id r) (agent_type r) (name r) (region r) (economy r) (resources r) (society
    r) (climate r) (culture r) (technology r) (risk r) (alliance_block r) (active_sanctions
    r) v (political r) (memory_id r) (_debt_crisis_this_step r) (_collapsed_this_step r)
    (influence_score r) (security_margin r) (credit_rating r) (credit_zone r)
    (credit_risk_score r) (credit_rating_details r).
Definition set_political (v : PoliticalState) (r : AgentState) : AgentState :=
  mkAgentState (id r) (agent_type r) (name r) (region r) (economy r) (resources r) (society
    r) (climate r) (culture r) (technology r) (risk r) (alliance_block r) (active_sanctions
    r) (sanction_years r) v (memory_id r) (_debt_crisis_this_step r) (_collapsed_this_step
    r) (influence_score r) (security_margin r) (credit_rating r) (credit_zone r)
    (credit_risk_score r) (credit_rating_details r).
Definition set_debt_crisis_this_step (v : option bool) (r : AgentState) : AgentState :=
  mkAgentState (id r) (agent_type r) (name r) (region r) (economy r) (resources r) (society
    r) (climate r) (culture r) (technology r) (risk r) (alliance_block r) (active_sanctions
    r) (sanction_years r) (political r) (memory_id r) v (_collapsed_this_step r)
    (influence_score r) (security_margin r) (credit_rating r) (credit_zone r)
    (credit_risk_score r) (credit_rating_details r).
Definition set_collapsed_this_step (v : option bool) (r : AgentState) : AgentState :=
  mkAgentState (id r) (agent_type r) (name r) (region r) (economy r) (resources r) (society
    r) (climate r) (culture r) (technology r) (risk r) (alliance_block r) (active_sanctions
    r) (sanction_years r) (political r) (memory_id r) (_debt_crisis_this_step r) v
    (influence_score r) (security_margin r) (credit_rating r) (credit_zone r)
    (credit_risk_score r) (credit_rating_details r).
Definition set_influence_score (v : option R) (r : AgentState) : AgentState :=
  mkAgentState (id r) (agent_type r) (name r) (region r) (economy r) (resources r) (society
    r) (climate r) (culture r) (technology r) (risk r) (alliance_block r) (active_sanctions
    r) (sanction_years r) (political r) (memory_id r) (_debt_crisis_this_step r)
    (_collapsed_this_step r) v (security_margin r) (credit_rating r) (credit_zone r)
    (credit_risk_score r) (credit_rating_details r).
Definition set_security_margin (v : option R) (r : AgentState) : AgentState :=
  mkAgentState (id r) (agent_type r) (name r) (region r) (economy r) (resources r) (society
    r) (climate r) (culture r) (technology r) (risk r) (alliance_block r) (active_sanctions
    r) (sanction_years r) (political r) (memory_id r) (_debt_crisis_this_step r)
    (_collapsed_this_step r) (influence_score r) v (credit_rating r) (credit_zone r)
    (credit_risk_score r) (credit_rating_details r).
Definition set_credit_rating (v : option Z) (r : AgentState) : AgentState :=
  mkAgentState (id r) (agent_type r) (name r) (region r) (economy r) (resources r) (society
    r) (climate r) (culture r) (technology r) (risk r) (alliance_block r) (active_sanctions
    r) (sanction_years r) (political r) (memory_id r) (_debt_crisis_this_step r)
    (_collapsed_this_step r) (influence_score r) (security_margin r) v (credit_zone r)
    (credit_risk_score r) (credit_rating_details r).
Definition set_credit_zone (v : option string) (r : AgentState) : AgentState :=
  mkAgentState (id r) (agent_type r) (name r) (region r) (economy r) (resources r) (society
    r) (climate r) (culture r) (technology r) (risk r) (alliance_block r) (active_sanctions
    r) (sanction_years r) (political r) (memory_id r) (_debt_crisis_this_step r)
    (_collapsed_this_step r) (influence_score r) (security_margin r) (credit_rating r) v
    (credit_risk_score r) (credit_rating_details r).
Definition set_credit_risk_score (v : option R) (r : AgentState) : AgentState :=
  mkAgentState (id r) (agent_type r) (name r) (region r) (economy r) (resources r) (society
    r) (climate r) (culture r) (technology r) (risk r) (alliance_block r) (active_sanctions
    r) (sanction_years r) (political r) (memory_id r) (_debt_crisis_this_step r)
    (_collapsed_this_step r) (influence_score r) (security_margin r) (credit_rating r)
    (credit_zone r) v (credit_rating_details r).
Definition set_credit_rating_details (v : option (dict R)) (r : AgentState) : AgentState :=
  mkAgentState (id r) (agent_type r) (name r) (region r) (economy r) (resources r) (society
    r) (climate r) (culture r) (technology r) (risk r) (alliance_block r) (active_sanctions
    r) (sanction_years r) (political r) (memory_id r) (_debt_crisis_this_step r)
    (_collapsed_this_step r) (influence_score r) (security_margin r) (credit_rating r)
    (credit_zone r) (credit_risk_score r) v.

Definition set_co2 (v : R) (r : GlobalState) : GlobalState :=
  mkGlobalState v (temperature_global r) (biodiversity_index r) (temperature_ocean r)
    (forcing_total r) (carbon_pools r) (baseline_gdp_pc r) (prices r) (global_reserves r).
Definition set_temperature_global (v : R) (r : GlobalState) : GlobalState :=
  mkGlobalState (co2 r) v (biodiversity_index r) (temperature_ocean r) (forcing_total r)
    (carbon_pools r) (baseline_gdp_pc r) (prices r) (global_reserves r).
Definition set_biodiversity_index (v : R) (r : GlobalState) : GlobalState :=
  mkGlobalState (co2 r) (temperature_global r) v (temperature_ocean r) (forcing_total r)
    (carbon_pools r) (baseline_gdp_pc r) (prices r) (global_reserves r).
Definition set_temperature_ocean (v : R) (r : GlobalState) : GlobalState :=
  mkGlobalState (co2 r) (temperature_global r) (biodiversity_index r) v (forcing_total r)
    (carbon_pools r) (baseline_gdp_pc r) (prices r) (global_reserves r).
Definition set_forcing_total (v : R) (r : GlobalState) : GlobalState :=
  mkGlobalState (co2 r) (temperature_global r) (biodiversity_index r) (temperature_ocean r)
    v (carbon_pools r) (baseline_gdp_pc r) (prices r) (global_reserves r).
Definition set_carbon_pools (v : list R) (r : GlobalState) : GlobalState :=
  mkGlobalState (co2 r) (temperature_global r) (biodiversity_index r) (temperature_ocean r)
    (forcing_total r) v (baseline_gdp_pc r) (prices r) (global_reserves r).
Definition set_prices (v : dict R) (r : GlobalState) : GlobalState :=
  mkGlobalState (co2 r) (temperature_global r) (biodiversity_index r) (temperature_ocean r)
    (forcing_total r) (carbon_pools r) (baseline_gdp_pc r) v (global_reserves r).
Definition set_global_reserves (v : dict R) (r : GlobalState) : GlobalState :=
  mkGlobalState (co2 r) (temperature_global r) (biodiversity_index r) (temperature_ocean r)
    (forcing_total r) (carbon_pools r) (baseline_gdp_pc r) (prices r) v.

Definition set_trade_intensity (v : R) (r : RelationState) : RelationState :=
  mkRelationState v (trust r) (conflict_level r) (trade_barrier r) (at_war r) (war_years r)
    (war_start_gdp r) (war_start_pop r) (war_start_resource r).
Definition set_trust (v : R) (r : RelationState) : RelationState :=
  mkRelationState (trade_intensity r) v (conflict_level r) (trade_barrier r) (at_war r)
    (war_years r) (war_start_gdp r) (war_start_pop r) (war_start_resource r).
Definition set_conflict_level (v : R) (r : RelationState) : RelationState :=
  mkRelationState (trade_intensity r) (trust r) v (trade_barrier r) (at_war r) (war_years r)
    (war_start_gdp r) (war_start_pop r) (war_start_resource r).
Definition set_trade_barrier (v : R) (r : RelationState) : RelationState :=
  mkRelationState (trade_intensity r) (trust r) (conflict_level r) v (at_war r) (war_years
    r) (war_start_gdp r) (war_start_pop r) (war_start_resource r).
Definition set_at_war (v : bool) (r : RelationState) : RelationState :=
  mkRelationState (trade_intensity r) (trust r) (conflict_level r) (trade_barrier r) v
    (war_years r) (war_start_gdp r) (war_start_pop r) (war_start_resource r).
Definition set_war_years (v : Z) (r : RelationState) : RelationState :=
  mkRelationState (trade_intensity r) (trust r) (conflict_level r) (trade_barrier r) (at_war
    r) v (war_start_gdp r) (war_start_pop r) (war_start_resource r).
Definition set_war_start_gdp (v : R) (r : RelationState) : RelationState :=
  mkRelationState (trade_intensity r) (trust r) (conflict_level r) (trade_barrier r) (at_war
    r) (war_years r) v (war_start_pop r) (war_start_resource r).
Definition set_war_start_pop (v : R) (r : RelationState) : RelationState :=
  mkRelationState (trade_intensity r) (trust r) (conflict_level r) (trade_barrier r) (at_war
    r) (war_years r) (war_start_gdp r) v (war_start_resource r).
Definition set_war_start_resource (v : R) (r : RelationState) : RelationState :=
  mkRelationState (trade_intensity r) (trust r) (conflict_level r) (trade_barrier r) (at_war
    r) (war_years r) (war_start_gdp r) (war_start_pop r) v.

Definition set_org_legitimacy (v : R) (r : InstitutionState) : InstitutionState :=
  mkInstitutionState (org_id r) (org_name r) (org_type r) (mandate r) (members r) v (budget
    r) (base_budget_share r).
Definition set_budget (v : R) (r : InstitutionState) : InstitutionState :=
  mkInstitutionState (org_id r) (org_name r) (org_type r) (mandate r) (members r)
    (org_legitimacy r) v (base_budget_share r).

Definition set_time (v : Z) (r : WorldState) : WorldState :=
  mkWorldState v (agents r) (global_state r) (relations r) (institutions r).
Definition set_agents (v : dict AgentState) (r : WorldState) : WorldState :=
  mkWorldState (time r) v (global_state r) (relations r) (institutions r).
Definition set_global_state (v : GlobalState) (r : WorldState) : WorldState :=
  mkWorldState (time r) (agents r) v (relations r) (institutions r).
Definition set_relations (v : dict (dict RelationState)) (r : WorldState) : WorldState :=
  mkWorldState (time r) (agents r) (global_state r) v (institutions r).
Definition set_institutions (v : dict InstitutionState) (r : WorldState) : WorldState :=
  mkWorldState (time r) (agents r) (global_state r) (relations r) v.

Definition set_level (v : TradeRestrictionLevel) (r : TradeRestriction) : TradeRestriction :=
  mkTradeRestriction (restr_target r) v.

Definition set_sanc_type (v : SanctionType) (r : SanctionsAction) : SanctionsAction :=
  mkSanctionsAction (sanc_target r) v.

Definition set_sec_type (v : SecurityActionType) (r : SecurityActions) : SecurityActions :=
  mkSecurityActions v (sec_target r).
Definition set_sec_target (v : option string) (r : SecurityActions) : SecurityActions :=
  mkSecurityActions (sec_type r) v.

Definition set_tax_fuel_change (v : R) (r : DomesticPolicy) : DomesticPolicy :=
  mkDomesticPolicy v (social_spending_change r) (military_spending_change r)
    (rd_investment_change r) (climate_policy r).
Definition set_social_spending_change (v : R) (r : DomesticPolicy) : DomesticPolicy :=
  mkDomesticPolicy (tax_fuel_change r) v (military_spending_change r) (rd_investment_change
    r) (climate_policy r).
Definition set_military_spending_change (v : R) (r : DomesticPolicy) : DomesticPolicy :=
  mkDomesticPolicy (tax_fuel_change r) (social_spending_change r) v (rd_investment_change r)
    (climate_policy r).
Definition set_rd_investment_change (v : R) (r : DomesticPolicy) : DomesticPolicy :=
  mkDomesticPolicy (tax_fuel_change r) (social_spending_change r) (military_spending_change
    r) v (climate_policy r).

Definition set_sanctions_actions (v : list SanctionsAction) (r : ForeignPolicy) : ForeignPolicy :=
  mkForeignPolicy (proposed_trade_deals r) v (trade_restrictions r) (security_actions r).
Definition set_trade_restrictions (v : list TradeRestriction) (r : ForeignPolicy) : ForeignPolicy :=
  mkForeignPolicy (proposed_trade_deals r) (sanctions_actions r) v (security_actions r).
Definition set_security_actions (v : SecurityActions) (r : ForeignPolicy) : ForeignPolicy :=
  mkForeignPolicy (proposed_trade_deals r) (sanctions_actions r) (trade_restrictions r) v.

Definition set_domestic_policy (v : DomesticPolicy) (r : Action) : Action :=
  mkAction (agent_id r) (action_time r) v (foreign_policy r) (finance r).
Definition set_foreign_policy (v : ForeignPolicy) (r : Action) : Action :=
  mkAction (agent_id r) (action_time r) (domestic_policy r) v (finance r).

Definition effective_trade_intensity (relation : RelationState) : R :=
  Rmax 0 (trade_intensity relation * (1 - clamp01 (trade_barrier relation))).

(** [world.relations.get(a, {}).get(b)] *)
Definition relations_of (world : WorldState) (agent_id : string) : dict RelationState :=
  dict_get_default (relations world) agent_id [].

Definition get_relation (world : WorldState) (a b : string) : option RelationState :=
  dict_get (relations_of world a) b.

(** Assigning through a reference obtained from [world.relations[a][b]] or
    [world.agents[a]]: the binding is replaced where it stands. *)
Definition put_relation (a b : string) (rel : RelationState) (world : WorldState) : WorldState :=
  match dict_get (relations world) a with
  | Some rels =>
      if dict_mem rels b
      then set_relations (dict_set (relations world) a (dict_set rels b rel)) world
      else world
  | None => world
  end.

Definition put_agent (k : string) (agent : AgentState) (world : WorldState) : WorldState :=
  if dict_mem (agents world) k
  then set_agents (dict_set (agents world) k agent) world
  else world.

(** [for k, agent in world.agents.items(): body] for a body that assigns
    attributes of [agent] only: the body sees the world as the earlier turns
    left it. *)
Definition for_each_agent
    (body : WorldState -> string -> AgentState -> AgentState) (world : WorldState)
    : WorldState :=
  fold_left
    (fun w k =>
       match dict_get (agents w) k with
       | Some agent => put_agent k (body w k agent) w
       | None => w
       end)
    (dict_keys (agents world)) world.

(** The same with a body that can raise. *)
Definition for_each_agent_opt
    (body : WorldState -> string -> AgentState -> option AgentState) (world : WorldState)
    : option WorldState :=
  foldM
    (fun w k =>
       match dict_get (agents w) k with
       | Some agent => a <- body w k agent ;; Some (put_agent k a w)
       | None => Some w
       end)
    (dict_keys (agents world)) world.

(** The pairs [(actor_id, target_id)] in the order of
    [for actor_id, rels in world.relations.items():
       for target_id, relation in rels.items()]. *)
Definition relation_keys (world : WorldState) : list (string * string) :=
  flat_map (fun kv => map (fun kr => (fst kv, fst kr)) (snd kv)) (relations world).

(** The nested loop over the relations for a body that assigns attributes of
    [relation] only. *)
Definition for_each_relation
    (body : WorldState -> string -> string -> RelationState -> RelationState)
    (world : WorldState) : WorldState :=
  fold_left
    (fun w ab =>
       match get_relation w (fst ab) (snd ab) with
       | Some rel => put_relation (fst ab) (snd ab) (body w (fst ab) (snd ab) rel) w
       | None => w
       end)
    (relation_keys world) world.

End Core.
Import Core.

(** ** metrics.py *)

Module Metrics.

Definition compute_reserve_years (agent : AgentState) : dict R :=
  let eps := 1e-6 in
  map (fun kv => (fst kv, own_reserve (snd kv) / Rmax (production (snd kv)) eps))
      (resources agent).

Definition compute_debt_stress (agent : AgentState) : R :=
  let gdp := Rmax (gdp (economy agent)) 1e-6 in
  let debt_gdp := public_debt (economy agent) / gdp in
  let raw := Rmax 0 (debt_gdp - 1.0) in
  let stress := raw * debt_crisis_prone (risk agent) in
  Rmin stress 3.0.

Definition compute_protest_risk (agent : AgentState) : R :=
  let tension := social_tension (society agent) in
  let trust := trust_gov (society agent) in
  let gini := inequality_gini (society agent) in
  let base := 0.6 * tension + 0.3 * (1.0 - trust) + 0.1 * (gini / 100.0) in
  let fragility := 1.0 - regime_stability (risk agent) in
  let risk := base * (0.5 + 0.5 * fragility) in
  Rmax 0 (Rmin risk 1.0).

(** [sorted(agents, key=gdp, reverse=True)]: a stable sort, equal keys keep
    their order. *)
Fixpoint insert_desc (a : AgentState) (sorted : list AgentState) : list AgentState :=
  match sorted with
  | [] => [a]
  | b :: rest =>
      if Rlt_dec (gdp (economy b)) (gdp (economy a))
      then a :: b :: rest
      else b :: insert_desc a rest
  end.

Definition sorted_by_gdp_desc (l : list AgentState) : list AgentState :=
  fold_left (fun acc a => insert_desc a acc) l [].

Fixpoint enumerate_from {A : Type} (i : Z) (l : list A) : list (Z * A) :=
  match l with
  | [] => []
  | x :: rest => (i, x) :: enumerate_from (i + 1)%Z rest
  end.

(** [math.log1p]; the argument must exceed -1. *)
Definition log1p (x : R) : option R :=
  if Rlt_dec (-1) x then Some (ln (1 + x)) else None.

Definition compute_relative_metrics_agent
    (world : WorldState) (total_gdp : R) (ranks : dict Z) (trade_degree : dict R)
    (agent : AgentState) : option AgentState :=
  let econ := set_gdp_rank (dict_get ranks (id agent))
                (set_gdp_share (Some (gdp (economy agent) / total_gdp)) (economy agent)) in
  let pop := Rmax (population (economy agent)) 1.0 in
  gdp_term <- log1p (gdp (economy agent)) ;;
  pop_term <- log1p (pop / 1e6) ;;
  degree_term <- log1p (dict_get_default trade_degree (id agent) 0.0) ;;
  let own_mil := military_power (technology agent) in
  let neighbor_mil :=
    flat_map (fun neighbor_id =>
                match dict_get (agents world) neighbor_id with
                | Some other => [military_power (technology other)]
                | None => []
                end)
             (dict_keys (relations_of world (id agent))) in
  let margin :=
    match neighbor_mil with
    | [] => 1.0
    | _ => own_mil / Rmax (Rsum neighbor_mil / Rlen neighbor_mil) 1e-3
    end in
  Some (set_security_margin (Some margin)
         (set_influence_score (Some (gdp_term + pop_term + 0.5 * degree_term))
            (set_economy econ agent))).

Definition compute_relative_metrics (world : WorldState) : option WorldState :=
  let agent_list := dict_values (agents world) in
  let total := Rsum (map (fun a => gdp (economy a)) agent_list) in
  let total_gdp := if Rle_dec total 0 then 1e-6 else total in
  let ranks :=
    fold_left (fun d ia => dict_set d (id (snd ia)) (fst ia))
              (enumerate_from 1 (sorted_by_gdp_desc agent_list)) [] in
  let trade_degree0 :=
    fold_left (fun d a => dict_set d (id a) 0.0) agent_list [] in
  let trade_degree :=
    fold_left (fun d kv =>
                 dict_set d (fst kv)
                   (Rsum (map effective_trade_intensity (dict_values (snd kv)))))
              (relations world) trade_degree0 in
  foldM (fun w kv =>
           match dict_get (agents w) (fst kv) with
           | Some agent =>
               a' <- compute_relative_metrics_agent w total_gdp ranks trade_degree agent ;;
               Some (put_agent (fst kv) a' w)
           | None => Some w
           end)
        (agents world) world.

Definition update_tfp_endogenous (agent : AgentState) (world : WorldState) : AgentState :=
  let economy0 := economy agent in
  let tfp0 :=
    match tfp economy0 with
    | Some t => t
    | None =>
        let alpha := 0.30 in let beta := 0.60 in let gamma := 0.10 in
        let capital := Rmax (capital economy0) 1e-6 in
        let labor := Rmax (population economy0 / 1e9) 1e-3 in
        let energy_input :=
          match dict_get (resources agent) "energy" with
          | Some energy => Rmax (consumption energy / 1000.0) 1e-3
          | None => 1.0
          end in
        let base := Rpower capital alpha * Rpower labor beta * Rpower energy_input gamma in
        if Rlt_dec 0 base then gdp economy0 / base else 1.0
    end in
  let gdp := Rmax (gdp economy0) 1e-6 in
  let rd_share := if Rlt_dec 0 gdp then rd_spending economy0 / gdp else 0.0 in
  let phi := 2.0 in
  let psi := 0.3 in
  let tfp_drift := 0.01 in
  let diffusion_eta := 0.02 in
  let rels := relations_of world (id agent) in
  let total_trade := Rsum (map effective_trade_intensity (dict_values rels)) in
  let avg_trade :=
    match rels with [] => 0.0 | _ => total_trade / Rlen rels end in
  let spillover := 1.0 + psi * avg_trade in
  let tfp_growth := phi * rd_share * spillover in
  let gap_weight :=
    fold_left
      (fun acc kv =>
         match dict_get (agents world) (fst kv) with
         | None => acc
         | Some partner =>
             let gap := Rmax 0 (tech_level (technology partner) - tech_level (technology agent)) in
             let weight := Rmax 0 (effective_trade_intensity (snd kv)) in
             (fst acc + weight * gap, snd acc + weight)
         end)
      rels (0.0, 0.0) in
  let avg_gap := if Rlt_dec 0 (snd gap_weight) then fst gap_weight / snd gap_weight else 0.0 in
  let diffusion := diffusion_eta * avg_gap in
  let tfp_growth := tfp_drift + tfp_growth + diffusion in
  let tfp_growth := Rmax (-0.05) (Rmin tfp_growth 0.05) in
  set_economy (set_tfp (Some (tfp0 * (1.0 + tfp_growth))) economy0) agent.

End Metrics.

(** ** climate.py *)

Module Climate.

(** A carbon-pool time-constant: a finite float or [math.inf]. *)
Inductive Timescale : Type := Inf | Finite (tau : R).

Definition CARBON_POOL_FRACTIONS : list R := [0.2173; 0.2240; 0.2824; 0.2763].
Definition CARBON_POOL_TIMESCALES : list Timescale :=
  [Inf; Finite 394.4; Finite 36.54; Finite 4.304].
Definition DEFAULT_ECS : R := 3.0.
Definition ECS_MIN : R := 1.5.
Definition ECS_MAX : R := 4.0.
Definition DEFAULT_F_NONCO2 : R := 0.0.
Definition DEFAULT_HEAT_CAP_SURFACE : R := 20.0.
Definition DEFAULT_HEAT_CAP_DEEP : R := 100.0.
Definition DEFAULT_OCEAN_EXCHANGE : R := 0.7.

Definition _climate_resilience (agent : AgentState) : R :=
  let tech_res := clamp01 (tech_level (technology agent) / 2.0) in
  let gdp := Rmax (gdp (economy agent)) 1e-6 in
  let adapt_spend := climate_adaptation_spending (economy agent) in
  let adapt_share := Rmax 0 adapt_spend / gdp in
  let adapt_res := clamp01 (adapt_share / 0.03) in
  clamp01 (0.40 * regime_stability (risk agent)
           + 0.30 * tech_res
           + 0.15 * trust_gov (society agent)
           + 0.15 * adapt_res).

Definition _normalize_fractions (fractions : list R) : list R :=
  let total := Rsum fractions in
  if Rle_dec total 0 then [1.0] else map (fun f => f / total) fractions.

Definition _init_carbon_pools (world : WorldState) (fractions : list R) : WorldState :=
  let excess := Rmax 0 (co2 (global_state world) - CO2_PREINDUSTRIAL_GT) in
  set_global_state
    (set_carbon_pools (map (fun frac => excess * frac) fractions) (global_state world))
    world.

(** The decay factor of one pool over a step of [dt] years. *)
Definition pool_decay (dt : R) (tau : Timescale) : R :=
  match tau with
  | Inf => 1.0
  | Finite t => if Rle_dec t 0 then 1.0 else exp (- dt / t)
  end.

(** [zip(pools, fractions, timescales)] and the body of the loop over it. *)
Fixpoint step_pools (dt total_emissions : R)
    (pools fractions : list R) (timescales : list Timescale) : list R :=
  match pools, fractions, timescales with
  | pool :: ps, frac :: fs, tau :: ts =>
      (pool * pool_decay dt tau + frac * total_emissions)
        :: step_pools dt total_emissions ps fs ts
  | _, _, _ => []
  end.

(** The time-constants padded with [math.inf] or cut to the number of
    fractions. *)
Definition fit_timescales (timescales : list Timescale) (n : nat) : list Timescale :=
  if Nat.ltb (List.length timescales) n
  then timescales ++ repeat Inf (n - List.length timescales)
  else firstn n timescales.

(** The biodiversity weights [population ** 0.3]; a negative population makes
    the weight complex and the comparison that follows raises. *)
Fixpoint biodiversity_sums (l : list AgentState) (acc : R * R) : option (R * R) :=
  match l with
  | [] => Some acc
  | agent :: rest =>
      weight <- py_pow (population (economy agent)) 0.3 ;;
      biodiversity_sums rest
        (fst acc + weight, snd acc + biodiversity_local (climate agent) * weight)
  end.

Definition degrade_biodiversity (temp_increase : R) (agent : AgentState) : AgentState :=
  let resilience := _climate_resilience agent in
  let effective_risk := clamp01 (climate_risk (climate agent)) * (1.0 - 0.60 * resilience) in
  let degradation := 0.004 * Rmax 0 temp_increase * effective_risk in
  set_climate
    (set_biodiversity_local (Rmax 0 (biodiversity_local (climate agent) - degradation))
       (climate agent))
    agent.

Definition update_global_climate
    (world : WorldState) (dt ecs f_nonco2 heat_cap_surface heat_cap_deep ocean_exchange : R)
    (carbon_pool_fractions : list R) (carbon_pool_timescales : list Timescale)
    : option WorldState :=
  let total_emissions :=
    Rsum (map (fun a => co2_annual_emissions (climate a)) (dict_values (agents world))) in
  let fractions := _normalize_fractions carbon_pool_fractions in
  let timescales := fit_timescales carbon_pool_timescales (List.length fractions) in
  let world :=
    if Nat.eqb (List.length (carbon_pools (global_state world))) (List.length fractions)
    then world else _init_carbon_pools world fractions in
  let pools := carbon_pools (global_state world) in
  let new_pools := step_pools dt total_emissions pools fractions timescales in
  let gs := set_carbon_pools new_pools (global_state world) in
  let gs := set_co2 (Rmax (CO2_PREINDUSTRIAL_GT + Rsum new_pools) CO2_PREINDUSTRIAL_GT) gs in
  let c_ppm := Rmax 1e-6 (co2 gs / GTCO2_PER_PPM) in
  let c0_ppm := CO2_PREINDUSTRIAL_GT / GTCO2_PER_PPM in
  let f_co2 := 5.35 * ln (c_ppm / c0_ppm) in
  let f_total := f_co2 + f_nonco2 in
  let gs := set_forcing_total f_total gs in
  let ecs := Rmin (Rmax ECS_MIN ecs) ECS_MAX in
  let climate_feedback := F2XCO2_W_M2 / ecs in
  let t_surface := temperature_global gs in
  let t_ocean := temperature_ocean gs in
  let dts := (f_total - climate_feedback * t_surface - ocean_exchange * (t_surface - t_ocean))
             * (dt / Rmax heat_cap_surface 1e-6) in
  let dtd := ocean_exchange * (t_surface - t_ocean) * dt / Rmax heat_cap_deep 1e-6 in
  let gs := set_temperature_ocean (t_ocean + dtd) (set_temperature_global (t_surface + dts) gs) in
  sums <- biodiversity_sums (dict_values (agents world)) (0.0, 0.0) ;;
  let gs :=
    if Rlt_dec 0 (fst sums) then set_biodiversity_index (snd sums / fst sums) gs else gs in
  let temp_increase := temperature_global gs - TGLOBAL_2023_C in
  Some (set_agents
          (map (fun kv => (fst kv, degrade_biodiversity temp_increase (snd kv))) (agents world))
          (set_global_state gs world)).

(** The call of [step_world]: every keyword at its default. *)
Definition update_global_climate_default (world : WorldState) : option WorldState :=
  update_global_climate world 1.0 DEFAULT_ECS DEFAULT_F_NONCO2 DEFAULT_HEAT_CAP_SURFACE
    DEFAULT_HEAT_CAP_DEEP DEFAULT_OCEAN_EXCHANGE CARBON_POOL_FRACTIONS CARBON_POOL_TIMESCALES.

Definition update_climate_risks_agent
    (delta_t response_rate sensitivity base_const base_water base_gini : R)
    (agent : AgentState) : AgentState :=
  let base := base_const + base_water * water_stress (risk agent) in
  let base := base + base_gini * (inequality_gini (society agent) / 100.0) in
  let base := clamp01 base in
  let temp_component := 1.0 - exp (- sensitivity * delta_t) in
  let target := clamp01 (base + (1.0 - base) * temp_component) in
  set_climate
    (set_climate_risk
       (clamp01 (climate_risk (climate agent)
                 + response_rate * (target - climate_risk (climate agent))))
       (climate agent))
    agent.

Definition update_climate_risks
    (world : WorldState) (response_rate sensitivity base_const base_water base_gini : R)
    : WorldState :=
  let delta_t := Rmax 0 (temperature_global (global_state world) - TGLOBAL_2023_C) in
  set_agents
    (map (fun kv =>
            (fst kv,
             update_climate_risks_agent delta_t response_rate sensitivity
               base_const base_water base_gini (snd kv)))
         (agents world))
    world.

Definition update_climate_risks_default (world : WorldState) : WorldState :=
  update_climate_risks world 0.06 0.45 0.3 0.45 0.15.

(** [random.random()]: the shared stream is a sequence of draws and the
    number of draws already taken. *)
Definition Random : Type := nat -> R.

Definition apply_climate_extreme_events_agent
    (temperature base_prob max_extra_prob : R) (random : Random)
    (st : AgentState * nat) : AgentState * nat :=
  let agent := fst st in
  let risk := climate_risk (climate agent) in
  if Rle_dec risk 0 then st
  else
    let resilience := _climate_resilience agent in
    let extra_warming := Rmax 0 (temperature - TGLOBAL_2023_C) in
    let temp_factor := 1.0 + 0.15 * extra_warming in
    let event_prob := (base_prob + max_extra_prob * risk) * temp_factor in
    let event_prob := event_prob * (1.0 - 0.40 * resilience) in
    let event_prob := Rmin 0.5 (Rmax 0 event_prob) in
    let roll := random (snd st) in
    let drawn := S (snd st) in
    if Rle_dec event_prob roll then (agent, drawn)
    else
      let severity := 0.03 + 0.15 * risk in
      let severity := severity * (1.0 - 0.50 * resilience) in
      let pop_loss := (0.004 + 0.015 * risk) * (1.0 - 0.35 * resilience) in
      let shock_penalty := Rmin 0.10 (0.5 * severity) in
      let econ := economy agent in
      let econ := set_capital (capital econ * Rmax 0 (1.0 - severity)) econ in
      let econ := set_population (population econ * Rmax 0 (1.0 - pop_loss)) econ in
      let econ := set_climate_shock_years (Z.max (climate_shock_years econ) 2) econ in
      let econ := set_climate_shock_penalty (Rmax (climate_shock_penalty econ) shock_penalty) econ in
      let tension_jump := (0.03 + 0.10 * risk) * (1.0 - 0.35 * resilience) in
      let soc := society agent in
      let soc := set_social_tension (Rmin 1.0 (social_tension soc + tension_jump)) soc in
      let soc :=
        if Rlt_dec 0.6 (regime_stability (Core.risk agent))
        then set_trust_gov (Rmin 1.0 (trust_gov soc + (0.02 + 0.02 * resilience))) soc
        else set_trust_gov (Rmax 0 (trust_gov soc - (0.02 + 0.03 * risk))) soc in
      (set_society soc (set_economy econ agent), drawn).

Fixpoint apply_climate_extreme_events_loop
    (temperature base_prob max_extra_prob : R) (random : Random)
    (l : dict AgentState) (drawn : nat) : dict AgentState * nat :=
  match l with
  | [] => ([], drawn)
  | (k, agent) :: rest =>
      let r := apply_climate_extreme_events_agent temperature base_prob max_extra_prob
                 random (agent, drawn) in
      let r' := apply_climate_extreme_events_loop temperature base_prob max_extra_prob
                  random rest (snd r) in
      ((k, fst r) :: fst r', snd r')
  end.

Definition apply_climate_extreme_events
    (world : WorldState) (base_prob max_extra_prob : R) (random : Random) (drawn : nat)
    : WorldState * nat :=
  let temperature := temperature_global (global_state world) in
  let r := apply_climate_extreme_events_loop temperature base_prob max_extra_prob
             random (agents world) drawn in
  (set_agents (fst r) world, snd r).

Definition apply_climate_extreme_events_default
    (world : WorldState) (random : Random) (drawn : nat) : WorldState * nat :=
  apply_climate_extreme_events world 0.012 0.07 random drawn.

Definition climate_damage_multiplier (temperature : R) : R :=
  let delta_t := temperature - TGLOBAL_2023_C in
  let benefit_peak := 0.3 in
  let max_benefit := 0.006 in
  let benefit :=
    max_benefit * exp (- ((delta_t - benefit_peak) ^ 2) / (2 * 0.5 ^ 2)) in
  let loss := 0.006 * (temperature ^ 2) in
  Rmax 0 (1.0 + benefit - loss).

Definition effective_damage_multiplier (agent : AgentState) (world : WorldState) : R :=
  let base := climate_damage_multiplier (temperature_global (global_state world)) in
  let risk := climate_risk (climate agent) in
  let adjustment := 1.0 + 0.005 * (1.0 - risk) in
  Rmax 0 (base * adjustment).

End Climate.

(** ** economy.py *)

Module Economy.

Definition update_capital_endogenous (agent : AgentState) : AgentState :=
  let econ := economy agent in
  let gdp := Rmax (gdp econ) 1e-6 in
  let capital := Rmax (capital econ) 1e-6 in
  let depreciation := 0.05 in
  let base_savings := 0.24 in
  let stability := clamp01 (regime_stability (risk agent)) in
  let tension := clamp01 (social_tension (society agent)) in
  let savings_rate := base_savings * (0.7 + 0.6 * stability - 0.4 * tension) in
  let savings_rate := Rmax 0.05 (Rmin 0.40 savings_rate) in
  let investment := savings_rate * gdp in
  set_economy (set_capital (Rmax 1e-6 ((1.0 - depreciation) * capital + investment)) econ) agent.

Definition update_economy_output (agent0 : AgentState) (world : WorldState) : AgentState :=
  let agent := Metrics.update_tfp_endogenous agent0 world in
  let econ := economy agent in
  let alpha := 0.3 in
  let beta := 0.60 in
  let gamma := 0.10 in
  let capital := Rmax (capital econ) 1e-6 in
  let labor := Rmax (population econ / 1e9) 1e-3 in
  let energy_input :=
    match dict_get (resources agent) "energy" with
    | Some energy =>
        let efficiency := Rmax 0.5 (efficiency energy) in
        Rmax (consumption energy / 1000.0 * efficiency) 1e-3
    | None => 1.0
    end in
  let tfp := match tfp econ with Some t => t | None => 1.0 end in
  let tech_level := Rmax 0.5 (tech_level (technology agent)) in
  let tech_factor := 1.0 + 0.6 * Rmax 0 (tech_level - 1.0) in
  let gdp_potential :=
    tfp * tech_factor * Rpower capital alpha * Rpower labor beta * Rpower energy_input gamma in
  let scale :=
    match _scale_factor econ with
    | Some s => s
    | None => if Rlt_dec 0 gdp_potential then gdp econ / gdp_potential else 1.0
    end in
  let econ := set_scale_factor (Some scale) econ in
  let gdp_target := gdp_potential * scale * Climate.effective_damage_multiplier agent world in
  let shocked := Z.ltb 0 (climate_shock_years econ) in
  let gdp_target :=
    if shocked then gdp_target * Rmax 0 (1.0 - climate_shock_penalty econ) else gdp_target in
  let econ :=
    if shocked then
      let econ := set_climate_shock_years (climate_shock_years econ - 1)%Z econ in
      if Z.leb (climate_shock_years econ) 0 then set_climate_shock_penalty 0.0 econ else econ
    else econ in
  let gdp_now := Rmax (gdp econ) 1e-6 in
  let gap := (gdp_target - gdp_now) / gdp_now in
  let adjust_speed := 0.30 + 0.35 * clamp01 (Rmax 0 gap) in
  let econ := set_gdp ((1.0 - adjust_speed) * gdp econ + adjust_speed * gdp_target) econ in
  let agent := update_capital_endogenous (set_economy econ agent) in
  let econ := economy agent in
  if Rlt_dec 0 (population econ)
  then set_economy (set_gdp_per_capita (gdp econ * 1e12 / population econ) econ) agent
  else agent.

(** The debt spread of [compute_effective_interest_rate], before its cap. *)
Definition debt_spread (agent : AgentState) : R :=
  let gdp := Rmax (gdp (economy agent)) 1e-6 in
  let debt_gdp := public_debt (economy agent) / gdp in
  let excess := Rmax 0 (debt_gdp - 0.6) in
  let spread_raw := 0.03 * excess + 0.10 * (excess ^ 2) in
  let fragility := 1.0 - regime_stability (risk agent) in
  spread_raw * (0.5 + 0.5 * debt_crisis_prone (risk agent)) * (0.7 + 0.6 * fragility).

(** The two accumulators of the loop over the agent's relations:
    [(total_weight, stress_sum)]. *)
Definition contagion_sums (agent : AgentState) (world : WorldState) : R * R :=
  fold_left
    (fun acc kv =>
       match dict_get (agents world) (fst kv) with
       | None => acc
       | Some partner =>
           let partner_gdp := Rmax (gdp (economy partner)) 1e-6 in
           let partner_debt_gdp := public_debt (economy partner) / partner_gdp in
           let partner_excess := Rmax 0 (partner_debt_gdp - 0.9) in
           let partner_stress := partner_excess * debt_crisis_prone (risk partner) in
           let weight := Rmax 0 (effective_trade_intensity (snd kv)) in
           (fst acc + weight, snd acc + weight * partner_stress)
       end)
    (relations_of world (id agent)) (0.0, 0.0).

Definition contagion_spread (agent : AgentState) (world : option WorldState) : R :=
  match world with
  | None => 0.0
  | Some w =>
      let sums := contagion_sums agent w in
      if Rlt_dec 0 (fst sums)
      then Rmin 0.05 (0.02 * (snd sums / fst sums))
      else 0.0
  end.

Definition compute_effective_interest_rate (agent : AgentState) (world : option WorldState) : R :=
  let base_rate := 0.02 in
  let spread := debt_spread agent in
  let rate := base_rate + Rmin spread 0.25 + contagion_spread agent world in
  Rmax 0 (Rmin rate 0.35).

Definition update_public_finances (agent : AgentState) (world : WorldState) : AgentState :=
  let econ := economy agent in
  let gdp := Rmax (gdp econ) 1e-6 in
  let base_social_share := 0.15 in
  let base_military_share := 0.035 in
  let climate_adaptation_share := 0.005 + 0.015 * Rmax 0 (climate_risk (climate agent)) in
  let econ := set_climate_adaptation_spending (gdp * climate_adaptation_share) econ in
  let baseline_spending :=
    gdp * (base_social_share + base_military_share + climate_adaptation_share) in
  let policy_spending := social_spending econ + military_spending econ + rd_spending econ in
  let econ := set_gov_spending (Rmax 0 (baseline_spending + policy_spending)) econ in
  let econ := set_taxes (0.22 * gdp) econ in
  let effective_rate := compute_effective_interest_rate (set_economy econ agent) (Some world) in
  let econ := set_interest_payments (effective_rate * public_debt econ) econ in
  let primary_deficit := gov_spending econ - taxes econ in
  let total_deficit := primary_deficit + interest_payments econ in
  let max_new_debt := 0.05 * gdp in
  let econ :=
    if Rlt_dec 0 total_deficit
    then set_public_debt (public_debt econ + Rmin total_deficit max_new_debt) econ
    else set_public_debt (Rmax 0 (public_debt econ + total_deficit) + 0.0) econ in
  let econ := set_rd_spending (rd_spending econ * 0.85) econ in
  set_economy econ agent.

End Economy.

(** ** resources.py *)

Module Resources.

Record EnergyAllocation : Type := mkEnergyAllocation {
  reserve_zj : R;
  prod_cap_zj_per_year : R
}.

Definition allocate_energy_reserves_and_caps (world : WorldState) : dict EnergyAllocation :=
  let global_energy_reserves :=
    dict_get_default (global_reserves (global_state world)) "energy" WORLD_PROVEN_RESERVES_ZJ in
  let key_of (agent : AgentState) : R :=
    match dict_get (resources agent) "energy" with
    | Some energy => Rmax (own_reserve energy) 0
    | None => 0.0
    end in
  let keys := fold_left (fun d kv => dict_set d (fst kv) (key_of (snd kv))) (agents world) [] in
  let total_key := fold_left (fun t kv => t + key_of (snd kv)) (agents world) 0.0 in
  if Rle_dec total_key 0 then
    let count := Rmax (Rlen (agents world)) 1 in
    fold_left
      (fun d kv =>
         dict_set d (fst kv)
           (mkEnergyAllocation (global_energy_reserves / count)
              (WORLD_ANNUAL_SUPPLY_CAP_ZJ / count)))
      (agents world) []
  else
    fold_left
      (fun d kv =>
         let share := snd kv / total_key in
         dict_set d (fst kv)
           (mkEnergyAllocation (share * global_energy_reserves)
              (share * WORLD_ANNUAL_SUPPLY_CAP_ZJ)))
      keys [].

Definition DEFAULT_REGEN_PARAMS : dict R :=
  [("energy", 0.0); ("food", 0.02); ("metals", 0.0)]%string.
Definition DEFAULT_TECH_EXPANSION_PARAMS : dict R :=
  [("energy", 0.01); ("food", 0.0); ("metals", 0.005)]%string.

(** The keyword arguments of [update_resource_stocks] after the two [None]
    defaults are filled in. *)
Record StockParams : Type := mkStockParams {
  energy_alloc : option (dict EnergyAllocation);
  regen_params : dict R;
  tech_expansion_params : dict R;
  metals_recycling_rate : R;
  metals_substitution_elasticity : R;
  metals_price_ref : R
}.

Definition default_stock_params (alloc : option (dict EnergyAllocation)) : StockParams :=
  mkStockParams alloc DEFAULT_REGEN_PARAMS DEFAULT_TECH_EXPANSION_PARAMS 0.45 0.3 1.0.

(** The body of the inner loop for a resource the agent has: the updated
    resource and its primary production. *)
Definition update_one_resource
    (p : StockParams) (world : WorldState) (agent_id resource_name : string)
    (resource : ResourceSubState) : option (ResourceSubState * R) :=
  let is_metals := String.eqb resource_name "metals" in
  let is_energy := String.eqb resource_name "energy" in
  let is_food := String.eqb resource_name "food" in
  resource <-
    (if is_metals then
       let price := dict_get_default (prices (global_state world)) "metals" (metals_price_ref p) in
       if (Rltb 0 (metals_substitution_elasticity p) && Rltb 0 price)%bool then
         if Req_dec_T (metals_price_ref p) 0 then None
         else
           adjust <- py_pow (price / metals_price_ref p) (- metals_substitution_elasticity p) ;;
           Some (set_consumption (Rmax 0 (consumption resource * adjust)) resource)
       else Some resource
     else Some resource) ;;
  let production :=
    match (if is_energy then energy_alloc p else None) with
    | Some alloc =>
        let cap_year :=
          match dict_get alloc agent_id with
          | Some caps => prod_cap_zj_per_year caps
          | None => WORLD_ANNUAL_SUPPLY_CAP_ZJ
          end in
        let desired := Rmax 0 (Core.production resource) in
        let max_from_reserve := Rmax 0 (own_reserve resource) in
        Rmin (Rmin desired cap_year) max_from_reserve
    | None => Rmax 0 (Core.production resource)
    end in
  let primary_production := production in
  let production :=
    if is_metals then
      let recycle_rate := Rmax 0 (Rmin 0.9 (metals_recycling_rate p)) in
      production + recycle_rate * Rmax 0 (consumption resource)
    else production in
  let regen := dict_get_default (regen_params p) resource_name 0.0
               * Rmax (own_reserve resource) 0 in
  let tech_expansion := dict_get_default (tech_expansion_params p) resource_name 0.0
                        * Rmax (own_reserve resource) 0 in
  let new_reserve :=
    if is_food then own_reserve resource + regen + tech_expansion
    else own_reserve resource - primary_production + regen + tech_expansion in
  Some (set_production production (set_own_reserve (Rmax 0 new_reserve) resource),
        primary_production).

(** The inner loop over [RESOURCE_NAMES] for one agent; [totals] is
    [total_primary_production]. *)
Definition update_agent_resources
    (p : StockParams) (world : WorldState) (agent_id : string)
    (st : AgentState * dict R) (resource_name : string) : option (AgentState * dict R) :=
  let agent := fst st in
  match dict_get (resources agent) resource_name with
  | None => Some st
  | Some resource =>
      r <- update_one_resource p world agent_id resource_name resource ;;
      Some (set_resources (dict_set (resources agent) resource_name (fst r)) agent,
            dict_set (snd st) resource_name
              (dict_get_default (snd st) resource_name 0.0 + snd r))
  end.

Fixpoint update_agents_resources
    (p : StockParams) (world : WorldState) (l : dict AgentState) (totals : dict R)
    : option (dict AgentState * dict R) :=
  match l with
  | [] => Some ([], totals)
  | (agent_id, agent) :: rest =>
      r <- foldM (update_agent_resources p world agent_id) RESOURCE_NAMES (agent, totals) ;;
      r' <- update_agents_resources p world rest (snd r) ;;
      Some ((agent_id, fst r) :: fst r', snd r')
  end.

Definition update_global_reserve
    (p : StockParams) (totals : dict R) (reserves : dict R) (resource_name : string) : dict R :=
  let global_reserve := dict_get_default reserves resource_name 0.0 in
  let total_production := dict_get_default totals resource_name 0.0 in
  let regen_global := dict_get_default (regen_params p) resource_name 0.0 * Rmax global_reserve 0 in
  let tech_global :=
    dict_get_default (tech_expansion_params p) resource_name 0.0 * Rmax global_reserve 0 in
  dict_set reserves resource_name
    (Rmax 0 (global_reserve - total_production + regen_global + tech_global)).

Definition update_resource_stocks (world : WorldState) (p : StockParams) : option WorldState :=
  let totals0 := map (fun name => (name, 0.0)) RESOURCE_NAMES in
  r <- update_agents_resources p world (agents world) totals0 ;;
  let world := set_agents (fst r) world in
  let reserves :=
    fold_left (update_global_reserve p (snd r)) RESOURCE_NAMES
      (global_reserves (global_state world)) in
  Some (set_global_state (set_global_reserves reserves (global_state world)) world).

Definition update_global_resource_prices
    (world : WorldState) (alpha min_price max_price : R) : WorldState :=
  let epsilon := 1e-6 in
  let total (f : ResourceSubState -> R) (resource_name : string) : R :=
    fold_left
      (fun t agent =>
         match dict_get (resources agent) resource_name with
         | Some resource => t + Rmax 0 (f resource)
         | None => t
         end)
      (dict_values (agents world)) 0.0 in
  let new_prices :=
    fold_left
      (fun ps resource_name =>
         let supply := total production resource_name in
         let demand := total consumption resource_name in
         let current_price := dict_get_default ps resource_name 1.0 in
         let imbalance := (demand - supply) / (supply + epsilon) in
         let next_price := current_price * (1.0 + alpha * imbalance) in
         dict_set ps resource_name (Rmax min_price (Rmin max_price next_price)))
      RESOURCE_NAMES (prices (global_state world)) in
  set_global_state (set_prices new_prices (global_state world)) world.

End Resources.

(** ** memory.py *)

Module Memory.

Record LastAction : Type := mkLastAction {
  la_tax_fuel_change : R;
  la_social_spending_change : R;
  la_military_spending_change : R;
  la_rd_investment_change : R;
  la_climate_policy : ClimatePolicy
}.

Record Snapshot : Type := mkSnapshot {
  snap_time : Z;
  snap_gdp : R;
  snap_gdp_per_capita : R;
  snap_trust_gov : R;
  snap_social_tension : R;
  snap_security_margin : R;
  snap_climate_risk : R;
  snap_co2_emissions : R;
  snap_last_action : option LastAction
}.

Definition AgentMemory : Type := dict (list Snapshot).

(** The summary dictionary; a trend is absent when the history is empty. *)
Record MemorySummary : Type := mkMemorySummary {
  horizon : Z;
  gdp_trend : option R;
  gdp_per_capita_trend : option R;
  trust_trend : option R;
  tension_trend : option R;
  security_trend : option R;
  climate_risk_trend : option R
}.

Definition snapshot_of (world : WorldState) (agent : AgentState) (last_action : option Action)
    : Snapshot :=
  mkSnapshot (time world) (gdp (economy agent)) (gdp_per_capita (economy agent))
    (trust_gov (society agent)) (social_tension (society agent))
    (match security_margin agent with Some m => m | None => 1.0 end)
    (climate_risk (climate agent)) (co2_annual_emissions (climate agent))
    (match last_action with
     | Some a =>
         let d := domestic_policy a in
         Some (mkLastAction (tax_fuel_change d) (social_spending_change d)
                 (military_spending_change d) (rd_investment_change d) (climate_policy d))
     | None => None
     end).

(** [history[-n:]]: the last [n] elements for a positive [n], the whole list
    for 0, the list without its first [-n] elements for a negative [n]. *)
Definition last_n {A : Type} (n : Z) (l : list A) : list A :=
  if (0 <? n)%Z then skipn (List.length l - Z.to_nat n) l
  else if (n =? 0)%Z then l
  else skipn (Z.to_nat (- n)) l.

Definition update_agent_memory
    (memory : AgentMemory) (world : WorldState) (actions : dict Action) (max_horizon : Z)
    : AgentMemory :=
  fold_left
    (fun mem kv =>
       let snapshot := snapshot_of world (snd kv) (dict_get actions (fst kv)) in
       let history := dict_get_default mem (fst kv) [] ++ [snapshot] in
       dict_set mem (fst kv)
         (if Z.ltb max_horizon (Z.of_nat (List.length history))
          then last_n max_horizon history
          else history))
    (agents world) memory.

Definition summarize_agent_memory (memory : AgentMemory) (agent_id : string) : MemorySummary :=
  match dict_get_default memory agent_id [] with
  | [] => mkMemorySummary 0 None None None None None None
  | first :: rest =>
      let last := List.last rest first in
      let diff (f : Snapshot -> R) : option R := Some (f last - f first) in
      mkMemorySummary (snap_time last - snap_time first)%Z
        (diff snap_gdp) (diff snap_gdp_per_capita) (diff snap_trust_gov)
        (diff snap_social_tension) (diff snap_security_margin) (diff snap_climate_risk)
  end.

End Memory.

(** ** credit_rating.py *)

Module CreditRating.

Definition GREEN_MAX : Z := 12.
Definition YELLOW_MAX : Z := 20.
Definition RATING_MIN : Z := 1.
Definition RATING_MAX : Z := 26.

Inductive Zone : Type := green | yellow | red.

Definition _normalize (value lo hi : R) : R :=
  if Rle_dec hi lo then 0.0 else clamp01 ((value - lo) / (hi - lo)).

Definition _safe_div (num den dflt : R) : R :=
  if Rle_dec (Rabs den) 1e-9 then dflt else num / den.

Definition rating_zone (rating : Z) : Zone :=
  if Z.leb rating GREEN_MAX then green
  else if Z.leb rating YELLOW_MAX then yellow
  else red.

(** [(pressure, mild, strong)] *)
Definition _inbound_sanction_pressure (world : WorldState) (agent_id : string) : R * Z * Z :=
  let counts :=
    fold_left
      (fun ms actor =>
         match dict_get (active_sanctions actor) agent_id with
         | Some S_mild => ((fst ms + 1)%Z, snd ms)
         | Some S_strong => (fst ms, (snd ms + 1)%Z)
         | _ => ms
         end)
      (dict_values (agents world)) (0%Z, 0%Z) in
  (clamp01 ((IZR (fst counts) + 2.0 * IZR (snd counts)) / 8.0), fst counts, snd counts).

(** [(at_war, next_year_war_risk, war_links, high_conflict_links)] *)
Definition _war_metrics (agent : AgentState) (world : WorldState) : R * R * Z * Z :=
  let rels := relations_of world (id agent) in
  let acc :=
    fold_left
      (fun acc kv =>
         let '(war_links, high_conflict_links, war_risk) := acc in
         let rel := snd kv in
         let war_links := if at_war rel then (war_links + 1)%Z else war_links in
         let high_conflict_links :=
           if Rle_dec 0.55 (conflict_level rel) then (high_conflict_links + 1)%Z
           else high_conflict_links in
         let target_mil :=
           match dict_get (agents world) (fst kv) with
           | Some target => military_power (technology target)
           | None => 1.0
           end in
         let own_mil := Rmax (military_power (technology agent)) 1e-6 in
         let military_pressure := clamp01 ((target_mil / own_mil - 1.0) / 1.5) in
         let link_risk :=
           0.55 * clamp01 (conflict_level rel)
           + 0.25 * (1.0 - clamp01 (trust rel))
           + 0.20 * military_pressure in
         (war_links, high_conflict_links, Rmax war_risk link_risk))
      rels (0%Z, 0%Z, 0.0) in
  let '(war_links, high_conflict_links, war_risk) := acc in
  let at_war := if Z.ltb 0 war_links then 1.0 else 0.0 in
  let next_year_war_risk :=
    clamp01 (0.65 * war_risk
             + 0.20 * clamp01 (conflict_proneness (risk agent))
             + 0.15 * clamp01 (hawkishness (political agent))) in
  (at_war, next_year_war_risk, war_links, high_conflict_links).

Definition _sanction_risk_next_year (agent : AgentState) (world : WorldState) : R :=
  fold_left
    (fun candidate kv =>
       match dict_get (agents world) (fst kv) with
       | None => candidate
       | Some actor =>
           let rel := snd kv in
           let hostility :=
             0.55 * clamp01 (conflict_level rel) + 0.45 * (1.0 - clamp01 (trust rel)) in
           let propensity := clamp01 (sanction_propensity (political actor)) in
           Rmax candidate (clamp01 (0.6 * hostility + 0.4 * propensity))
       end)
    (relations_of world (id agent)) 0.0.

(** [(structural, management)] *)
Definition _social_structural_risk (agent : AgentState) : R * R :=
  let gini := _normalize (inequality_gini (society agent)) 30.0 65.0 in
  let unemployment := _normalize (unemployment (economy agent)) 0.05 0.25 in
  let inflation := _normalize (inflation (economy agent)) 0.02 0.15 in
  let water := clamp01 (water_stress (risk agent)) in
  let reserves := Metrics.compute_reserve_years agent in
  let food_years := dict_get_default reserves "food" 5.0 in
  let food_stress := clamp01 ((2.0 - Rmin food_years 2.0) / 2.0) in
  let structural :=
    clamp01 (0.30 * gini + 0.20 * unemployment + 0.15 * inflation
             + 0.20 * water + 0.15 * food_stress) in
  let social_spending_share :=
    clamp01 (_safe_div (social_spending (economy agent))
               (Rmax (gdp (economy agent)) 1e-6) 0.0) in
  let management :=
    clamp01 (0.35 * clamp01 (trust_gov (society agent))
             + 0.25 * clamp01 (policy_space (political agent))
             + 0.20 * clamp01 (regime_stability (risk agent))
             + 0.20 * _normalize social_spending_share 0.04 0.20) in
  (structural, management).

(** The entries of the dictionary that [_credit_risk_components] returns. *)
Record Components : Type := mkComponents {
  financial_risk : R;
  war_risk : R;
  social_risk : R;
  sanctions_risk : R;
  macro_risk : R;
  total_risk_score : R;
  debt_gdp : R;
  interest_rate : R;
  debt_crisis_now : R;
  at_war_now : R;
  war_links : R;
  high_conflict_links : R;
  protest_risk : R;
  next_year_revolution_risk : R;
  structural_social_risk : R;
  management_strength : R;
  sanction_now : R;
  sanction_next : R;
  inbound_sanctions_mild : R;
  inbound_sanctions_strong : R;
  macro_reserve_risk : R;
  gdp_trend_ratio : R
}.

(** The weighted sum that closes [_credit_risk_components]. *)
Definition combine_risks (financial war social sanctions macro : R) : R :=
  clamp01 (0.25 * financial + 0.20 * war + 0.22 * social + 0.13 * sanctions + 0.20 * macro).

Definition opt_float (o : option R) : R := match o with Some v => v | None => 0.0 end.
Definition flag_float (o : option bool) : R :=
  match o with Some true => 1.0 | _ => 0.0 end.

Definition _credit_risk_components
    (agent : AgentState) (world : WorldState) (memory_summary : Memory.MemorySummary)
    : Components :=
  let gdp := Rmax (gdp (economy agent)) 1e-6 in
  let debt_gdp := _safe_div (public_debt (economy agent)) gdp 0.0 in
  let interest_rate := Economy.compute_effective_interest_rate agent (Some world) in
  let debt_stress := clamp01 (Metrics.compute_debt_stress agent / 3.0) in
  let debt_crisis_now := flag_float (_debt_crisis_this_step agent) in
  let gdp_trend := opt_float (Memory.gdp_trend memory_summary) in
  let gdp_trend_ratio := _safe_div gdp_trend gdp 0.0 in
  let growth_deterioration := _normalize (- gdp_trend_ratio) 0.01 0.20 in
  let financial_now :=
    clamp01 (0.35 * _normalize debt_gdp 0.6 1.8
             + 0.25 * _normalize interest_rate 0.04 0.20
             + 0.25 * debt_stress
             + 0.15 * debt_crisis_now) in
  let financial_next := clamp01 (0.65 * debt_stress + 0.35 * growth_deterioration) in
  let financial_risk := clamp01 (0.60 * financial_now + 0.40 * financial_next) in
  let '(at_war, next_year_war_risk, war_links, high_conflict_links) :=
    _war_metrics agent world in
  let war_risk := clamp01 (0.60 * at_war + 0.40 * next_year_war_risk) in
  let protest_risk := clamp01 (Metrics.compute_protest_risk agent) in
  let trust := clamp01 (trust_gov (society agent)) in
  let tension := clamp01 (social_tension (society agent)) in
  let regime_fragility := 1.0 - clamp01 (regime_stability (risk agent)) in
  let collapsed_now := flag_float (_collapsed_this_step agent) in
  let tension_trend := opt_float (Memory.tension_trend memory_summary) in
  let trust_trend := opt_float (Memory.trust_trend memory_summary) in
  let next_year_revolution_risk :=
    clamp01 (0.30 * protest_risk
             + 0.25 * tension
             + 0.20 * (1.0 - trust)
             + 0.15 * regime_fragility
             + 0.10 * _normalize (tension_trend - trust_trend) 0.00 0.20) in
  let '(structural_risk, management_strength) := _social_structural_risk agent in
  let social_risk :=
    clamp01 (0.55 * next_year_revolution_risk
             + 0.30 * structural_risk
             + 0.15 * collapsed_now
             - 0.20 * management_strength) in
  let '(sanction_now, mild_count, strong_count) :=
    _inbound_sanction_pressure world (id agent) in
  let sanction_next := _sanction_risk_next_year agent world in
  let sanctions_risk := clamp01 (0.55 * sanction_now + 0.45 * sanction_next) in
  let fx_buffer := _safe_div (fx_reserves (economy agent)) gdp 0.0 in
  let reserves := Metrics.compute_reserve_years agent in
  let reserve_risk :=
    clamp01 (0.5 * _normalize (3.0 - Rmin (dict_get_default reserves "energy" 3.0) 3.0) 0.0 3.0
             + 0.3 * _normalize (2.0 - Rmin (dict_get_default reserves "food" 2.0) 2.0) 0.0 2.0
             + 0.2 * _normalize (3.0 - Rmin (dict_get_default reserves "metals" 3.0) 3.0) 0.0 3.0) in
  let macro_risk :=
    clamp01 (0.35 * _normalize (- gdp_trend_ratio) 0.01 0.20
             + 0.20 * _normalize (unemployment (economy agent)) 0.05 0.22
             + 0.15 * _normalize (inflation (economy agent)) 0.02 0.12
             + 0.15 * _normalize (0.20 - Rmin fx_buffer 0.20) 0.0 0.20
             + 0.15 * reserve_risk) in
  let total_risk_score :=
    combine_risks financial_risk war_risk social_risk sanctions_risk macro_risk in
  mkComponents financial_risk war_risk social_risk sanctions_risk macro_risk total_risk_score
    debt_gdp interest_rate debt_crisis_now at_war (IZR war_links) (IZR high_conflict_links)
    protest_risk next_year_revolution_risk structural_risk management_strength
    sanction_now sanction_next (IZR mild_count) (IZR strong_count) reserve_risk gdp_trend_ratio.

Definition _risk_to_rating (risk_score : R) : Z :=
  let mapped := py_round (IZR RATING_MIN + clamp01 risk_score * IZR (RATING_MAX - RATING_MIN)) in
  Z.max RATING_MIN (Z.min RATING_MAX mapped).

Definition zone_name (z : Zone) : string :=
  match z with green => "green" | yellow => "yellow" | red => "red" end.

(** The dictionary of the components, as [agent.credit_rating_details]
    keeps it. *)
Definition components_dict (c : Components) : dict R :=
  [("financial_risk", financial_risk c);
   ("war_risk", war_risk c);
   ("social_risk", social_risk c);
   ("sanctions_risk", sanctions_risk c);
   ("macro_risk", macro_risk c);
   ("total_risk_score", total_risk_score c);
   ("debt_gdp", debt_gdp c);
   ("interest_rate", interest_rate c);
   ("debt_crisis_now", debt_crisis_now c);
   ("at_war_now", at_war_now c);
   ("war_links", war_links c);
   ("high_conflict_links", high_conflict_links c);
   ("protest_risk", protest_risk c);
   ("next_year_revolution_risk", next_year_revolution_risk c);
   ("structural_social_risk", structural_social_risk c);
   ("management_strength", management_strength c);
   ("sanction_now", sanction_now c);
   ("sanction_next", sanction_next c);
   ("inbound_sanctions_mild", inbound_sanctions_mild c);
   ("inbound_sanctions_strong", inbound_sanctions_strong c);
   ("macro_reserve_risk", macro_reserve_risk c);
   ("gdp_trend_ratio", gdp_trend_ratio c)]%string.

Definition update_credit_ratings (world : WorldState) (memory : Memory.AgentMemory) : WorldState :=
  fold_left
    (fun w kv =>
       match dict_get (agents w) (fst kv) with
       | None => w
       | Some agent =>
           let summary := Memory.summarize_agent_memory memory (fst kv) in
           let components := _credit_risk_components agent w summary in
           let rating := _risk_to_rating (total_risk_score components) in
           let zone := rating_zone rating in
           put_agent (fst kv)
             (set_credit_rating_details (Some (components_dict components))
                (set_credit_risk_score (Some (total_risk_score components))
                   (set_credit_zone (Some (zone_name zone))
                      (set_credit_rating (Some rating) agent))))
             w
       end)
    (agents world) world.

End CreditRating.

(** ** social.py *)

Module Social.

Definition update_population (agent : AgentState) (world : WorldState) : AgentState :=
  let econ := economy agent in
  let gdp_per_capita := gdp_per_capita econ in
  let gini := inequality_gini (society agent) / 100.0 in
  let availability_ratio :=
    match dict_get (resources agent) "food" with
    | Some food => (production food + 0.2 * own_reserve food) / Rmax (consumption food) 1e-6
    | None => 1.0
    end in
  let availability_ratio := Rmin 2.0 (Rmax 0 availability_ratio) in
  let scarcity := Rmax 0 (1.0 - availability_ratio) in
  let baseline :=
    if Req_dec_T (baseline_gdp_pc (global_state world)) 0 then 1.0
    else baseline_gdp_pc (global_state world) in
  let ratio := Rmax (gdp_per_capita / baseline) 1e-6 in
  let prosperity := 1.0 / (1.0 + exp (- 1.2 * ln ratio)) in
  let base_birth := 0.025 in
  let birth_decline := 0.000001 in
  let birth_rate := base_birth - birth_decline * gdp_per_capita in
  let birth_rate := birth_rate * (1.0 - 0.5 * prosperity) in
  let birth_rate := birth_rate * (1.0 - 0.6 * scarcity) in
  let birth_rate := birth_rate * (1.0 - 0.3 * gini) in
  let econ := set_birth_rate (Rmax 0.006 (Rmin 0.04 birth_rate)) econ in
  let base_death := 0.012 in
  let death_decline := 0.0000005 in
  let death_rate := base_death - death_decline * gdp_per_capita in
  let death_rate := death_rate * (1.0 + 1.0 * scarcity + 0.4 * gini) in
  let death_rate := death_rate * (1.0 - 0.2 * prosperity) in
  let econ := set_death_rate (Rmax 0.004 (Rmin 0.03 death_rate)) econ in
  let growth_rate := Core.birth_rate econ - Core.death_rate econ in
  set_economy (set_population (population econ * (1 + growth_rate)) econ) agent.

(** The destinations of one origin with their weights, in the order of the
    origin's relations; a missing [gdp_pc] entry is a [KeyError]. *)
Definition migration_weights
    (world : WorldState) (gdp_pc : dict R) (baseline : R) (origin_id : string) (origin_pc : R)
    : option (dict R) :=
  foldM
    (fun weights kv =>
       match dict_get (agents world) (fst kv) with
       | None => Some weights
       | Some dest =>
           dest_pc <- dict_get gdp_pc (fst kv) ;;
           let gap := Rmax 0 ((dest_pc - origin_pc) / baseline) in
           if Rle_dec gap 0 then Some weights
           else
             let dest_conflict := clamp01 (conflict_proneness (risk dest)) in
             let trade_weight := Rmax 0 (effective_trade_intensity (snd kv)) in
             let weight := trade_weight * gap * (1.0 - 0.5 * dest_conflict) in
             if Rle_dec weight 0 then Some weights
             else Some (dict_set weights (fst kv) weight)
       end)
    (relations_of world origin_id) [].

Definition migration_origin
    (world : WorldState) (gdp_pc : dict R) (baseline base_rate max_share : R)
    (net_flows : dict R) (kv : string * AgentState) : option (dict R) :=
  let origin_id := fst kv in
  let origin := snd kv in
  origin_pc <- dict_get gdp_pc origin_id ;;
  let income_gap := Rmax 0 ((baseline - origin_pc) / baseline) in
  let conflict_push := clamp01 (conflict_proneness (risk origin)) in
  let push := 0.6 * income_gap + 0.4 * conflict_push in
  if Rle_dec push 0 then Some net_flows
  else
    let population := population (economy origin) in
    let outflow := base_rate * population * push in
    let outflow := Rmin outflow (max_share * population) in
    if Rle_dec outflow 0 then Some net_flows
    else
      weights <- migration_weights world gdp_pc baseline origin_id origin_pc ;;
      let total_weight := fold_left (fun t kw => t + snd kw) weights 0.0 in
      if Rle_dec total_weight 0 then Some net_flows
      else
        Some (fold_left
                (fun flows kw =>
                   let flow := outflow * (snd kw / total_weight) in
                   let flows :=
                     dict_set flows origin_id (dict_get_default flows origin_id 0.0 - flow) in
                   dict_set flows (fst kw) (dict_get_default flows (fst kw) 0.0 + flow))
                weights net_flows).

Definition update_migration_flows (world : WorldState) : option WorldState :=
  let baseline :=
    if Req_dec_T (baseline_gdp_pc (global_state world)) 0 then 1.0
    else baseline_gdp_pc (global_state world) in
  let base_rate := 0.001 in
  let max_share := 0.003 in
  let gdp_pc :=
    fold_left
      (fun d agent =>
         let econ := economy agent in
         dict_set d (id agent)
           (if Rlt_dec 0 (gdp_per_capita econ) then gdp_per_capita econ
            else gdp econ * 1e12 / Rmax (population econ) 1.0))
      (dict_values (agents world)) [] in
  let net_flows0 := fold_left (fun d k => dict_set d k 0.0) (dict_keys (agents world)) [] in
  net_flows <- foldM (migration_origin world gdp_pc baseline base_rate max_share)
                 (agents world) net_flows0 ;;
  Some (fold_left
          (fun w kd =>
             if Rle_dec (Rabs (snd kd)) 0 then w
             else
               match dict_get (agents w) (fst kd) with
               | Some agent =>
                   put_agent (fst kd)
                     (set_economy
                        (set_population (Rmax 0 (population (economy agent) + snd kd))
                           (economy agent))
                        agent)
                     w
               | None => w
               end)
          net_flows world).

Definition update_social_state (agent : AgentState) (action : Action) : AgentState :=
  let econ := economy agent in
  let soc := society agent in
  let gdp_pc_effect := 0.00005 * (gdp_per_capita econ / 10000.0) in
  let unemployment_effect := -0.025 * unemployment econ in
  let inflation_effect := -0.025 * inflation econ in
  let inequality_trust_penalty := -0.0004 * inequality_gini soc in
  let tension_trust_penalty := -0.08 * Rmax 0 (social_tension soc - 0.3) in
  let trust_change :=
    gdp_pc_effect + unemployment_effect + inflation_effect
    + inequality_trust_penalty + tension_trust_penalty in
  let soc := set_trust_gov (Rmax 0 (Rmin 1.0 (trust_gov soc + trust_change))) soc in
  let inequality_sensitivity := 1.0 - idv (culture agent) / 100.0 in
  let inequality_effect := 0.0005 * inequality_gini soc * inequality_sensitivity in
  let stress_effect := 0.01 * unemployment econ + 0.005 * inflation econ in
  let trust_anchor := 0.06 * (0.5 - trust_gov soc) in
  let tension_change := inequality_effect + stress_effect + trust_anchor in
  let soc := set_social_tension (Rmax 0 (Rmin 1.0 (social_tension soc + tension_change))) soc in
  let prev_gdp := match _gdp_prev econ with Some g => g | None => gdp econ end in
  let gdp := gdp econ in
  let gdp_growth := (gdp - prev_gdp) / Rmax prev_gdp 1e-6 in
  let econ := set_gdp_prev (Some gdp) econ in
  let social_spend_delta := social_spending_change (domestic_policy action) in
  let growth_effect := 6.0 * gdp_growth in
  let recession_penalty := 4.0 * Rabs (Rmin 0 gdp_growth) * (0.5 + social_tension soc) in
  let fiscal_effect := -60.0 * social_spend_delta in
  let tension_effect := 1.2 * (social_tension soc - 0.4) in
  let gini_next :=
    inequality_gini soc + growth_effect + recession_penalty + fiscal_effect + tension_effect in
  let soc := set_inequality_gini (Rmax 20.0 (Rmin 70.0 gini_next)) soc in
  set_society soc (set_economy econ agent).

Definition check_regime_stability (agent : AgentState) : AgentState :=
  let trust_threshold := 0.2 in
  let tension_threshold := 0.8 in
  if (Rltb (trust_gov (society agent)) trust_threshold
      && Rltb tension_threshold (social_tension (society agent)))%bool
  then
    match _collapsed_this_step agent with
    | Some true => agent
    | _ =>
        let econ := economy agent in
        let econ := set_capital (capital econ * 0.7) econ in
        let econ := set_gdp (gdp econ * 0.8) econ in
        let econ := set_public_debt (public_debt econ * 0.7) econ in
        let soc := society agent in
        let soc := set_trust_gov (Rmax (trust_gov soc) 0.25) soc in
        let soc := set_social_tension (Rmin (social_tension soc) 0.6) soc in
        let rsk := set_regime_stability (Rmax 0 (regime_stability (risk agent) - 0.2)) (risk agent) in
        set_risk rsk (set_society soc (set_economy econ (set_collapsed_this_step (Some true) agent)))
    end
  else
    match _collapsed_this_step agent with
    | Some _ => set_collapsed_this_step (Some false) agent
    | None => agent
    end.

(** The test of [check_debt_crisis]. *)
Definition debt_crisis_condition (agent : AgentState) (world : WorldState) : bool :=
  let gdp := Rmax (gdp (economy agent)) 1e-6 in
  let debt_gdp := public_debt (economy agent) / gdp in
  let interest_rate := Economy.compute_effective_interest_rate agent (Some world) in
  (Rltb 1.2 debt_gdp && Rltb 0.12 interest_rate)%bool.

Definition check_debt_crisis (agent : AgentState) (world : WorldState) : AgentState :=
  if debt_crisis_condition agent world then
    match _debt_crisis_this_step agent with
    | Some true => agent
    | _ =>
        let econ := economy agent in
        let econ := set_public_debt (public_debt econ * 0.6) econ in
        let econ := set_gdp (gdp econ * 0.9) econ in
        let econ := set_unemployment (Rmin 0.3 (unemployment econ + 0.05)) econ in
        let soc := society agent in
        let soc := set_trust_gov (Rmax 0 (trust_gov soc - 0.15)) soc in
        let soc := set_social_tension (Rmin 1.0 (social_tension soc + 0.15)) soc in
        let rsk := set_regime_stability (Rmax 0 (regime_stability (risk agent) - 0.15)) (risk agent) in
        set_risk rsk (set_society soc (set_economy econ (set_debt_crisis_this_step (Some true) agent)))
    end
  else
    match _debt_crisis_this_step agent with
    | Some _ => set_debt_crisis_this_step (Some false) agent
    | None => agent
    end.

End Social.

(** ** political_dynamics.py *)

Module PoliticalDynamics.

Definition _stress (years threshold : R) : R := clamp01 (1.0 - years / threshold).

Definition update_political_state (agent : AgentState) : AgentState :=
  let trust := clamp01 (trust_gov (society agent)) in
  let tension := clamp01 (social_tension (society agent)) in
  let gini := clamp01 (inequality_gini (society agent) / 100.0) in
  let protest_risk := clamp01 (Metrics.compute_protest_risk agent) in
  let debt_stress := clamp01 (Metrics.compute_debt_stress agent / 3.0) in
  let legitimacy := clamp01 (0.6 * trust + 0.4 * (1.0 - tension)) in
  let protest_pressure := clamp01 (0.5 * protest_risk + 0.5 * tension) in
  let reserves := Metrics.compute_reserve_years agent in
  let energy_years := dict_get_default reserves "energy" 10.0 in
  let food_years := dict_get_default reserves "food" 10.0 in
  let metals_years := dict_get_default reserves "metals" 10.0 in
  let resource_stress :=
    clamp01 (0.5 * _stress energy_years 5.0
             + 0.3 * _stress food_years 3.0
             + 0.2 * _stress metals_years 5.0) in
  let hawkishness :=
    clamp01 (0.3 * conflict_proneness (risk agent)
             + 0.25 * (1.0 - trust)
             + 0.25 * (1.0 - regime_stability (risk agent))
             + 0.20 * resource_stress) in
  let protectionism :=
    clamp01 (0.4 * unemployment (economy agent) + 0.3 * gini + 0.3 * (1.0 - trust)) in
  let coalition_openness := clamp01 (0.6 * trust + 0.4 * (1.0 - tension)) in
  let sanction_propensity :=
    clamp01 (0.6 * hawkishness + 0.4 * (1.0 - coalition_openness)) in
  let policy_space :=
    clamp01 (0.5 * legitimacy + 0.3 * (1.0 - protest_pressure) + 0.2 * (1.0 - debt_stress)) in
  set_political
    (mkPoliticalState legitimacy protest_pressure hawkishness protectionism
       coalition_openness sanction_propensity policy_space
       (last_block_change (political agent)))
    agent.

Definition update_political_states (world : WorldState) : WorldState :=
  for_each_agent (fun _ _ agent => update_political_state agent) world.

Definition eq_sanction (a b : SanctionType) : bool :=
  match a, b with
  | S_none, S_none | S_mild, S_mild | S_strong, S_strong => true
  | _, _ => false
  end.

Definition eq_level (a b : TradeRestrictionLevel) : bool :=
  match a, b with
  | TR_none, TR_none | TR_soft, TR_soft | TR_hard, TR_hard => true
  | _, _ => false
  end.

Definition apply_political_constraints (action : Action) (agent : AgentState) : Action :=
  let dom := domestic_policy action in
  let pol := political agent in
  let scale := 0.4 + 0.6 * clamp01 (policy_space pol) in
  let dom :=
    if Rlt_dec 0 (tax_fuel_change dom)
    then set_tax_fuel_change
           (tax_fuel_change dom * Rmax 0.2 (1.0 - 0.7 * protest_pressure pol)) dom
    else dom in
  let dom := set_tax_fuel_change (tax_fuel_change dom * scale) dom in
  let dom := set_social_spending_change (social_spending_change dom * scale) dom in
  let dom := set_military_spending_change (military_spending_change dom * scale) dom in
  let dom := set_rd_investment_change (rd_investment_change dom * scale) dom in
  let fp := foreign_policy action in
  let fp :=
    if Rlt_dec (sanction_propensity pol) 0.2 then set_sanctions_actions [] fp
    else if Rlt_dec (sanction_propensity pol) 0.4 then
      set_sanctions_actions
        (map (fun s => if eq_sanction (sanc_type s) S_strong then set_sanc_type S_mild s else s)
             (sanctions_actions fp))
        fp
    else fp in
  let fp :=
    if Rlt_dec (protectionism pol) 0.2 then set_trade_restrictions [] fp
    else if Rlt_dec (protectionism pol) 0.4 then
      set_trade_restrictions
        (map (fun r => if eq_level (level r) TR_hard then set_level TR_soft r else r)
             (trade_restrictions fp))
        fp
    else fp in
  let fp :=
    if (Rltb 0.7 (protest_pressure pol) && Rltb (legitimacy pol) 0.4)%bool
    then set_security_actions (mkSecurityActions SA_none None) fp
    else fp in
  set_foreign_policy fp (set_domestic_policy dom action).

Definition _intent_map_sanctions (action : option Action) : dict SanctionType :=
  match action with
  | None => []
  | Some a =>
      fold_left
        (fun intents sanction =>
           let target := strip (sanc_target sanction) in
           if String.eqb target "" then intents
           else
             let current := dict_get_default intents target S_none in
             if (eq_sanction (sanc_type sanction) S_strong || eq_sanction current S_strong)%bool
             then dict_set intents target S_strong
             else if (eq_sanction (sanc_type sanction) S_mild || eq_sanction current S_mild)%bool
             then dict_set intents target S_mild
             else intents)
        (sanctions_actions (foreign_policy a)) []
  end.

Definition _intent_map_restrictions (action : option Action) : dict TradeRestrictionLevel :=
  match action with
  | None => []
  | Some a =>
      fold_left
        (fun intents restriction =>
           let target := strip (restr_target restriction) in
           if String.eqb target "" then intents
           else
             let current := dict_get_default intents target TR_none in
             if (eq_level (level restriction) TR_hard || eq_level current TR_hard)%bool
             then dict_set intents target TR_hard
             else if (eq_level (level restriction) TR_soft || eq_level current TR_soft)%bool
             then dict_set intents target TR_soft
             else intents)
        (trade_restrictions (foreign_policy a)) []
  end.

Definition _sanction_support
    (actor target : AgentState) (relation : RelationState) (intent_type : SanctionType) : R :=
  let base :=
    0.4 * sanction_propensity (political actor)
    + 0.3 * conflict_level relation
    + 0.3 * (1.0 - trust relation) in
  let base :=
    match intent_type with
    | S_strong => base + 0.10
    | S_mild => base + 0.05
    | S_none => base
    end in
  let base :=
    if (negb (String.eqb (alliance_block actor) "NonAligned")
        && String.eqb (alliance_block actor) (alliance_block target))%bool
    then base * 0.6
    else if negb (String.eqb (alliance_block actor) (alliance_block target))
    then base + 0.05
    else base in
  clamp01 base.

Definition _desired_sanction_type (support : R) : SanctionType :=
  if Rlt_dec support 0.35 then S_none
  else if Rlt_dec support 0.65 then S_mild
  else S_strong.

Definition min_duration : Z := 2.

Definition severity (t : SanctionType) : Z :=
  match t with S_none => 0 | S_mild => 1 | S_strong => 2 end.

(** The body of the loop over the targets of one actor: the entry of
    [new_active] and [new_years] for the target, if one is written. *)
Definition resolve_target
    (world : WorldState) (actor_id : string) (actor : AgentState)
    (intents : dict SanctionType) (target_id : string) : option (SanctionType * Z) :=
  if String.eqb target_id actor_id then None
  else if negb (dict_mem (agents world) target_id) then None
  else
    let intent_type := dict_get_default intents target_id S_none in
    let existing_type := dict_get (active_sanctions actor) target_id in
    let existing_years := dict_get_default (sanction_years actor) target_id 0%Z in
    let keep_existing :=
      match existing_type with
      | Some t => if Z.ltb 0 existing_years then Some (t, (existing_years - 1)%Z) else None
      | None => None
      end in
    if eq_sanction intent_type S_none then keep_existing
    else
      match get_relation world actor_id target_id, dict_get (agents world) target_id with
      | Some relation, Some target =>
          let support := _sanction_support actor target relation intent_type in
          let desired :=
            if Rle_dec 0.35 support then _desired_sanction_type support else S_none in
          let desired :=
            if negb (eq_sanction desired S_none) then
              let desired :=
                if (negb (eq_sanction intent_type S_strong) && eq_sanction desired S_strong)%bool
                then S_mild else desired in
              if Z.ltb (severity desired) (severity intent_type) then intent_type else desired
            else desired in
          if negb (eq_sanction desired S_none)
          then Some (desired, Z.max existing_years min_duration)
          else keep_existing
      | _, _ => None
      end.

(** [set(intents.keys()) | set(actor.active_sanctions.keys())]; the order in
    which Python walks the set only fixes the order of the new dictionaries. *)
Definition sanction_targets (intents : dict SanctionType) (actor : AgentState) : list string :=
  dict_keys intents
  ++ filter (fun k => negb (dict_mem intents k)) (dict_keys (active_sanctions actor)).

Definition resolve_sanctions_actor
    (actions : dict Action) (world : WorldState) (actor_id : string) (actor : AgentState)
    : AgentState :=
  let intents := _intent_map_sanctions (dict_get actions actor_id) in
  let news :=
    fold_left
      (fun acc target_id =>
         match resolve_target world actor_id actor intents target_id with
         | Some (t, y) => (dict_set (fst acc) target_id t, dict_set (snd acc) target_id y)
         | None => acc
         end)
      (sanction_targets intents actor) ([], []) in
  set_sanction_years (snd news) (set_active_sanctions (fst news) actor).

Definition resolve_sanctions (world : WorldState) (actions : dict Action) : WorldState :=
  for_each_agent (resolve_sanctions_actor actions) world.

(** The body of the double loop of [update_trade_barriers]. *)
Definition trade_barrier_turn (actions : dict Action)
    (w : WorldState) (actor_id target_id : string) (relation : RelationState)
    : RelationState :=
  match dict_get (agents w) actor_id, dict_get (agents w) target_id with
  | Some actor, Some target =>
      let intents := _intent_map_restrictions (dict_get actions actor_id) in
      let intent_level := dict_get_default intents target_id TR_none in
      let intent_boost :=
        match intent_level with TR_none => 0.0 | TR_soft => 0.15 | TR_hard => 0.35 end in
      let base :=
        0.15 * protectionism (political actor)
        + 0.25 * conflict_level relation
        + 0.25 * (1.0 - trust relation) in
      let base :=
        if (negb (String.eqb (alliance_block actor) "NonAligned")
            && String.eqb (alliance_block actor) (alliance_block target))%bool
        then base * 0.7 else base in
      let sanction_type := dict_get (active_sanctions actor) target_id in
      let has_intent := negb (eq_level intent_level TR_none) in
      let sanctioned :=
        match sanction_type with
        | Some S_mild | Some S_strong => true
        | _ => false
        end in
      let desired :=
        if (has_intent || sanctioned)%bool then
          let desired := base + intent_boost in
          match sanction_type with
          | Some S_strong => Rmax desired 0.5
          | Some S_mild => Rmax desired 0.25
          | _ => desired
          end
        else if (Rltb (trust relation) 0.25 || Rltb 0.6 (conflict_level relation))%bool
        then base * 0.7
        else 0.0 in
      let desired := clamp01 desired in
      set_trade_barrier (clamp01 (0.7 * trade_barrier relation + 0.3 * desired)) relation
  | _, _ => relation
  end.

Definition update_trade_barriers (world : WorldState) (actions : dict Action) : WorldState :=
  for_each_relation (trade_barrier_turn actions) world.

Definition trade_barrier_effect
    (w : WorldState) (actor_id target_id : string) (relation : RelationState)
    : RelationState :=
  match dict_get (agents w) actor_id, dict_get (agents w) target_id with
  | Some actor, Some target =>
      let avg_tension :=
        0.5 * (clamp01 (social_tension (society actor))
               + clamp01 (social_tension (society target))) in
      let conflict := clamp01 (conflict_level relation) in
      let friction := 0.04 * conflict + 0.02 * avg_tension in
      let decay := 0.05 * trade_barrier relation + friction in
      set_trade_intensity (Rmax 0 (trade_intensity relation * (1.0 - decay))) relation
  | _, _ => relation
  end.

Definition apply_trade_barrier_effects (world : WorldState) : WorldState :=
  for_each_relation trade_barrier_effect world.

(** [trade_conflict], the first loop of [update_relations_endogenous]. *)
Definition trade_conflict_of (rels : dict RelationState) : R :=
  let sums :=
    fold_left
      (fun acc rel =>
         let weight := Rmax 0 (trade_intensity rel) in
         (fst acc + weight, snd acc + weight * conflict_level rel))
      (dict_values rels) (0.0, 0.0) in
  if Rlt_dec 0 (fst sums) then snd sums / fst sums else 0.0.

Definition trade_conflict (world : WorldState) : dict R :=
  fold_left (fun d kv => dict_set d (fst kv) (trade_conflict_of (snd kv)))
    (relations world) [].

(** Dictionaries keyed by a pair of alliance blocks. *)
Definition eq_key (a b : string * string) : bool :=
  (String.eqb (fst a) (fst b) && String.eqb (snd a) (snd b))%bool.

Fixpoint pair_get {V : Type} (d : list ((string * string) * V)) (k : string * string)
    : option V :=
  match d with
  | [] => None
  | (k', v) :: rest => if eq_key k' k then Some v else pair_get rest k
  end.

Fixpoint pair_set {V : Type} (d : list ((string * string) * V)) (k : string * string) (v : V)
    : list ((string * string) * V) :=
  match d with
  | [] => [(k, v)]
  | (k', v') :: rest => if eq_key k' k then (k', v) :: rest else (k', v') :: pair_set rest k v
  end.

(** [block_pairs.setdefault(key, []).append(rel.conflict_level)] over the
    relations between agents of the world. *)
Definition block_pairs (world : WorldState) : list ((string * string) * list R) :=
  fold_left
    (fun d kv =>
       match dict_get (agents world) (fst kv) with
       | None => d
       | Some actor =>
           fold_left
             (fun d kr =>
                match dict_get (agents world) (fst kr) with
                | None => d
                | Some target =>
                    let key := (alliance_block actor, alliance_block target) in
                    let values := match pair_get d key with Some vs => vs | None => [] end in
                    pair_set d key (values ++ [conflict_level (snd kr)])
                end)
             (snd kv) d
       end)
    (relations world) [].

Definition block_tension (world : WorldState) : list ((string * string) * R) :=
  fold_left
    (fun d kv =>
       match snd kv with
       | [] => d
       | values => pair_set d (fst kv) (Rsum values / Rlen values)
       end)
    (block_pairs world) [].

Definition security_orgs (world : WorldState) : list InstitutionState :=
  filter (fun org => String.eqb (org_type org) "SecurityOrg") (dict_values (institutions world)).

Definition security_legitimacy (orgs : list InstitutionState) : R :=
  match orgs with
  | [] => 0.0
  | _ => Rsum (map org_legitimacy orgs) / Rlen orgs
  end.

Definition is_member (agent_id : string) (org : InstitutionState) : bool :=
  existsb (String.eqb agent_id) (members org).

(** The body of the last double loop of [update_relations_endogenous]; the
    three tables and the security organisations were computed before it. *)
Definition relation_drift
    (conflicts : dict R) (tensions : list ((string * string) * R))
    (orgs : list InstitutionState)
    (w : WorldState) (actor_id target_id : string) (relation : RelationState)
    : RelationState :=
  let baseline_trade := 0.5 in
  let baseline_trust := 0.6 in
  let baseline_conflict := 0.1 in
  match dict_get (agents w) actor_id, dict_get (agents w) target_id with
  | Some actor, Some target =>
      let avg_tension :=
        0.5 * (clamp01 (social_tension (society actor))
               + clamp01 (social_tension (society target))) in
      let trade_gap := trade_intensity relation - baseline_trade in
      let trade_short := Rmax 0 (baseline_trade - trade_intensity relation) in
      let own_mil := Rmax (military_power (technology actor)) 1e-6 in
      let other_mil := Rmax (military_power (technology target)) 0 in
      let mil_gap := Rmax 0 ((other_mil - own_mil) / own_mil) in
      let sanction_flag := if dict_mem (active_sanctions actor) target_id then 1.0 else 0.0 in
      let barrier := clamp01 (trade_barrier relation) in
      let propagation :=
        0.03 * (dict_get_default conflicts actor_id 0.0
                + dict_get_default conflicts target_id 0.0) in
      let block_key := (alliance_block actor, alliance_block target) in
      let block_rivalry :=
        if (negb (String.eqb (alliance_block actor) "NonAligned")
            && negb (String.eqb (alliance_block target) "NonAligned"))%bool
        then 0.04 * match pair_get tensions block_key with Some t => t | None => 0.0 end
        else 0.0 in
      let shared_security :=
        existsb (fun org => (is_member actor_id org && is_member target_id org)%bool) orgs in
      let mediation :=
        0.03 * security_legitimacy orgs * (if shared_security then 1.6 else 1.0) in
      let conflict_drift := 0.02 * (baseline_conflict - conflict_level relation) in
      let conflict_push :=
        0.04 * trade_short + 0.05 * avg_tension + 0.06 * mil_gap + 0.04 * barrier
        + 0.03 * sanction_flag + propagation + block_rivalry in
      let conflict_push := Rmax 0 (conflict_push - mediation) in
      let relation :=
        set_conflict_level (clamp01 (conflict_level relation + conflict_drift + conflict_push))
          relation in
      let trust_drift := 0.02 * (baseline_trust - trust relation) in
      let trust_push :=
        0.04 * trade_gap - 0.05 * conflict_level relation - 0.04 * avg_tension
        - 0.05 * barrier - 0.03 * sanction_flag + 0.5 * mediation in
      set_trust (clamp01 (trust relation + trust_drift + trust_push)) relation
  | _, _ => relation
  end.

Definition update_relations_endogenous (world : WorldState) : WorldState :=
  for_each_relation
    (relation_drift (trade_conflict world) (block_tension world) (security_orgs world))
    world.

(** [world.agents[agent_id]] raises when the identifier is not a key. *)
Definition _block_score
    (agent_id block : string) (blocks : dict (list string)) (world : WorldState) : option R :=
  agent <- dict_get (agents world) agent_id ;;
  if String.eqb block "NonAligned"
  then Some (0.05 * coalition_openness (political agent))
  else
    let members :=
      filter (fun mid => negb (String.eqb mid agent_id)) (dict_get_default blocks block []) in
    match members with
    | [] => Some (-1.0)
    | _ =>
        let total :=
          fold_left
            (fun total member_id =>
               match get_relation world agent_id member_id with
               | None => total
               | Some relation =>
                   total + (trust relation - 0.6 * conflict_level relation
                            + 0.3 * effective_trade_intensity relation)
               end)
            members 0.0 in
        let avg := total / IZR (Z.max (Z.of_nat (List.length members)) 1) in
        Some (coalition_openness (political agent) * avg)
    end.

Definition coalition_blocks (world : WorldState) : dict (list string) :=
  let blocks :=
    fold_left
      (fun d agent =>
         dict_set d (alliance_block agent)
           (dict_get_default d (alliance_block agent) [] ++ [id agent]))
      (dict_values (agents world)) [] in
  if dict_mem blocks "NonAligned" then blocks else dict_set blocks "NonAligned" [].

(** The body of the loop of [update_coalitions] over the agents. *)
Definition coalition_turn (cooldown : Z) (blocks : dict (list string))
    (w : WorldState) (k : string) (agent : AgentState) : option AgentState :=
  if Z.ltb (time w - last_block_change (political agent)) cooldown then Some agent
  else
    let current := alliance_block agent in
    current_score <- _block_score (id agent) current blocks w ;;
    best <-
      foldM
        (fun best block =>
           if String.eqb block current then Some best
           else
             score <- _block_score (id agent) block blocks w ;;
             if Rlt_dec (snd best) score then Some (block, score) else Some best)
        (dict_keys blocks) (current, current_score) ;;
    if (negb (String.eqb (fst best) current) && Rltb 0.08 (snd best - current_score))%bool
    then
      Some (set_political (set_last_block_change (time w) (political agent))
              (set_alliance_block (fst best) agent))
    else Some agent.

Definition update_coalitions (world : WorldState) (cooldown : Z) : option WorldState :=
  for_each_agent_opt (coalition_turn cooldown (coalition_blocks world)) world.

Definition resolve_foreign_policy (world : WorldState) (actions : dict Action)
    : option WorldState :=
  let world := resolve_sanctions world actions in
  let world := update_trade_barriers world actions in
  update_coalitions world 3.

End PoliticalDynamics.

(** ** geopolitics.py *)

Module Geopolitics.

(** Assignments through [world.agents[k]] and [world.relations[a][b]]. *)
Definition upd_agent (k : string) (f : AgentState -> AgentState) (w : WorldState) : WorldState :=
  match dict_get (agents w) k with
  | Some agent => put_agent k (f agent) w
  | None => w
  end.

Definition upd_relation (a b : string) (f : RelationState -> RelationState) (w : WorldState)
    : WorldState :=
  match get_relation w a b with
  | Some rel => put_relation a b (f rel) w
  | None => w
  end.

Definition upd_economy (f : EconomyState -> EconomyState) (agent : AgentState) : AgentState :=
  set_economy (f (economy agent)) agent.
Definition upd_society (f : SocietyState -> SocietyState) (agent : AgentState) : AgentState :=
  set_society (f (society agent)) agent.
Definition upd_technology (f : TechnologyState -> TechnologyState) (agent : AgentState)
    : AgentState :=
  set_technology (f (technology agent)) agent.

Definition _coerce_agent_id (value : option string) : option string :=
  match value with
  | Some s => let candidate := strip s in if String.eqb candidate "" then None else Some candidate
  | None => None
  end.

Definition _apply_sanction_social_reaction
    (scale autocracy_bias tension_increase : R) (target : AgentState) : AgentState :=
  let cult := culture target in
  let pdi := pdi cult / 100.0 in
  let self_expression := survival_self_expression cult / 10.0 in
  let rally := scale * pdi in
  let blame := scale * (1.0 - pdi) * (0.5 + self_expression) in
  let trust_delta :=
    if String.eqb (regime_type cult) "Autocracy" then rally - autocracy_bias else - blame in
  let soc := society target in
  let soc := set_trust_gov (clamp01 (trust_gov soc + trust_delta)) soc in
  let soc := set_social_tension (clamp01 (social_tension soc + tension_increase)) soc in
  set_society soc target.

(** The first loop of [apply_sanctions_effects]: the entries
    [(actor_id, target_id, sanction_type)] and the counts
    [target_id -> (mild, strong)]. *)
Definition sanction_entries (world : WorldState)
    : list (string * string * SanctionType) * dict (Z * Z) :=
  fold_left
    (fun acc kv =>
       fold_left
         (fun acc ts =>
            let target_id := fst ts in
            if (negb (dict_mem (agents world) target_id) || String.eqb target_id (fst kv))%bool
            then acc
            else
              let bucket := dict_get_default (snd acc) target_id (0%Z, 0%Z) in
              let bucket :=
                match snd ts with
                | S_strong => (fst bucket, (snd bucket + 1)%Z)
                | S_mild => ((fst bucket + 1)%Z, snd bucket)
                | S_none => bucket
                end in
              (fst acc ++ [(fst kv, target_id, snd ts)], dict_set (snd acc) target_id bucket))
         (active_sanctions (snd kv)) acc)
    (agents world) ([], []).

Definition apply_sanction_entry (w : WorldState) (e : string * string * SanctionType)
    : WorldState :=
  let '(actor_id, target_id, sanction_type) := e in
  match dict_get (agents w) actor_id with
  | None => w
  | Some _ =>
      match get_relation w actor_id target_id with
      | None => w
      | Some relation =>
          match sanction_type with
          | S_mild =>
              put_relation actor_id target_id
                (set_trade_barrier (Rmin 1.0 (trade_barrier relation + 0.05))
                   (set_trust (trust relation * 0.92)
                      (set_trade_intensity (trade_intensity relation * 0.85) relation)))
                w
          | S_strong =>
              upd_agent actor_id (upd_economy (fun e => set_gdp (gdp e * 0.995) e))
                (put_relation actor_id target_id
                   (set_trade_barrier (Rmin 1.0 (trade_barrier relation + 0.15))
                      (set_trust (trust relation * 0.85)
                         (set_trade_intensity (trade_intensity relation * 0.65) relation)))
                   w)
          | S_none => w
          end
      end
  end.

Definition apply_sanction_pressure (w : WorldState) (tc : string * (Z * Z)) : WorldState :=
  let target_id := fst tc in
  let mild := fst (snd tc) in
  let strong := snd (snd tc) in
  match dict_get (agents w) target_id with
  | None => w
  | Some target =>
      if (Z.leb mild 0 && Z.leb strong 0)%bool then w
      else
        let mild_factor := sqrt (IZR mild) in
        let strong_factor := sqrt (IZR strong) in
        let gdp_penalty := Rmin 0.12 (0.01 * mild_factor + 0.03 * strong_factor) in
        let scale := Rmin 0.12 (0.02 * mild_factor + 0.06 * strong_factor) in
        let autocracy_bias := Rmin 0.04 (0.01 * mild_factor + 0.02 * strong_factor) in
        let tension_increase := Rmin 0.08 (0.015 * mild_factor + 0.05 * strong_factor) in
        put_agent target_id
          (_apply_sanction_social_reaction scale autocracy_bias tension_increase
             (upd_economy (fun e => set_gdp (gdp e * Rmax 0 (1.0 - gdp_penalty)) e) target))
          w
  end.

Definition apply_sanctions_effects (world : WorldState) : WorldState :=
  let ec := sanction_entries world in
  let w := fold_left apply_sanction_entry (fst ec) world in
  fold_left apply_sanction_pressure (snd ec) w.

Definition _resource_index (agent : AgentState) : R :=
  let reserve (name : string) : R :=
    match dict_get (resources agent) name with
    | Some r => own_reserve r
    | None => 0.0
    end in
  1.0 * reserve "energy"%string + 0.6 * reserve "food"%string
  + 0.4 * reserve "metals"%string.

Definition _ensure_war_start (agent : AgentState) (rel : RelationState) : RelationState :=
  if Rlt_dec 0 (war_start_gdp rel) then rel
  else
    set_war_start_resource (Rmax (_resource_index agent) 1e-6)
      (set_war_start_pop (Rmax (population (economy agent)) 1.0)
         (set_war_start_gdp (Rmax (gdp (economy agent)) 1e-6) rel)).

Definition _resource_stress (agent : AgentState) : R :=
  let reserves :=
    map (fun kv => (fst kv, own_reserve (snd kv) / Rmax (production (snd kv)) 1e-6))
        (resources agent) in
  let stress (years threshold : R) : R := clamp01 (1.0 - years / threshold) in
  let energy_stress := stress (dict_get_default reserves "energy" 10.0) 5.0 in
  let food_stress := stress (dict_get_default reserves "food" 10.0) 3.0 in
  let metals_stress := stress (dict_get_default reserves "metals" 10.0) 5.0 in
  clamp01 (0.5 * energy_stress + 0.3 * food_stress + 0.2 * metals_stress).

(** [_auto_security_action]: the result and the number of draws taken from
    the random stream (none when the function returns before its roll). *)
Definition _auto_security_action
    (world : WorldState) (actor_id : string) (random : Climate.Random) (drawn : nat)
    : option (SecurityActionType * string) * nat :=
  match dict_get (agents world) actor_id with
  | None => (None, drawn)
  | Some actor =>
      let best :=
        fold_left
          (fun best kv =>
             if String.eqb (fst kv) actor_id then best
             else
               let score := conflict_level (snd kv) + 0.5 * (1.0 - trust (snd kv)) in
               if Rlt_dec (snd best) score then (Some (fst kv), score) else best)
          (relations_of world actor_id) (None, 0.0) in
      match fst best with
      | None => (None, drawn)
      | Some best_target =>
          match get_relation world actor_id best_target with
          | None => (None, drawn)
          | Some rel =>
              let best_score := snd best in
              let resource_stress := _resource_stress actor in
              let tension := clamp01 (social_tension (society actor)) in
              let fragility := 1.0 - clamp01 (regime_stability (risk actor)) in
              let trigger := best_score * (0.55 + 0.45 * resource_stress) in
              let trigger := trigger * (0.55 + 0.45 * tension) in
              let trigger := trigger * (0.6 + 0.4 * fragility) in
              if (Rltb trigger 0.45 || Rltb (conflict_level rel) 0.45)%bool then (None, drawn)
              else
                let roll := random drawn in
                if (Rltb 0.8 trigger && Rltb roll (0.2 * trigger))%bool
                then (Some (SA_border_incident, best_target), S drawn)
                else if (Rltb 0.65 trigger && Rltb roll (0.12 * trigger))%bool
                then (Some (SA_arms_buildup, best_target), S drawn)
                else if Rltb roll (0.05 * trigger)
                then (Some (SA_military_exercise, best_target), S drawn)
                else (None, S drawn)
          end
      end
  end.

Definition raise_conflict (delta : R) (rel : RelationState) : RelationState :=
  set_conflict_level (Rmin 1.0 (conflict_level rel + delta)) rel.
Definition scale_trust (factor : R) (rel : RelationState) : RelationState :=
  set_trust (trust rel * factor) rel.

(** The effects of a security action of the given (gated) type. *)
Definition security_effects
    (sec_type : SecurityActionType) (actor_id target_id : string) (w : WorldState)
    : WorldState :=
  match sec_type with
  | SA_none => w
  | SA_military_exercise =>
      let w := upd_relation actor_id target_id (raise_conflict 0.05) w in
      let w := upd_relation target_id actor_id (raise_conflict 0.05) w in
      let w := upd_relation actor_id target_id (scale_trust 0.98) w in
      upd_relation target_id actor_id (scale_trust 0.98) w
  | SA_arms_buildup =>
      let w := upd_agent actor_id
                 (upd_technology (fun t => set_military_power (military_power t * 1.05) t)) w in
      let w := upd_relation actor_id target_id (raise_conflict 0.08) w in
      upd_relation target_id actor_id (raise_conflict 0.08) w
  | SA_border_incident =>
      let w := upd_relation actor_id target_id (raise_conflict 0.20) w in
      let w := upd_relation target_id actor_id (raise_conflict 0.20) w in
      let hit (agent : AgentState) : AgentState :=
        upd_society
          (fun s => set_trust_gov (Rmax 0 (trust_gov s - 0.03))
                      (set_social_tension (Rmin 1.0 (social_tension s + 0.05)) s))
          (upd_economy (fun e => set_gdp (gdp e * 0.99) e) agent) in
      upd_agent target_id hit (upd_agent actor_id hit w)
  | SA_conflict =>
      match dict_get (agents w) actor_id, dict_get (agents w) target_id with
      | Some actor, Some target =>
          let mil_actor := military_power (technology actor) in
          let mil_target := military_power (technology target) in
          let total_power := Rmax (mil_actor + mil_target) 1e-6 in
          let share_actor := mil_actor / total_power in
          let share_target := mil_target / total_power in
          let base_capital_loss := 0.15 in
          let base_gdp_loss := 0.10 in
          let cap_loss_actor := base_capital_loss * (0.7 + 0.6 * (1.0 - share_actor)) in
          let cap_loss_target := base_capital_loss * (0.7 + 0.6 * (1.0 - share_target)) in
          let gdp_loss_actor := base_gdp_loss * (0.7 + 0.6 * (1.0 - share_actor)) in
          let gdp_loss_target := base_gdp_loss * (0.7 + 0.6 * (1.0 - share_target)) in
          let w := upd_agent actor_id
                     (upd_economy (fun e => set_capital (capital e * Rmax 0 (1.0 - cap_loss_actor)) e))
                     w in
          let w := upd_agent target_id
                     (upd_economy (fun e => set_capital (capital e * Rmax 0 (1.0 - cap_loss_target)) e))
                     w in
          let w := upd_agent actor_id
                     (upd_economy (fun e => set_gdp (gdp e * Rmax 0 (1.0 - gdp_loss_actor)) e)) w in
          let w := upd_agent target_id
                     (upd_economy (fun e => set_gdp (gdp e * Rmax 0 (1.0 - gdp_loss_target)) e)) w in
          let hit (agent : AgentState) : AgentState :=
            upd_society
              (fun s => set_trust_gov (Rmax 0 (trust_gov s - 0.10))
                          (set_social_tension (Rmin 1.0 (social_tension s + 0.15)) s))
              agent in
          let w := upd_agent target_id hit (upd_agent actor_id hit w) in
          let w := upd_relation actor_id target_id (raise_conflict 0.4) w in
          let w := upd_relation target_id actor_id (raise_conflict 0.4) w in
          let w := upd_relation actor_id target_id (scale_trust 0.8) w in
          let w := upd_relation target_id actor_id (scale_trust 0.8) w in
          let w := upd_relation actor_id target_id (set_at_war true) w in
          let w := upd_relation target_id actor_id (set_at_war true) w in
          let w :=
            match dict_get (agents w) actor_id with
            | Some actor => upd_relation actor_id target_id (_ensure_war_start actor) w
            | None => w
            end in
          match dict_get (agents w) target_id with
          | Some target => upd_relation target_id actor_id (_ensure_war_start target) w
          | None => w
          end
      | _, _ => w
      end
  end.

Definition set_sec (t : SecurityActionType) (target : option string) (action : Action) : Action :=
  set_foreign_policy
    (set_security_actions (mkSecurityActions t target) (foreign_policy action)) action.

(** The state of [apply_security_actions]: the world, the actions (whose
    security intents the loop rewrites) and the draws taken so far. *)
Definition security_turn (random : Climate.Random)
    (st : WorldState * dict Action * nat) (k : string) : WorldState * dict Action * nat :=
  let '(w, actions, drawn) := st in
  match dict_get actions k with
  | None => st
  | Some action =>
      let sec := security_actions (foreign_policy action) in
      let auto :=
        match sec_type sec with
        | SA_none => _auto_security_action w (agent_id action) random drawn
        | _ => (None, drawn)
        end in
      let drawn := snd auto in
      let proceed :=
        match sec_type sec, fst auto with
        | SA_none, None => None
        | SA_none, Some (t, target) => Some (set_sec t (Some target) action)
        | _, _ => Some action
        end in
      match proceed with
      | None => (w, actions, drawn)
      | Some action =>
          let actions := dict_set actions k action in
          let sec := security_actions (foreign_policy action) in
          let actor_id := agent_id action in
          match _coerce_agent_id (sec_target sec) with
          | None => (w, actions, drawn)
          | Some target_id =>
              if negb (dict_mem (agents w) target_id && dict_mem (agents w) actor_id)%bool
              then (w, actions, drawn)
              else
                match get_relation w actor_id target_id, get_relation w target_id actor_id with
                | Some rel_at, Some rel_ta =>
                    let avg_conflict := 0.5 * (conflict_level rel_at + conflict_level rel_ta) in
                    let gated :=
                      match sec_type sec with
                      | SA_conflict =>
                          if (Rltb avg_conflict 0.55 || Rltb 0.25 (trust rel_at))%bool
                          then SA_border_incident else SA_conflict
                      | SA_border_incident =>
                          if Rltb avg_conflict 0.30 then SA_military_exercise
                          else SA_border_incident
                      | t => t
                      end in
                    let actions := dict_set actions k (set_sec gated (sec_target sec) action) in
                    (security_effects gated actor_id target_id w, actions, drawn)
                | _, _ => (w, actions, drawn)
                end
          end
      end
  end.

Definition apply_security_actions
    (world : WorldState) (actions : dict Action) (random : Climate.Random) (drawn : nat)
    : WorldState * dict Action * nat :=
  fold_left (security_turn random) (dict_keys actions) (world, actions, drawn).

Definition _exhausted (rel : RelationState) (side : AgentState) : bool :=
  let gdp_ok := Rleb (0.7 * war_start_gdp rel) (gdp (economy side)) in
  let pop_ok := Rleb (0.9 * war_start_pop rel) (population (economy side)) in
  let res_ok := Rleb (0.5 * war_start_resource rel) (_resource_index side) in
  negb (gdp_ok && pop_ok && res_ok).

(** The year of war of one pair, up to the exhaustion test: both edges
    marked and counted, the snapshots taken if they were not, the attrition
    and the trade decay applied. *)
Definition war_year (rel_at rel_ta : RelationState) (actor target : AgentState)
    : RelationState * RelationState * AgentState * AgentState :=
  let rel_at := set_war_years (war_years rel_at + 1)%Z (set_at_war true rel_at) in
  let rel_ta := set_war_years (war_years rel_ta + 1)%Z (set_at_war true rel_ta) in
  let rel_at := _ensure_war_start actor rel_at in
  let rel_ta := _ensure_war_start target rel_ta in
  let mil_actor := Rmax (military_power (technology actor)) 1e-6 in
  let mil_target := Rmax (military_power (technology target)) 1e-6 in
  let total_power := mil_actor + mil_target in
  let share_actor := mil_actor / total_power in
  let share_target := mil_target / total_power in
  let base_capital_loss := 0.04 in
  let base_gdp_loss := 0.03 in
  let cap_loss_actor := base_capital_loss * (0.8 + 0.4 * (1.0 - share_actor)) in
  let cap_loss_target := base_capital_loss * (0.8 + 0.4 * (1.0 - share_target)) in
  let gdp_loss_actor := base_gdp_loss * (0.8 + 0.4 * (1.0 - share_actor)) in
  let gdp_loss_target := base_gdp_loss * (0.8 + 0.4 * (1.0 - share_target)) in
  let actor :=
    upd_economy (fun e => set_gdp (gdp e * Rmax 0 (1.0 - gdp_loss_actor))
                            (set_capital (capital e * Rmax 0 (1.0 - cap_loss_actor)) e))
      actor in
  let target :=
    upd_economy (fun e => set_gdp (gdp e * Rmax 0 (1.0 - gdp_loss_target))
                            (set_capital (capital e * Rmax 0 (1.0 - cap_loss_target)) e))
      target in
  let rel_at := set_trade_intensity (trade_intensity rel_at * 0.92) rel_at in
  let rel_ta := set_trade_intensity (trade_intensity rel_ta * 0.92) rel_ta in
  (rel_at, rel_ta, actor, target).

(** The end of a war on one edge. *)
Definition end_war (rel : RelationState) : RelationState :=
  set_war_start_resource 0.0
    (set_war_start_pop 0.0
       (set_war_start_gdp 0.0
          (set_war_years 0%Z (set_at_war false rel)))).

(** What follows the exhaustion test when a side is exhausted. *)
Definition war_outcome (actor_exhausted target_exhausted : bool)
    (rel_at rel_ta : RelationState) (actor target : AgentState)
    : RelationState * RelationState * AgentState * AgentState :=
  let rel_at := end_war rel_at in
  let rel_ta := end_war rel_ta in
  if (actor_exhausted && target_exhausted)%bool then
    let worn (side : AgentState) : AgentState :=
      upd_society
        (fun s => set_trust_gov (Rmax 0 (trust_gov s - 0.05))
                    (set_social_tension (Rmin 1.0 (social_tension s + 0.08)) s))
        (upd_technology (fun t => set_military_power (military_power t * 0.9) t) side) in
    (set_trust (trust rel_at * 0.9) (set_conflict_level 0.45 rel_at),
     set_trust (trust rel_ta * 0.9) (set_conflict_level 0.45 rel_ta),
     worn actor, worn target)
  else
    let won (winner : AgentState) : AgentState :=
      upd_society
        (fun s => set_social_tension (Rmax 0 (social_tension s - 0.03))
                    (set_trust_gov (clamp01 (trust_gov s + 0.03)) s))
        winner in
    let lost (loser : AgentState) : AgentState :=
      upd_technology (fun t => set_military_power (military_power t * 0.85) t)
        (upd_society
           (fun s => set_social_tension (Rmin 1.0 (social_tension s + 0.10))
                       (set_trust_gov (Rmax 0 (trust_gov s - 0.08)) s))
           loser) in
    (set_trust (trust rel_at * 0.85) (set_conflict_level 0.5 rel_at),
     set_trust (trust rel_ta * 0.85) (set_conflict_level 0.5 rel_ta),
     (if actor_exhausted then lost actor else won actor),
     (if actor_exhausted then won target else lost target)).

(** The body of the double loop for one pair of keys once both edges and
    both agents are at hand. *)
Definition fight (rel_at rel_ta : RelationState) (actor target : AgentState)
    : RelationState * RelationState * AgentState * AgentState :=
  let '(rel_at, rel_ta, actor, target) := war_year rel_at rel_ta actor target in
  let actor_exhausted := _exhausted rel_at actor in
  let target_exhausted := _exhausted rel_ta target in
  if negb (actor_exhausted || target_exhausted)
  then (rel_at, rel_ta, actor, target)
  else war_outcome actor_exhausted target_exhausted rel_at rel_ta actor target.

Definition war_turn (w : WorldState) (ab : string * string) : WorldState :=
  let actor_id := fst ab in
  let target_id := snd ab in
  if String.leb target_id actor_id then w
  else
    match get_relation w actor_id target_id, get_relation w target_id actor_id with
    | Some rel_at, Some rel_ta =>
        if negb (at_war rel_at || at_war rel_ta) then w
        else
          match dict_get (agents w) actor_id, dict_get (agents w) target_id with
          | Some actor, Some target =>
              let '(rel_at, rel_ta, actor, target) := fight rel_at rel_ta actor target in
              put_agent target_id target
                (put_agent actor_id actor
                   (put_relation target_id actor_id rel_ta
                      (put_relation actor_id target_id rel_at w)))
          | _, _ => w
          end
    | _, _ => w
    end.

Definition update_active_conflicts (world : WorldState) : WorldState :=
  fold_left war_turn (relation_keys world) world.

End Geopolitics.

(** ** institutions.py

    The reports that [update_institutions] returns are a log and are not
    part of the model; the measures it takes on the world are. *)

Module Institutions.

Import Geopolitics.

Definition org (org_id name org_type : string) (mandate members : list string)
    (legitimacy base_budget_share : R) : string * InstitutionState :=
  (org_id, mkInstitutionState org_id name org_type mandate members legitimacy 0.0
             base_budget_share).

Definition _members_by_region (world : WorldState) : dict (list string) :=
  fold_left
    (fun d agent => dict_set d (region agent) (dict_get_default d (region agent) [] ++ [id agent]))
    (dict_values (agents world)) [].

Definition build_default_institutions (world : WorldState) : dict InstitutionState :=
  let all_members := dict_keys (agents world) in
  let regions := _members_by_region world in
  let eu_members := dict_get_default regions "Europe" [] in
  let usmca_members := dict_get_default regions "North America" [] in
  let asean_members := dict_get_default regions "East Asia" [] in
  let nato_members :=
    map id (filter (fun agent => String.eqb (alliance_block agent) "Western")
              (dict_values (agents world))) in
  let top_gdp := Metrics.sorted_by_gdp_desc (dict_values (agents world)) in
  let unsc_members := map id (firstn 5 top_gdp) in
  [ org "UN" "United Nations" "SecurityOrg" ["norms"; "mediation"] all_members 0.72 0.0;
    org "UNSC" "UN Security Council" "SecurityOrg" ["sanctions"; "mediation"]
      unsc_members 0.68 0.0;
    org "IMF" "International Monetary Fund" "FinanceOrg" ["liquidity"; "stability"]
      all_members 0.65 0.0012;
    org "WorldBank" "World Bank" "FinanceOrg" ["development"; "infrastructure"]
      all_members 0.62 0.0008;
    org "FSB" "FSB/Basel" "FinanceOrg" ["financial_rules"] all_members 0.6 0.0003;
    org "WTO" "World Trade Organization" "TradeOrg" ["trade_rules"] all_members 0.66 0.0;
    org "EU" "EU" "TradeOrg" ["regional_trade"] eu_members 0.7 0.0;
    org "USMCA" "USMCA" "TradeOrg" ["regional_trade"] usmca_members 0.7 0.0;
    org "ASEAN" "ASEAN" "TradeOrg" ["regional_trade"] asean_members 0.62 0.0;
    org "UNFCCC" "UNFCCC" "ClimateOrg" ["climate_rules"] all_members 0.62 0.0;
    org "GCF" "Green Climate Fund" "ClimateOrg" ["climate_finance"] all_members 0.6 0.0006;
    org "IPCC" "IPCC" "KnowledgeOrg" ["knowledge"] all_members 0.78 0.0;
    org "NATO" "NATO" "SecurityOrg" ["collective_defense"] nato_members 0.65 0.0;
    org "WHO" "WHO" "SocialOrg" ["health"] all_members 0.7 0.0;
    org "ILO" "ILO" "SocialOrg" ["labor"] all_members 0.58 0.0;
    org "UNEP_UNESCO" "UNEP/UNESCO" "SocialOrg" ["social"; "education"] all_members 0.6 0.0
  ]%string.

Record GlobalMetrics : Type := mkGlobalMetrics {
  total_gdp : R;
  avg_trust : R;
  avg_tension : R;
  avg_rel_trust : R;
  avg_rel_conflict : R;
  avg_trade_intensity : R;
  global_co2 : R;
  global_temp : R
}.

Definition _compute_global_metrics (world : WorldState) : GlobalMetrics :=
  let agent_list := dict_values (agents world) in
  let n := IZR (Z.max (Z.of_nat (List.length agent_list)) 1) in
  let total_gdp := Rsum (map (fun a => gdp (economy a)) agent_list) in
  let avg_trust := Rsum (map (fun a => trust_gov (society a)) agent_list) / n in
  let avg_tension := Rsum (map (fun a => social_tension (society a)) agent_list) / n in
  let rels := flat_map (fun kv => dict_values (snd kv)) (relations world) in
  let trust_sum := fold_left (fun s rel => s + trust rel) rels 0.0 in
  let conflict_sum := fold_left (fun s rel => s + conflict_level rel) rels 0.0 in
  let trade_sum := fold_left (fun s rel => s + trade_intensity rel) rels 0.0 in
  let count := List.length rels in
  let avg (s : R) : R := match count with O => 0.0 | _ => s / INR count end in
  mkGlobalMetrics total_gdp avg_trust avg_tension
    (avg trust_sum) (avg conflict_sum) (avg trade_sum)
    (co2 (global_state world)) (temperature_global (global_state world)).

Definition _update_legitimacy (o : InstitutionState) (target : R) : InstitutionState :=
  set_org_legitimacy (clamp01 (0.95 * org_legitimacy o + 0.05 * target)) o.

Definition target_legitimacy (o : InstitutionState) (metrics : GlobalMetrics) : R :=
  let t := org_type o in
  if (String.eqb t "SecurityOrg" || String.eqb t "TradeOrg")%bool
  then clamp01 (0.5 + 0.5 * avg_rel_trust metrics)
  else if String.eqb t "FinanceOrg"
  then clamp01 (0.4 + 0.6 * avg_trust metrics)
  else if (String.eqb t "ClimateOrg" || String.eqb t "KnowledgeOrg")%bool
  then clamp01 (0.45 + 0.55 * (1.0 - avg_tension metrics))
  else if String.eqb t "SocialOrg"
  then clamp01 (0.4 + 0.6 * avg_trust metrics)
  else org_legitimacy o.

Definition is_member_of (agent_id : string) (o : InstitutionState) : bool :=
  existsb (String.eqb agent_id) (members o).

(** The double loop of the trade and the security organisations: over the
    members, then over the relations of each member with another member. *)
Definition member_relations_loop (o : InstitutionState)
    (f : RelationState -> RelationState) (world : WorldState) : WorldState :=
  fold_left
    (fun w member_id =>
       fold_left
         (fun w partner_id =>
            if is_member_of partner_id o then upd_relation member_id partner_id f w else w)
         (dict_keys (relations_of w member_id)) w)
    (members o) world.

(** A turn of the loop of a finance organisation over its members: the
    world, what is left of the budget, and whether the loop has been left. *)
Definition liquidity_support (st : WorldState * R * bool) (member_id : string)
    : WorldState * R * bool :=
  let '(w, remaining, broken) := st in
  if broken then st
  else
    match dict_get (agents w) member_id with
    | None => st
    | Some agent =>
        let gdp := Rmax (gdp (economy agent)) 1e-6 in
        let debt_gdp := public_debt (economy agent) / gdp in
        let need :=
          Rmax 0 (debt_gdp - 1.0) + Rmax 0 (0.02 - fx_reserves (economy agent) / gdp) in
        if Rle_dec need 0 then st
        else
          let grant := Rmin remaining (0.005 * gdp) in
          if Rle_dec grant 0 then st
          else
            let w :=
              upd_agent member_id
                (upd_economy
                   (fun e => set_public_debt (public_debt e + grant)
                               (set_fx_reserves (fx_reserves e + grant) e)))
                w in
            let remaining := remaining - grant in
            (w, remaining, if Rle_dec remaining 0 then true else false)
    end.

Definition _apply_org_measures (world : WorldState) (o : InstitutionState)
    : WorldState * InstitutionState :=
  let t := org_type o in
  match members o with
  | [] => (world, o)
  | _ =>
      if String.eqb t "TradeOrg" then
        let delta := 0.01 * org_legitimacy o in
        (member_relations_loop o
           (fun rel =>
              if Rle_dec (trade_barrier rel) 0 then rel
              else set_trade_barrier (Rmax 0 (trade_barrier rel - delta)) rel)
           world, o)
      else if String.eqb t "FinanceOrg" then
        if Rle_dec (budget o) 0 then (world, o)
        else
          let '(w, remaining, _) :=
            fold_left liquidity_support (members o) (world, budget o, false) in
          (w, set_budget remaining o)
      else if String.eqb t "SecurityOrg" then
        let delta := 0.01 * org_legitimacy o in
        (member_relations_loop o
           (fun rel =>
              if Rlt_dec (conflict_level rel) 0.25 then rel
              else set_conflict_level (Rmax 0 (conflict_level rel - delta)) rel)
           world, o)
      else if String.eqb t "ClimateOrg" then
        let delta := 0.002 * org_legitimacy o in
        (fold_left
           (fun w member_id =>
              upd_agent member_id
                (fun agent =>
                   if Rlt_dec (climate_risk (climate agent)) 0.5 then agent
                   else
                     set_climate
                       (set_climate_risk (Rmax 0 (climate_risk (climate agent) - delta))
                          (climate agent))
                       agent)
                w)
           (members o) world, o)
      else if String.eqb t "SocialOrg" then
        let delta := 0.003 * org_legitimacy o in
        (fold_left
           (fun w member_id =>
              upd_agent member_id
                (upd_society
                   (fun s =>
                      let s := set_social_tension (Rmax 0 (social_tension s - 0.5 * delta)) s in
                      set_trust_gov (clamp01 (trust_gov s + 0.3 * delta)) s))
                w)
           (members o) world, o)
      else (world, o)
  end.

(** A turn of the loop of [update_institutions] over the organisations. *)
Definition institution_turn (metrics : GlobalMetrics) (w : WorldState) (k : string)
    : WorldState :=
  match dict_get (institutions w) k with
  | None => w
  | Some o =>
      let o := _update_legitimacy o (target_legitimacy o metrics) in
      let o := set_budget (base_budget_share o * total_gdp metrics * org_legitimacy o) o in
      let '(w, o) := _apply_org_measures w o in
      set_institutions (dict_set (institutions w) k o) w
  end.

Definition update_institutions (world : WorldState) : WorldState :=
  let world :=
    match institutions world with
    | [] => set_institutions (build_default_institutions world) world
    | _ => world
    end in
  let metrics := _compute_global_metrics world in
  fold_left (institution_turn metrics) (dict_keys (institutions world)) world.

End Institutions.

(** ** actions.py

    The file of the v10_3 package, the one under the sources. *)

Module Actions.

Import Geopolitics.

Definition _clamp (value lo hi : R) : R := Rmax lo (Rmin hi value).

(** [world.agents[action.agent_id]] raises when the action names no agent
    of the world. *)
Definition _normalize_domestic_levers (action : Action) (world : WorldState) : option Action :=
  agent <- dict_get (agents world) (agent_id action) ;;
  let dom := domestic_policy action in
  let debt_gdp := public_debt (economy agent) / Rmax (gdp (economy agent)) 1e-6 in
  let dom := set_tax_fuel_change (_clamp (tax_fuel_change dom) (-1.5) 1.5) dom in
  let dom := set_social_spending_change (_clamp (social_spending_change dom) (-0.015) 0.02) dom in
  let dom :=
    set_military_spending_change (_clamp (military_spending_change dom) (-0.01) 0.015) dom in
  let dom := set_rd_investment_change (_clamp (rd_investment_change dom) (-0.002) 0.008) dom in
  let total_expansion :=
    Rmax 0 (social_spending_change dom) + Rmax 0 (military_spending_change dom)
    + Rmax 0 (rd_investment_change dom) in
  let max_expansion := if Rlt_dec 1.2 debt_gdp then 0.02 else 0.03 in
  let dom :=
    if (Rltb max_expansion total_expansion && Rltb 0 total_expansion)%bool then
      let scale := max_expansion / total_expansion in
      let dom := set_social_spending_change (social_spending_change dom * scale) dom in
      let dom := set_military_spending_change (military_spending_change dom * scale) dom in
      set_rd_investment_change (rd_investment_change dom * scale) dom
    else dom in
  Some (set_domestic_policy dom action).

Definition fuel_tax_step (delta : R) (agent : AgentState) : AgentState :=
  let cult := culture agent in
  let econ := economy agent in
  let soc := society agent in
  let gdp_factor := 0.0012 in
  let trust_factor := 0.02 in
  let tension_factor := 0.02 in
  let uai_factor := uai cult / 100.0 in
  let pdi_factor := 1.0 - (pdi cult / 100.0) * 0.5 in
  let regime_tension_mult :=
    if String.eqb (regime_type cult) "Democracy" then 1.2
    else if String.eqb (regime_type cult) "Autocracy" then 0.8
    else 1.0 in
  let sensitivity_tax :=
    uai_factor * (1.0 + Rmax 0 (unemployment econ - 0.05)) * pdi_factor in
  let sensitivity_ineq :=
    (idv cult / 100.0) * (inequality_gini soc / 100.0) * regime_tension_mult in
  let econ := set_gdp (gdp econ * Rmax 0 (1.0 - gdp_factor * delta)) econ in
  let soc := set_trust_gov (clamp01 (trust_gov soc - trust_factor * delta * sensitivity_tax)) soc in
  let soc :=
    set_social_tension (clamp01 (social_tension soc + tension_factor * delta * sensitivity_ineq))
      soc in
  set_society soc (set_economy econ agent).

Definition social_spending_step (delta : R) (agent : AgentState) : AgentState :=
  let econ := economy agent in
  let soc := society agent in
  let delta_spending := delta * gdp econ in
  let econ := set_social_spending (social_spending econ + delta_spending) econ in
  let econ := set_gov_spending (gov_spending econ + delta_spending) econ in
  let econ := set_public_debt (public_debt econ + delta_spending) econ in
  let gdp_share := delta_spending / Rmax (gdp econ) 1e-6 in
  let soc := set_trust_gov (clamp01 (trust_gov soc + 0.1 * gdp_share)) soc in
  let soc := set_social_tension (clamp01 (social_tension soc - 0.08 * gdp_share)) soc in
  set_society soc (set_economy econ agent).

Definition military_spending_step (delta : R) (agent : AgentState) : AgentState :=
  let cult := culture agent in
  let econ := economy agent in
  let soc := society agent in
  let tech := technology agent in
  let delta_mil := delta * gdp econ in
  let econ := set_military_spending (military_spending econ + delta_mil) econ in
  let econ := set_gov_spending (gov_spending econ + delta_mil) econ in
  let econ := set_public_debt (public_debt econ + delta_mil) econ in
  let base_gain := 0.3 * delta * (1.0 + 0.5 * (tech_level tech - 1.0)) in
  let tech := set_military_power (Rmax 0 (military_power tech * (1.0 + base_gain))) tech in
  let threat_high := Rltb (security_index tech) 0.4 in
  let mas_factor := mas cult / 100.0 in
  let self_expression := survival_self_expression cult / 10.0 in
  let regime_mult :=
    if String.eqb (regime_type cult) "Democracy" then 1.3
    else if String.eqb (regime_type cult) "Autocracy" then 0.8
    else 1.0 in
  let trust_delta :=
    if threat_high then 0.02 * delta * (0.8 + 0.6 * mas_factor)
    else -0.03 * delta * (0.5 + self_expression) * (1.0 - mas_factor) * regime_mult in
  let soc := set_trust_gov (clamp01 (trust_gov soc + trust_delta)) soc in
  set_technology tech (set_society soc (set_economy econ agent)).

Definition rd_step (delta : R) (agent : AgentState) : AgentState :=
  let econ := economy agent in
  let tech := technology agent in
  let delta_rd := delta * gdp econ in
  let econ := set_rd_spending (rd_spending econ + delta_rd) econ in
  let econ := set_gov_spending (gov_spending econ + delta_rd) econ in
  let econ := set_public_debt (public_debt econ + delta_rd) econ in
  let tech := set_tech_level (Rmax 0.5 (tech_level tech * (1.0 + 0.08 * delta))) tech in
  let res :=
    map (fun kv => (fst kv, set_efficiency (efficiency (snd kv) * exp (-0.02 * delta)) (snd kv)))
        (resources agent) in
  set_resources res (set_technology tech (set_economy econ agent)).

Definition climate_policy_step (policy : ClimatePolicy) (agent : AgentState) : AgentState :=
  let cult := culture agent in
  let econ := economy agent in
  let soc := society agent in
  let clim := climate agent in
  let reduction :=
    match policy with
    | CP_weak => 0.05 | CP_moderate => 0.15 | CP_strong => 0.30 | CP_none => 0.0
    end in
  let clim := set_co2_annual_emissions (co2_annual_emissions clim * (1.0 - reduction)) clim in
  let econ := set_gdp (gdp econ * Rmax 0 (1.0 - 0.003 * reduction)) econ in
  let intensity :=
    match policy with
    | CP_weak => 0.01 | CP_moderate => 0.03 | CP_strong => 0.07 | CP_none => 0.0
    end in
  let self_expression := survival_self_expression cult / 10.0 in
  let risk_level := climate_risk clim in
  let base := intensity * (risk_level - 0.5) in
  let trust_delta :=
    if Rle_dec 0 base then base * (0.5 + self_expression)
    else base * (1.5 - self_expression) in
  let trust_delta :=
    if String.eqb (regime_type cult) "Democracy" then trust_delta * 1.2 else trust_delta in
  let soc := set_trust_gov (clamp01 (trust_gov soc + trust_delta)) soc in
  let soc :=
    if (Rltb 0.5 risk_level && Rltb 0.5 self_expression)%bool
    then set_social_tension (Rmax 0 (social_tension soc - 0.01 * intensity * self_expression)) soc
    else soc in
  set_climate clim (set_society soc (set_economy econ agent)).

Definition is_none (policy : ClimatePolicy) : bool :=
  match policy with CP_none => true | _ => false end.

(** [apply_action] gives back the world and the action, whose domestic
    levers it has normalised in place. *)
Definition apply_action (world : WorldState) (action : Action)
    : option (WorldState * Action) :=
  action <- _normalize_domestic_levers action world ;;
  agent <- dict_get (agents world) (agent_id action) ;;
  let domestic := domestic_policy action in
  let step (delta : R) (f : R -> AgentState -> AgentState) (agent : AgentState) : AgentState :=
    if Rltb 1e-6 (Rabs delta) then f delta agent else agent in
  let agent := step (tax_fuel_change domestic) fuel_tax_step agent in
  let agent := step (social_spending_change domestic) social_spending_step agent in
  let agent := step (military_spending_change domestic) military_spending_step agent in
  let agent := step (rd_investment_change domestic) rd_step agent in
  let agent :=
    if is_none (climate_policy domestic) then agent
    else climate_policy_step (climate_policy domestic) agent in
  Some (put_agent (agent_id action) agent world, action).

Definition upd_resource (agent_id name : string) (f : ResourceSubState -> ResourceSubState)
    (w : WorldState) : WorldState :=
  upd_agent agent_id
    (fun agent =>
       match dict_get (resources agent) name with
       | Some r => set_resources (dict_set (resources agent) name (f r)) agent
       | None => agent
       end)
    w.

Definition get_price (global_prices : dict R) (resource : string) (preference : PricePreference)
    : R :=
  let base_price := dict_get_default global_prices resource 1.0 in
  let modifier :=
    match preference with PP_cheap => 0.9 | PP_fair => 1.0 | PP_premium => 1.1 end in
  base_price * modifier.

Definition add_fx (value : R) (agent : AgentState) : AgentState :=
  upd_economy (fun e => set_fx_reserves (fx_reserves e + value) e) agent.
Definition add_net_exports (value : R) (agent : AgentState) : AgentState :=
  upd_economy (fun e => set_net_exports (net_exports e + value) e) agent.

(** The body of the loop over the deals of one initiator.  The seller's
    capacity and the buyer's reserves are read before the books are
    written; the two relations are looked up after. *)
Definition trade_deal (global_prices : dict R) (initiator_id : string)
    (w : WorldState) (deal : TradeDeal) : option WorldState :=
  let partner_id := partner deal in
  match dict_get (agents w) initiator_id, dict_get (agents w) partner_id with
  | Some initiator, Some partner =>
      let resource_name := resource deal in
      match dict_get (resources initiator) resource_name,
            dict_get (resources partner) resource_name with
      | Some init_resource, Some partner_resource =>
          let volume_desired := Rmax 0 (volume_change deal) in
          if Rle_dec volume_desired 0 then Some w
          else
            let price := get_price global_prices resource_name (price_preference deal) in
            let seller_resource :=
              match direction deal with
              | TD_export => init_resource
              | TD_import => partner_resource
              end in
            let buyer :=
              match direction deal with TD_export => partner | TD_import => initiator end in
            let seller_id :=
              match direction deal with TD_export => initiator_id | TD_import => partner_id end in
            let buyer_id :=
              match direction deal with TD_export => partner_id | TD_import => initiator_id end in
            let export_capacity :=
              Rmax 0 (production seller_resource - consumption seller_resource) in
            if Rle_dec export_capacity 0 then Some w
            else
              let fx_limit := Rmax 0 (fx_reserves (economy buyer)) / Rmax price 1e-6 in
              let volume_real := Rmin (Rmin volume_desired export_capacity) fx_limit in
              if Rle_dec volume_real 0 then Some w
              else
                let value := volume_real * price in
                let w :=
                  upd_resource buyer_id resource_name
                    (fun r => set_consumption (consumption r + volume_real) r) w in
                let w :=
                  match direction deal with
                  | TD_export =>
                      let w := upd_agent initiator_id (add_fx value) w in
                      let w := upd_agent partner_id (add_fx (- value)) w in
                      let w := upd_agent initiator_id (add_net_exports value) w in
                      upd_agent partner_id (add_net_exports (- value)) w
                  | TD_import =>
                      let w := upd_agent initiator_id (add_fx (- value)) w in
                      let w := upd_agent partner_id (add_fx value) w in
                      let w := upd_agent initiator_id (add_net_exports (- value)) w in
                      upd_agent partner_id (add_net_exports value) w
                  end in
                if (dict_mem (relations w) initiator_id
                    && dict_mem (relations_of w initiator_id) partner_id)%bool
                then
                  _ <- get_relation w partner_id initiator_id ;;
                  let delta_intensity := 0.01 * volume_real in
                  let bump (rel : RelationState) : RelationState :=
                    set_trade_intensity (trade_intensity rel + delta_intensity) rel in
                  Some (upd_relation partner_id initiator_id bump
                          (upd_relation initiator_id partner_id bump w))
                else Some w
      | _, _ => Some w
      end
  | None, _ => None
  | Some _, None => Some w
  end.

(** The redistribution of the residual of the net exports. *)
Definition balance_net_exports (world : WorldState) : WorldState :=
  let agent_list := dict_values (agents world) in
  let residual := - Rsum (map (fun a => net_exports (economy a)) agent_list) in
  if Rltb 1e-9 (Rabs residual) then
    let weights := map (fun a => Rabs (net_exports (economy a))) agent_list in
    let total_weight := Rsum weights in
    let weights :=
      if Rle_dec total_weight 0 then map (fun a => gdp (economy a)) agent_list else weights in
    let total_weight := Rsum weights in
    if Rlt_dec 0 total_weight then
      set_agents
        (map (fun kw =>
                (fst (fst kw),
                 add_net_exports (residual * (snd kw / total_weight)) (snd (fst kw))))
             (combine (agents world) weights))
        world
    else world
  else world.

Definition apply_trade_deals (world : WorldState) (actions : dict Action) : option WorldState :=
  let global_prices := prices (global_state world) in
  let world :=
    set_agents
      (map (fun kv => (fst kv, upd_economy (set_net_exports 0.0) (snd kv))) (agents world))
      world in
  world <-
    foldM
      (fun w ka =>
         _ <- dict_get (agents w) (fst ka) ;;
         foldM (trade_deal global_prices (fst ka)) (proposed_trade_deals (foreign_policy (snd ka))) w)
      actions world ;;
  Some (balance_net_exports world).

End Actions.

(** ** observation.py, policy.py and simulation.py

    An observation is a copy of what the agent may see.  Policies are
    functions of the observation that can raise; [llm_policy], the one policy
    that is also given the memory summary, is a parameter of the step.  The
    action and institution logs are not part of the model. *)

Module Simulation.

Record Competitive : Type := mkCompetitive {
  c_gdp_share : R;
  c_gdp_rank : option Z;
  c_influence_score : R;
  c_security_margin : R;
  c_reserve_years : dict R;
  c_debt_stress : R;
  c_protest_risk : R
}.

Record Neighbor : Type := mkNeighbor {
  n_agent_id : string;
  n_trade_intensity : R;
  n_trade_barrier : R;
  n_trust : R;
  n_conflict_level : R;
  n_gdp : R;
  n_military_power : R;
  n_alliance_block : string
}.

Record InstitutionSummary : Type := mkInstitutionSummary {
  i_id : string;
  i_type : string;
  i_legitimacy : R;
  i_mandate : list string;
  i_members : nat
}.

Record Observation : Type := mkObservation {
  obs_agent_id : string;
  obs_time : Z;
  self_state : AgentState;
  competitive : Competitive;
  resource_balance : dict R;
  neighbors : list Neighbor;
  obs_global : GlobalState;
  obs_institutions : list InstitutionSummary
}.

(** The four credit attributes are read as they stand: on an agent that
    [update_credit_ratings] never rated, the read raises. *)
Definition build_observation (world : WorldState) (agent_id : string) : option Observation :=
  agent <- dict_get (agents world) agent_id ;;
  _ <- credit_rating agent ;;
  _ <- credit_zone agent ;;
  _ <- credit_risk_score agent ;;
  _ <- credit_rating_details agent ;;
  let resource_balance :=
    map (fun kv => (fst kv, Rmax 0 (consumption (snd kv) - production (snd kv))))
        (resources agent) in
  let competitive :=
    mkCompetitive
      (match gdp_share (economy agent) with Some s => s | None => 0.0 end)
      (gdp_rank (economy agent))
      (match influence_score agent with Some s => s | None => 0.0 end)
      (match security_margin agent with Some s => s | None => 1.0 end)
      (Metrics.compute_reserve_years agent)
      (Metrics.compute_debt_stress agent)
      (Metrics.compute_protest_risk agent) in
  let neighbors :=
    flat_map
      (fun kv =>
         match dict_get (agents world) (fst kv) with
         | None => []
         | Some other =>
             [mkNeighbor (fst kv) (trade_intensity (snd kv)) (trade_barrier (snd kv))
                (trust (snd kv)) (conflict_level (snd kv)) (gdp (economy other))
                (military_power (technology other)) (alliance_block other)]
         end)
      (relations_of world agent_id) in
  let institutions_summary :=
    map (fun inst =>
           mkInstitutionSummary (org_id inst) (org_type inst) (org_legitimacy inst)
             (mandate inst) (List.length (members inst)))
        (dict_values (institutions world)) in
  Some (mkObservation agent_id (time world) agent competitive resource_balance neighbors
          (global_state world) institutions_summary).

Definition simple_rule_based_policy (obs : Observation) : Action :=
  let gdp_pc :=
    if Req_dec_T (gdp_per_capita (economy (self_state obs))) 0 then 10000.0
    else gdp_per_capita (economy (self_state obs)) in
  let rd_delta :=
    if Rlt_dec 30000 gdp_pc then 0.002
    else if Rlt_dec 10000 gdp_pc then 0.003
    else 0.001 in
  mkAction (obs_agent_id obs) (obs_time obs)
    (mkDomesticPolicy 0.0 0.0 0.0 rd_delta CP_none)
    (mkForeignPolicy [] [] [] (mkSecurityActions SA_none None))
    (mkFinancePolicy 0.0 0.0).

Inductive Policy : Type :=
  | llm_policy : Policy
  | callable (f : Observation -> option Action) : Policy.

Definition LlmPolicy : Type := Observation -> Memory.MemorySummary -> option Action.

(** The loop of [step_world] that asks every agent with a policy for its
    action. *)
Definition decide (llm : LlmPolicy) (apply_political_filters : bool)
    (world : WorldState) (policies : dict Policy) (memory : Memory.AgentMemory)
    (actions : dict Action) (agent_id : string) : option (dict Action) :=
  match dict_get policies agent_id with
  | None => Some actions
  | Some policy =>
      obs <- build_observation world agent_id ;;
      let answer :=
        match policy with
        | llm_policy => llm obs (Memory.summarize_agent_memory memory agent_id)
        | callable f => f obs
        end in
      let action :=
        match answer with
        | Some action => action
        | None => simple_rule_based_policy obs
        end in
      agent <- dict_get (agents world) agent_id ;;
      let action :=
        if apply_political_filters
        then PoliticalDynamics.apply_political_constraints action agent
        else action in
      Some (dict_set actions agent_id action)
  end.

(** [for action in actions.values(): apply_action(world, action)] *)
Definition apply_actions (world : WorldState) (actions : dict Action)
    : option (WorldState * dict Action) :=
  foldM
    (fun st k =>
       match dict_get (snd st) k with
       | None => Some st
       | Some action =>
           r <- Actions.apply_action (fst st) action ;;
           Some (fst r, dict_set (snd st) k (snd r))
       end)
    (dict_keys actions) (world, actions).

Definition finance_turn (w : WorldState) (k : string) (agent : AgentState) : AgentState :=
  let agent := Economy.update_public_finances agent w in
  Social.check_debt_crisis agent (put_agent k agent w).

Definition society_turn (actions : dict Action)
    (w : WorldState) (k : string) (agent : AgentState) : AgentState :=
  let agent := Social.update_population agent w in
  let agent :=
    match dict_get actions (id agent) with
    | Some action => Social.update_social_state agent action
    | None => agent
    end in
  Social.check_regime_stability agent.

(** One year.  [random] is the stream of [random.random()] draws of the
    call.  The result is the world and the memory, both updated in place by
    the code; [None] stands for a raised exception. *)
Definition step_world
    (llm : LlmPolicy) (random : Climate.Random)
    (world : WorldState) (policies : dict Policy) (memory : option Memory.AgentMemory)
    (enable_extreme_events apply_political_filters apply_institutions : bool)
    : option (WorldState * Memory.AgentMemory) :=
  let memory := match memory with Some m => m | None => [] end in
  let world := PoliticalDynamics.update_political_states world in
  let world := if apply_institutions then Institutions.update_institutions world else world in
  actions <-
    foldM (decide llm apply_political_filters world policies memory)
      (dict_keys (agents world)) [] ;;
  world <- PoliticalDynamics.resolve_foreign_policy world actions ;;
  let world := Geopolitics.apply_sanctions_effects world in
  let '(world, actions, drawn) :=
    Geopolitics.apply_security_actions world actions random 0 in
  let world := Geopolitics.update_active_conflicts world in
  let world := PoliticalDynamics.apply_trade_barrier_effects world in
  applied <- apply_actions world actions ;;
  let world := fst applied in
  let actions := snd applied in
  world <- Actions.apply_trade_deals world actions ;;
  let world := PoliticalDynamics.update_relations_endogenous world in
  let energy_alloc := Resources.allocate_energy_reserves_and_caps world in
  world <-
    Resources.update_resource_stocks world (Resources.default_stock_params (Some energy_alloc)) ;;
  let world := Resources.update_global_resource_prices world 0.15 0.3 5.0 in
  world <- Climate.update_global_climate_default world ;;
  let world := Climate.update_climate_risks_default world in
  let world :=
    if enable_extreme_events
    then fst (Climate.apply_climate_extreme_events_default world random drawn)
    else world in
  let world := for_each_agent (fun w _ agent => Economy.update_economy_output agent w) world in
  let world := for_each_agent finance_turn world in
  world <- Social.update_migration_flows world ;;
  let world := for_each_agent (society_turn actions) world in
  world <- Metrics.compute_relative_metrics world ;;
  let memory := Memory.update_agent_memory memory world actions 10%Z in
  Some (set_time (time world + 1)%Z world, memory).

End Simulation.

(** ** Sample states

    The dataclass defaults of core.py, for building concrete worlds. *)

Module Examples.

Definition economy_of (gdp capital population public_debt fx_reserves : R) : EconomyState :=
  mkEconomyState gdp capital population public_debt fx_reserves
    0.0 0.0 0.0 0.0 0.0 0.0 0%Z 0.0 0.0 0.0 0.0 0.04 0.02 0.012 0.008
    None None None None None.

Definition default_culture : CulturalState :=
  mkCulturalState 50.0 50.0 50.0 50.0 50.0 50.0 5.0 5.0 "Democracy".

Definition default_technology : TechnologyState := mkTechnologyState 1.0 1.0 0.5.

Definition default_political : PoliticalState :=
  mkPoliticalState 0.5 0.0 0.5 0.3 0.5 0.4 0.5 (-999)%Z.

Definition agent_of (agent_id : string) (econ : EconomyState) (res : dict ResourceSubState)
    (soc : SocietyState) (clim : ClimateSubState) (rsk : RiskState) : AgentState :=
  mkAgentState agent_id "country" agent_id "" econ res soc clim default_culture
    default_technology rsk "NonAligned" [] [] default_political None
    None None None None None None None None.

Definition global_of (co2 : R) (pools : list R) : GlobalState :=
  mkGlobalState co2 1.2 0.72 0.0 0.0 pools 0.0
    [("energy", 1.0); ("food", 1.0); ("metals", 1.0)]%string
    [("energy", 32.5); ("food", 100.0); ("metals", 100.0)]%string.

Definition relation_of (trade_intensity trust conflict_level : R) : RelationState :=
  mkRelationState trade_intensity trust conflict_level 0.0 false 0%Z 0.0 0.0 0.0.

End Examples.

(** * Properties *)

(** ** Arithmetic of [max], [min] and [clamp01] *)

Ltac rminmax := unfold clamp01, Rmax, Rmin in *; repeat destruct Rle_dec; try lra.

Lemma clamp01_range : forall v, 0 <= clamp01 v <= 1.
Proof. intros v. rminmax. Qed.

Lemma clamp01_id : forall v, 0 <= v <= 1 -> clamp01 v = v.
Proof. intros v Hv. rminmax. Qed.

Lemma clamp01_mono : forall u v, u <= v -> clamp01 u <= clamp01 v.
Proof. intros u v Huv. rminmax. Qed.

Lemma Rmax_lower_l : forall a b, a <= Rmax a b.
Proof. intros a b. rminmax. Qed.

Lemma Rmax_lower_r : forall a b, b <= Rmax a b.
Proof. intros a b. rminmax. Qed.

Lemma Rmin_upper_l : forall a b, Rmin a b <= a.
Proof. intros a b. rminmax. Qed.

Lemma Rmin_upper_r : forall a b, Rmin a b <= b.
Proof. intros a b. rminmax. Qed.

Lemma floor_gdp_pos : forall g, 0 < Rmax g 1e-6.
Proof. intros g. rminmax. Qed.

Create HintDb bounds.

#[global] Hint Resolve clamp01_range Rmax_lower_l Rmax_lower_r Rmin_upper_l Rmin_upper_r
  floor_gdp_pos : bounds.

(** ** Dictionaries *)

Lemma dict_get_set_same : forall (V : Type) (d : dict V) k v,
  dict_get (dict_set d k v) k = Some v.
Proof.
  induction d as [|[k' v'] d IH]; intros k v; simpl.
  - now rewrite String.eqb_refl.
  - destruct (String.eqb k' k) eqn:E; simpl; rewrite E; auto.
Qed.

Lemma dict_get_set_other : forall (V : Type) (d : dict V) k k' v,
  k <> k' -> dict_get (dict_set d k v) k' = dict_get d k'.
Proof.
  induction d as [|[k0 v0] d IH]; intros k k' v Hne; simpl.
  - destruct (String.eqb k k') eqn:E; auto.
    apply String.eqb_eq in E. contradiction.
  - destruct (String.eqb k0 k) eqn:E; simpl.
    + apply String.eqb_eq in E. subst k0.
      destruct (String.eqb k k') eqn:E'; auto.
      apply String.eqb_eq in E'. contradiction.
    + destruct (String.eqb k0 k'); auto.
Qed.

Lemma dict_get_In : forall (V : Type) (d : dict V) k v,
  dict_get d k = Some v -> In (k, v) d.
Proof.
  induction d as [|[k' v'] d IH]; intros k v H; simpl in *.
  - discriminate.
  - destruct (String.eqb k' k) eqn:E.
    + apply String.eqb_eq in E. inversion H. subst. now left.
    + right. auto.
Qed.

(** ** The effective interest rate (C9) *)

Section InterestRate.

Import Economy.

Lemma debt_spread_nonneg : forall agent,
  -1 <= debt_crisis_prone (risk agent) ->
  regime_stability (risk agent) <= 1 ->
  0 <= debt_spread agent.
Proof.
  intros agent Hd Hs. unfold debt_spread.
  set (e := Rmax 0 (public_debt (economy agent) / Rmax (gdp (economy agent)) 1e-6 - 0.6)).
  assert (He : 0 <= e) by (unfold e; auto with bounds).
  assert (H1 : 0 <= 0.03 * e + 0.10 * e ^ 2) by nra.
  assert (H2 : 0 <= 0.5 + 0.5 * debt_crisis_prone (risk agent)) by lra.
  assert (H3 : 0 <= 0.7 + 0.6 * (1.0 - regime_stability (risk agent))) by lra.
  apply Rmult_le_pos; [apply Rmult_le_pos|]; assumption.
Qed.

(** Every partner that the agent's relations name and the world knows has a
    non-negative crisis-proneness. *)
Definition partners_sane (agent : AgentState) (w : WorldState) : Prop :=
  forall k rel partner,
    In (k, rel) (relations_of w (id agent)) ->
    dict_get (agents w) k = Some partner ->
    0 <= debt_crisis_prone (risk partner).

Lemma contagion_fold_nonneg : forall (w : WorldState) (rels : dict RelationState) (acc : R * R),
  (forall k rel partner, In (k, rel) rels -> dict_get (agents w) k = Some partner ->
     0 <= debt_crisis_prone (risk partner)) ->
  0 <= fst acc -> 0 <= snd acc ->
  let r := fold_left
    (fun acc kv =>
       match dict_get (agents w) (fst kv) with
       | None => acc
       | Some partner =>
           let partner_gdp := Rmax (gdp (economy partner)) 1e-6 in
           let partner_debt_gdp := public_debt (economy partner) / partner_gdp in
           let partner_excess := Rmax 0 (partner_debt_gdp - 0.9) in
           let partner_stress := partner_excess * debt_crisis_prone (risk partner) in
           let weight := Rmax 0 (effective_trade_intensity (snd kv)) in
           (fst acc + weight, snd acc + weight * partner_stress)
       end) rels acc in
  0 <= fst r /\ 0 <= snd r.
Proof.
  intros w rels. induction rels as [|[k rel] rels IH]; intros acc Hp Hf Hs; simpl.
  - split; assumption.
  - apply IH.
    + intros k' rel' p Hin Hget. apply (Hp k' rel' p); [now right | assumption].
    + destruct (dict_get (agents w) k); simpl; [|assumption].
      pose proof (Rmax_lower_l 0 (effective_trade_intensity rel)). lra.
    + destruct (dict_get (agents w) k) as [p|] eqn:E; simpl; [|assumption].
      pose proof (Rmax_lower_l 0 (effective_trade_intensity rel)) as Hw.
      pose proof (Rmax_lower_l 0 (public_debt (economy p) / Rmax (gdp (economy p)) 1e-6 - 0.9)) as He.
      assert (Hd : 0 <= debt_crisis_prone (risk p)) by (apply (Hp k rel p); [now left | assumption]).
      assert (0 <= Rmax 0 (effective_trade_intensity rel)
                   * (Rmax 0 (public_debt (economy p) / Rmax (gdp (economy p)) 1e-6 - 0.9)
                      * debt_crisis_prone (risk p))).
      { apply Rmult_le_pos; [assumption|]. apply Rmult_le_pos; assumption. }
      lra.
Qed.

Lemma contagion_spread_range : forall agent world,
  (forall w, world = Some w -> partners_sane agent w) ->
  0 <= contagion_spread agent world <= 0.05.
Proof.
  intros agent [w|] Hp; unfold contagion_spread; [|lra].
  destruct (Rlt_dec 0 (fst (contagion_sums agent w))) as [Hpos|]; [|lra].
  destruct (contagion_fold_nonneg w (relations_of w (id agent)) (0.0, 0.0)) as [_ Hs].
  - apply (Hp w eq_refl).
  - simpl; lra.
  - simpl; lra.
  - fold (contagion_sums agent w) in Hs.
    assert (0 <= snd (contagion_sums agent w) / fst (contagion_sums agent w)).
    { apply Rmult_le_pos; [assumption|]. left. now apply Rinv_0_lt_compat. }
    rminmax.
Qed.

Lemma interest_rate_clamped : forall agent world,
  0 <= compute_effective_interest_rate agent world <= 0.35.
Proof. intros agent world. unfold compute_effective_interest_rate. rminmax. Qed.

End InterestRate.

Section InterestRateClaim.

Import Economy Examples.

(** An indebted agent whose crisis-proneness was loaded as a negative number. *)
Definition odd_risk_agent : AgentState :=
  agent_of "A" (economy_of 1.0 3.0 1e6 1.6 0.0) []
    (mkSocietyState 0.5 0.5 40.0) (mkClimateSubState 0.5 0.0 0.8 None)
    (mkRiskState 0.5 1.0 (-2.0) 0.4).

(** C9, as stated, fails: with a crisis-proneness of -2 the debt spread is
    negative, the rate before clamping is below zero and the function
    returns its floor 0.0, which is below the base rate 0.02. *)
Lemma interest_rate_below_base_rate :
  compute_effective_interest_rate odd_risk_agent None = 0
  /\ ~ (0.02 <= compute_effective_interest_rate odd_risk_agent None <= 0.35).
Proof.
  assert (H : compute_effective_interest_rate odd_risk_agent None = 0).
  { unfold compute_effective_interest_rate, debt_spread, contagion_spread,
      odd_risk_agent, agent_of, economy_of. simpl. rminmax. }
  split; [exact H | rewrite H; lra].
Qed.

(** C9, amended: when the crisis-proneness and regime stability of the agent
    lie in [0,1] and no trade partner has a negative crisis-proneness, the
    debt spread and the contagion spread are non-negative, the contagion
    spread is at most 0.05, and the returned rate is the base rate 0.02 plus
    the spread capped at 0.25 plus the contagion spread, a value of
    [0.02, 0.35]. *)
Theorem interest_rate_range : forall (agent : AgentState) (world : option WorldState),
  0 <= debt_crisis_prone (risk agent) <= 1 ->
  0 <= regime_stability (risk agent) <= 1 ->
  (forall w, world = Some w -> partners_sane agent w) ->
  0 <= debt_spread agent
  /\ 0 <= contagion_spread agent world <= 0.05
  /\ compute_effective_interest_rate agent world
     = 0.02 + Rmin (debt_spread agent) 0.25 + contagion_spread agent world
  /\ 0.02 <= compute_effective_interest_rate agent world <= 0.35.
Proof.
  intros agent world Hd Hs Hp.
  assert (Hsp : 0 <= debt_spread agent) by (apply debt_spread_nonneg; lra).
  pose proof (contagion_spread_range agent world Hp) as Hc.
  assert (Heq : compute_effective_interest_rate agent world
                = 0.02 + Rmin (debt_spread agent) 0.25 + contagion_spread agent world).
  { unfold compute_effective_interest_rate. rminmax. }
  repeat split; try tauto; rewrite Heq; rminmax.
Qed.

(** A two-country world: B trades with A and carries a heavy debt. *)
Definition sane_agent (agent_id : string) (debt : R) : AgentState :=
  agent_of agent_id (economy_of 1.0 3.0 1e6 debt 0.0) []
    (mkSocietyState 0.5 0.5 40.0) (mkClimateSubState 0.5 0.0 0.8 None)
    (mkRiskState 0.5 0.6 0.5 0.4).

Definition sane_world : WorldState :=
  mkWorldState 0%Z
    [("A", sane_agent "A" 1.6); ("B", sane_agent "B" 2.0)]%string
    (global_of 3270.0 [])
    [("A", [("B", relation_of 0.5 0.6 0.1)]); ("B", [("A", relation_of 0.5 0.6 0.1)])]%string
    [].

Lemma interest_rate_range_witness :
  0.02 <= compute_effective_interest_rate (sane_agent "A" 1.6) (Some sane_world) <= 0.35.
Proof.
  apply (interest_rate_range (sane_agent "A" 1.6) (Some sane_world)).
  - simpl; lra.
  - simpl; lra.
  - intros w Hw. inversion Hw; subst w. intros k rel partner Hin Hget.
    simpl in Hin. destruct Hin as [Hin|[]]. inversion Hin; subst k rel.
    simpl in Hget. inversion Hget; subst partner. simpl; lra.
Defined.

End InterestRateClaim.

(** ** Food reserves (C10) *)

Section FoodReserve.

Import Resources Examples.

Definition food_rates_nonneg (p : StockParams) : Prop :=
  0 <= dict_get_default (regen_params p) "food" 0.0
  /\ 0 <= dict_get_default (tech_expansion_params p) "food" 0.0.

Lemma update_one_resource_food : forall p world agent_id food r,
  food_rates_nonneg p ->
  update_one_resource p world agent_id "food" food = Some r ->
  own_reserve food <= own_reserve (fst r).
Proof.
  intros p world agent_id food r [Hr Ht] H.
  unfold update_one_resource in H. simpl in H. inversion H; subst r; clear H. simpl.
  pose proof (Rmax_lower_r (own_reserve food) 0) as H0.
  pose proof (Rmax_lower_l (own_reserve food) 0) as H1.
  set (m := Rmax (own_reserve food) 0) in *.
  assert (0 <= dict_get_default (regen_params p) "food" 0.0 * m) by (apply Rmult_le_pos; lra).
  assert (0 <= dict_get_default (tech_expansion_params p) "food" 0.0 * m)
    by (apply Rmult_le_pos; lra).
  rminmax.
Qed.

(** One turn of the inner loop, seen from the food entry. *)
Lemma update_agent_resources_food : forall p world agent_id st name st' food,
  food_rates_nonneg p ->
  update_agent_resources p world agent_id st name = Some st' ->
  dict_get (resources (fst st)) "food" = Some food ->
  exists food', dict_get (resources (fst st')) "food" = Some food'
                /\ own_reserve food <= own_reserve food'.
Proof.
  intros p world agent_id [agent totals] name st' food Hp H Hfood.
  unfold update_agent_resources in H. simpl in *.
  destruct (dict_get (resources agent) name) as [res|] eqn:Hres.
  - destruct (update_one_resource p world agent_id name res) as [r|] eqn:Hone;
      simpl in H; [|discriminate].
    inversion H; subst st'; clear H. simpl.
    destruct (string_dec name "food") as [->|Hne].
    + rewrite Hfood in Hres. inversion Hres; subst res.
      exists (fst r). split; [apply dict_get_set_same|].
      now apply (update_one_resource_food p world agent_id).
    + exists food. split; [|lra]. now rewrite dict_get_set_other.
  - inversion H; subst st'. exists food. simpl. split; [assumption|lra].
Qed.

Lemma foldM_resources_food : forall p world agent_id names st st' food,
  food_rates_nonneg p ->
  foldM (update_agent_resources p world agent_id) names st = Some st' ->
  dict_get (resources (fst st)) "food" = Some food ->
  exists food', dict_get (resources (fst st')) "food" = Some food'
                /\ own_reserve food <= own_reserve food'.
Proof.
  intros p world agent_id names. induction names as [|n names IH]; intros st st' food Hp H Hf.
  - simpl in H. inversion H; subst. exists food. split; [assumption|lra].
  - simpl in H.
    destruct (update_agent_resources p world agent_id st n) as [st1|] eqn:E;
      simpl in H; [|discriminate].
    destruct (update_agent_resources_food _ _ _ _ _ _ _ Hp E Hf) as [f1 [Hf1 Hle1]].
    destruct (IH st1 st' f1 Hp H Hf1) as [f2 [Hf2 Hle2]].
    exists f2. split; [assumption|lra].
Qed.

Lemma update_agents_resources_food : forall p world l totals l' totals' i agent_id agent food,
  food_rates_nonneg p ->
  update_agents_resources p world l totals = Some (l', totals') ->
  nth_error l i = Some (agent_id, agent) ->
  dict_get (resources agent) "food" = Some food ->
  exists agent' food',
    nth_error l' i = Some (agent_id, agent')
    /\ dict_get (resources agent') "food" = Some food'
    /\ own_reserve food <= own_reserve food'.
Proof.
  intros p world l. induction l as [|[k a] l IH];
    intros totals l' totals' i agent_id agent food Hp H Hn Hf.
  - destruct i; discriminate.
  - cbn -[foldM] in H.
    destruct (foldM (update_agent_resources p world k) RESOURCE_NAMES (a, totals))
      as [r|] eqn:E; cbn -[foldM] in H; [|discriminate].
    destruct (update_agents_resources p world l (snd r)) as [[l1 t1]|] eqn:E1;
      cbn -[foldM] in H; [|discriminate].
    inversion H; subst l' totals'; clear H.
    destruct i as [|i]; simpl in Hn.
    + inversion Hn; subst k a; clear Hn.
      destruct (foldM_resources_food _ _ _ _ _ _ _ Hp E Hf) as [f' [Hf' Hle]].
      exists (fst r), f'. simpl. auto.
    + destruct (IH _ _ _ _ _ _ _ Hp E1 Hn Hf) as [a' [f' [Hn' [Hf' Hle]]]].
      exists a', f'. simpl. auto.
Qed.

(** C10: during [update_resource_stocks] the food reserve of every agent
    only grows: whenever the regeneration and technology-expansion rates of
    food are non-negative (as the defaults 0.02 and 0.0 are), the agent that
    stands at a given place of [world.agents] stands there afterwards, still
    has a food resource, and its [own_reserve] is at least what it was. *)
Theorem food_reserve_never_decreases :
  forall (world world' : WorldState) (p : StockParams)
         (i : nat) (agent_id : string) (agent : AgentState) (food : ResourceSubState),
  food_rates_nonneg p ->
  update_resource_stocks world p = Some world' ->
  nth_error (agents world) i = Some (agent_id, agent) ->
  dict_get (resources agent) "food" = Some food ->
  exists agent' food',
    nth_error (agents world') i = Some (agent_id, agent')
    /\ dict_get (resources agent') "food" = Some food'
    /\ own_reserve food <= own_reserve food'.
Proof.
  intros world world' p i agent_id agent food Hp H Hn Hf.
  unfold update_resource_stocks in H.
  destruct (update_agents_resources p world (agents world)
              (map (fun name => (name, 0.0)) RESOURCE_NAMES)) as [[l t]|] eqn:E;
    simpl in H; [|discriminate].
  inversion H; subst world'; clear H. simpl.
  exact (update_agents_resources_food p world (agents world) _ l t i agent_id agent food
           Hp E Hn Hf).
Qed.

Lemma default_food_rates_nonneg : forall alloc, food_rates_nonneg (default_stock_params alloc).
Proof.
  intros alloc.
  unfold food_rates_nonneg, default_stock_params, DEFAULT_REGEN_PARAMS,
    DEFAULT_TECH_EXPANSION_PARAMS, dict_get_default.
  simpl. lra.
Qed.

(** A country with a food stock of 10 and nothing else. *)
Definition farm : AgentState :=
  agent_of "A" (economy_of 1.0 3.0 1e6 0.5 0.0)
    [("food", mkResourceSubState 10.0 50.0 50.0 1.0)]%string
    (mkSocietyState 0.5 0.5 40.0) (mkClimateSubState 0.5 0.0 0.8 None)
    (mkRiskState 0.5 0.6 0.5 0.4).

Definition farm_world : WorldState :=
  mkWorldState 0%Z [("A", farm)]%string (global_of 3270.0 []) [] [].

Lemma farm_world_updates :
  { w | update_resource_stocks farm_world (default_stock_params None) = Some w }.
Proof. eexists. unfold update_resource_stocks. simpl. reflexivity. Defined.

Lemma food_reserve_never_decreases_witness :
  exists agent' food',
    nth_error (agents (proj1_sig farm_world_updates)) 0 = Some ("A"%string, agent')
    /\ dict_get (resources agent') "food" = Some food'
    /\ 10.0 <= own_reserve food'.
Proof.
  apply (food_reserve_never_decreases farm_world (proj1_sig farm_world_updates)
           (default_stock_params None) 0 "A" farm (mkResourceSubState 10.0 50.0 50.0 1.0)).
  - apply default_food_rates_nonneg.
  - exact (proj2_sig farm_world_updates).
  - reflexivity.
  - reflexivity.
Defined.

End FoodReserve.

(** ** The credit score and the rating scale (C3) *)

Section CreditScore.

Import CreditRating.

Lemma Int_part_bounds : forall x, IZR (Int_part x) <= x < IZR (Int_part x) + 1.
Proof. intros x. destruct (base_Int_part x). lra. Qed.

Lemma Int_part_mono : forall x y, x <= y -> (Int_part x <= Int_part y)%Z.
Proof.
  intros x y Hxy.
  pose proof (Int_part_bounds x) as Hx. pose proof (Int_part_bounds y) as Hy.
  assert (H : IZR (Int_part x) < IZR (Int_part y + 1)) by (rewrite plus_IZR; lra).
  apply lt_IZR in H. lia.
Qed.

Lemma py_round_near : forall x, (Int_part x <= py_round x <= Int_part x + 1)%Z.
Proof.
  intros x. unfold py_round.
  repeat destruct Rlt_dec; try destruct (Z.even (Int_part x)); lia.
Qed.

Lemma py_round_mono : forall x y, x <= y -> (py_round x <= py_round y)%Z.
Proof.
  intros x y Hxy.
  pose proof (Int_part_mono x y Hxy) as Hf.
  pose proof (py_round_near x) as Hx. pose proof (py_round_near y) as Hy.
  destruct (Z.eq_dec (Int_part x) (Int_part y)) as [Heq|Hne]; [|lia].
  clear Hx Hy Hf. unfold py_round. rewrite Heq.
  repeat destruct Rlt_dec; try destruct (Z.even (Int_part y)); try lia; lra.
Qed.

Lemma combine_risks_mono : forall f f' w w' s s' sa sa' m m',
  f <= f' -> w <= w' -> s <= s' -> sa <= sa' -> m <= m' ->
  combine_risks f w s sa m <= combine_risks f' w' s' sa' m'.
Proof.
  intros. unfold combine_risks. apply clamp01_mono. lra.
Qed.

Lemma risk_to_rating_mono : forall x y, x <= y -> (_risk_to_rating x <= _risk_to_rating y)%Z.
Proof.
  intros x y Hxy. unfold _risk_to_rating.
  assert (H : (py_round (IZR RATING_MIN + clamp01 x * IZR (RATING_MAX - RATING_MIN))
               <= py_round (IZR RATING_MIN + clamp01 y * IZR (RATING_MAX - RATING_MIN)))%Z).
  { apply py_round_mono. pose proof (clamp01_mono x y Hxy).
    unfold RATING_MIN, RATING_MAX. simpl. lra. }
  lia.
Qed.

Lemma total_score_is_weighted_sum : forall agent world summary,
  let c := _credit_risk_components agent world summary in
  total_risk_score c
  = clamp01 (0.25 * financial_risk c + 0.20 * war_risk c + 0.22 * social_risk c
             + 0.13 * sanctions_risk c + 0.20 * macro_risk c).
Proof.
  intros agent world summary. unfold _credit_risk_components.
  destruct (_war_metrics agent world) as [[[aw nw] wl] hl].
  destruct (_social_structural_risk agent) as [st mg].
  destruct (_inbound_sanction_pressure world (id agent)) as [[sn mc] sc].
  reflexivity.
Qed.

(** C3: the total score that [_credit_risk_components] returns is the
    clamped sum of its five component risks with weights 0.25 (financial),
    0.20 (war), 0.22 (social), 0.13 (sanctions) and 0.20 (macro); that sum
    does not decrease when one component grows and the other four stay;
    [_risk_to_rating] is non-decreasing and maps every score (so every score
    of [0,1]) to an integer of [1,26]; the zone is green up to rating 12,
    yellow up to 20 and red above. *)
Theorem credit_score_monotone_and_rating_scale :
  (forall agent world summary,
     let c := _credit_risk_components agent world summary in
     total_risk_score c
     = combine_risks (financial_risk c) (war_risk c) (social_risk c)
         (sanctions_risk c) (macro_risk c))
  /\ (forall f w s sa m,
        combine_risks f w s sa m
        = clamp01 (0.25 * f + 0.20 * w + 0.22 * s + 0.13 * sa + 0.20 * m))
  /\ (forall f f' w s sa m, f <= f' -> combine_risks f w s sa m <= combine_risks f' w s sa m)
  /\ (forall f w w' s sa m, w <= w' -> combine_risks f w s sa m <= combine_risks f w' s sa m)
  /\ (forall f w s s' sa m, s <= s' -> combine_risks f w s sa m <= combine_risks f w s' sa m)
  /\ (forall f w s sa sa' m, sa <= sa' -> combine_risks f w s sa m <= combine_risks f w s sa' m)
  /\ (forall f w s sa m m', m <= m' -> combine_risks f w s sa m <= combine_risks f w s sa m')
  /\ (forall x y, x <= y -> (_risk_to_rating x <= _risk_to_rating y)%Z)
  /\ (forall x, (1 <= _risk_to_rating x <= 26)%Z)
  /\ (forall r, rating_zone r = green <-> (r <= 12)%Z)
  /\ (forall r, rating_zone r = yellow <-> (12 < r <= 20)%Z)
  /\ (forall r, rating_zone r = red <-> (20 < r)%Z).
Proof.
  split; [|split; [|split; [|split; [|split; [|split; [|split;
    [|split; [|split; [|split; [|split]]]]]]]]]].
  - intros agent world summary c. unfold combine_risks. apply total_score_is_weighted_sum.
  - reflexivity.
  - intros. apply combine_risks_mono; lra.
  - intros. apply combine_risks_mono; lra.
  - intros. apply combine_risks_mono; lra.
  - intros. apply combine_risks_mono; lra.
  - intros. apply combine_risks_mono; lra.
  - exact risk_to_rating_mono.
  - intros x. unfold _risk_to_rating, RATING_MIN, RATING_MAX. lia.
  - intros r. unfold rating_zone, GREEN_MAX, YELLOW_MAX.
    destruct (Z.leb_spec r 12); [|destruct (Z.leb_spec r 20)];
      split; intros; try discriminate; try reflexivity; lia.
  - intros r. unfold rating_zone, GREEN_MAX, YELLOW_MAX.
    destruct (Z.leb_spec r 12); [|destruct (Z.leb_spec r 20)];
      split; intros; try discriminate; try reflexivity; lia.
  - intros r. unfold rating_zone, GREEN_MAX, YELLOW_MAX.
    destruct (Z.leb_spec r 12); [|destruct (Z.leb_spec r 20)];
      split; intros; try discriminate; try reflexivity; lia.
Qed.

End CreditScore.

(** ** The carbon pools (C2) *)

Section CarbonPools.

Import Climate Examples.

(** The emissions summed by [update_global_climate]. *)
Definition total_emissions (world : WorldState) : R :=
  Rsum (map (fun a => co2_annual_emissions (climate a)) (dict_values (agents world))).

(** The pools that the integrator starts from: those of the world, or the
    pools rebuilt from the stock when their number is not that of the
    fractions. *)
Definition pools_before (world : WorldState) (fractions : list R) : list R :=
  if Nat.eqb (List.length (carbon_pools (global_state world))) (List.length fractions)
  then carbon_pools (global_state world)
  else carbon_pools (global_state (_init_carbon_pools world fractions)).

Lemma update_global_climate_pools :
  forall world dt ecs f_nonco2 hs hd ox fractions timescales world',
  update_global_climate world dt ecs f_nonco2 hs hd ox fractions timescales = Some world' ->
  let fr := _normalize_fractions fractions in
  let new_pools :=
    step_pools dt (total_emissions world) (pools_before world fr) fr
      (fit_timescales timescales (List.length fr)) in
  carbon_pools (global_state world') = new_pools
  /\ co2 (global_state world')
     = Rmax (CO2_PREINDUSTRIAL_GT + Rsum new_pools) CO2_PREINDUSTRIAL_GT.
Proof.
  intros world dt ecs f_nonco2 hs hd ox fractions timescales world' H.
  unfold update_global_climate in H.
  unfold pools_before, total_emissions.
  destruct (Nat.eqb (List.length (carbon_pools (global_state world)))
              (List.length (_normalize_fractions fractions))) eqn:E.
  - destruct (biodiversity_sums (dict_values (agents world)) (0.0, 0.0)) as [sums|];
      simpl in H; [|discriminate].
    inversion H; subst world'; clear H.
    destruct (Rlt_dec 0 (fst sums)); simpl; split; reflexivity.
  - destruct (biodiversity_sums
                (dict_values (agents (_init_carbon_pools world (_normalize_fractions fractions))))
                (0.0, 0.0)) as [sums|]; simpl in H; [|discriminate].
    inversion H; subst world'; clear H.
    destruct (Rlt_dec 0 (fst sums)); simpl; split; reflexivity.
Qed.

Lemma step_pools_nth : forall dt e pools fs ts i pool frac tau,
  nth_error pools i = Some pool ->
  nth_error fs i = Some frac ->
  nth_error ts i = Some tau ->
  nth_error (step_pools dt e pools fs ts) i = Some (pool * pool_decay dt tau + frac * e).
Proof.
  intros dt e pools. induction pools as [|p pools IH]; intros fs ts i pool frac tau Hp Hf Ht.
  - destruct i; discriminate.
  - destruct fs as [|f fs]; [destruct i; discriminate|].
    destruct ts as [|t ts]; [destruct i; discriminate|].
    destruct i as [|i]; simpl in *.
    + inversion Hp; inversion Hf; inversion Ht; subst. reflexivity.
    + now apply IH.
Qed.

Lemma fit_timescales_length : forall ts n, List.length (fit_timescales ts n) = n.
Proof.
  intros ts n. unfold fit_timescales.
  destruct (Nat.ltb_spec (List.length ts) n).
  - rewrite length_app, repeat_length. lia.
  - rewrite length_firstn. lia.
Qed.

Lemma nth_error_same_length : forall (A B : Type) (l : list A) (l' : list B) i a,
  List.length l = List.length l' -> nth_error l i = Some a -> exists b, nth_error l' i = Some b.
Proof.
  intros A B l l' i a Hlen Hn.
  assert (Hi : (i < List.length l')%nat).
  { rewrite <- Hlen. apply nth_error_Some. congruence. }
  apply nth_error_Some in Hi. destruct (nth_error l' i) as [b|]; [now exists b | contradiction].
Qed.

Lemma pool_decay_finite : forall dt t, 0 < t -> pool_decay dt (Finite t) = exp (- dt / t).
Proof. intros dt t Ht. simpl. destruct (Rle_dec t 0); [lra | reflexivity]. Qed.

Lemma pool_decay_contracts : forall dt t, 0 < t -> 0 < dt -> 0 < pool_decay dt (Finite t) < 1.
Proof.
  intros dt t Ht Hdt. rewrite pool_decay_finite by assumption. split; [apply exp_pos|].
  rewrite <- exp_0. apply exp_increasing.
  assert (0 < dt / t) by (apply Rdiv_lt_0_compat; assumption).
  unfold Rdiv in *. lra.
Qed.

End CarbonPools.

Section CarbonPoolsClaim.

Import Climate Examples.

Lemma default_fractions_normalized :
  _normalize_fractions CARBON_POOL_FRACTIONS = CARBON_POOL_FRACTIONS.
Proof.
  unfold _normalize_fractions, CARBON_POOL_FRACTIONS, Rsum. simpl.
  destruct Rle_dec as [H|H]; [lra|].
  replace (0 + 0.2173 + 0.2240 + 0.2824 + 0.2763) with 1 by lra.
  rewrite !Rdiv_1_r. reflexivity.
Qed.

Lemma biodiversity_sums_total : forall l acc,
  Forall (fun a => 0 < population (economy a)) l ->
  exists sums, biodiversity_sums l acc = Some sums.
Proof.
  induction l as [|a l IH]; intros acc Hl; simpl.
  - now exists acc.
  - inversion Hl as [|? ? Ha Hl']; subst.
    unfold py_pow. destruct (Rlt_dec 0 (population (economy a))); [|contradiction].
    simpl. apply IH. assumption.
Qed.

(** The step returns whenever no population is zero or negative. *)
Lemma update_global_climate_returns :
  forall world dt ecs f_nonco2 hs hd ox fractions timescales,
  Forall (fun a => 0 < population (economy a)) (dict_values (agents world)) ->
  exists world',
    update_global_climate world dt ecs f_nonco2 hs hd ox fractions timescales = Some world'.
Proof.
  intros world dt ecs f_nonco2 hs hd ox fractions timescales Hpop.
  unfold update_global_climate.
  destruct (Nat.eqb (List.length (carbon_pools (global_state world)))
              (List.length (_normalize_fractions fractions))).
  - destruct (biodiversity_sums_total (dict_values (agents world)) (0.0, 0.0) Hpop) as [s Hs].
    rewrite Hs. simpl. eexists. reflexivity.
  - destruct (biodiversity_sums_total
                (dict_values (agents (_init_carbon_pools world (_normalize_fractions fractions))))
                (0.0, 0.0) Hpop) as [s Hs].
    rewrite Hs. simpl. eexists. reflexivity.
Qed.

(** One country that removes 100 Gt a year from an atmosphere at the
    pre-industrial stock, the four pools empty. *)
Definition sink_country : AgentState :=
  agent_of "A" (economy_of 1.0 3.0 1e6 0.5 0.0) []
    (mkSocietyState 0.5 0.5 40.0) (mkClimateSubState 0.5 (-100.0) 0.8 None)
    (mkRiskState 0.5 0.6 0.5 0.4).

Definition sink_world : WorldState :=
  mkWorldState 0%Z [("A", sink_country)]%string (global_of 2184.0 [0.0; 0.0; 0.0; 0.0]) [] [].

(** C2, as stated, fails: with net-negative emissions the pools sum to -100
    after the call while the stock is held at the pre-industrial 2184, so the
    stock is not the baseline plus the sum of the pools. *)
Lemma co2_stock_is_not_baseline_plus_pools :
  exists world',
    update_global_climate_default sink_world = Some world'
    /\ Rsum (carbon_pools (global_state world')) = -100
    /\ co2 (global_state world') = CO2_PREINDUSTRIAL_GT
    /\ co2 (global_state world')
       <> CO2_PREINDUSTRIAL_GT + Rsum (carbon_pools (global_state world')).
Proof.
  destruct (update_global_climate_returns sink_world 1.0 DEFAULT_ECS DEFAULT_F_NONCO2
              DEFAULT_HEAT_CAP_SURFACE DEFAULT_HEAT_CAP_DEEP DEFAULT_OCEAN_EXCHANGE
              CARBON_POOL_FRACTIONS CARBON_POOL_TIMESCALES) as [w' Hw'].
  { repeat constructor. simpl. lra. }
  exists w'. split; [exact Hw'|].
  destruct (update_global_climate_pools _ _ _ _ _ _ _ _ _ _ Hw') as [Hpools Hco2].
  rewrite default_fractions_normalized in Hpools, Hco2.
  assert (Hsum : Rsum (carbon_pools (global_state w')) = -100).
  { rewrite Hpools. unfold total_emissions, pools_before, Rsum. simpl. lra. }
  rewrite Hpools in Hsum. rewrite Hco2, Hpools, Hsum.
  unfold CO2_PREINDUSTRIAL_GT. repeat split; rminmax.
Qed.

(** C2, amended: after every call that returns, the stock is the larger
    of the pre-industrial baseline and the baseline plus the sum of the pools:
    it is never below the baseline, and it is the baseline plus the sum of
    the pools whenever that sum is not negative.  If the total annual
    emissions are zero and the world already holds one pool per partition
    fraction, every pool is multiplied by its own decay factor, which is
    exp(-dt/tau) (strictly between 0 and 1 for a positive dt) for a finite
    positive time-constant tau and 1 (no decay) for an infinite or a
    non-positive one. *)
Theorem carbon_pools_decay_and_stock_floor :
  forall world dt ecs f_nonco2 hs hd ox fractions timescales world',
  update_global_climate world dt ecs f_nonco2 hs hd ox fractions timescales = Some world' ->
  let fr := _normalize_fractions fractions in
  let ts := fit_timescales timescales (List.length fr) in
  let pools := carbon_pools (global_state world) in
  let pools' := carbon_pools (global_state world') in
  let co2' := co2 (global_state world') in
  co2' = Rmax (CO2_PREINDUSTRIAL_GT + Rsum pools') CO2_PREINDUSTRIAL_GT
  /\ CO2_PREINDUSTRIAL_GT <= co2'
  /\ (0 <= Rsum pools' -> co2' = CO2_PREINDUSTRIAL_GT + Rsum pools')
  /\ (total_emissions world = 0 ->
      List.length pools = List.length fr ->
      forall i pool,
        nth_error pools i = Some pool ->
        exists tau,
          nth_error ts i = Some tau
          /\ nth_error pools' i = Some (pool * pool_decay dt tau))
  /\ (forall t, 0 < t -> pool_decay dt (Finite t) = exp (- dt / t))
  /\ (forall t, 0 < t -> 0 < dt -> 0 < pool_decay dt (Finite t) < 1)
  /\ (forall t, t <= 0 -> pool_decay dt (Finite t) = 1)
  /\ pool_decay dt Inf = 1.
Proof.
  intros world dt ecs f_nonco2 hs hd ox fractions timescales world' H fr ts pools pools' co2'.
  destruct (update_global_climate_pools _ _ _ _ _ _ _ _ _ _ H) as [Hpools Hco2].
  fold fr in Hpools, Hco2. fold ts in Hpools, Hco2.
  fold pools' in Hpools. fold co2' in Hco2. rewrite <- Hpools in Hco2.
  split; [exact Hco2|]. split; [rewrite Hco2; apply Rmax_lower_r|].
  split; [intros Hs; rewrite Hco2; rminmax|].
  split.
  - intros He Hlen i pool Hp.
    assert (Hbefore : pools_before world fr = pools).
    { unfold pools_before. fold pools. rewrite Hlen, Nat.eqb_refl. reflexivity. }
    destruct (nth_error_same_length _ _ pools fr i pool Hlen Hp) as [frac Hf].
    assert (Hlts : List.length pools = List.length ts).
    { unfold ts. rewrite fit_timescales_length. exact Hlen. }
    destruct (nth_error_same_length _ _ pools ts i pool Hlts Hp) as [tau Ht].
    exists tau. split; [exact Ht|].
    rewrite Hpools, Hbefore, He.
    rewrite (step_pools_nth dt 0 pools fr ts i pool frac tau Hp Hf Ht).
    f_equal. lra.
  - split; [intros t Ht; now apply pool_decay_finite|].
    split; [intros t Ht Hdt; now apply pool_decay_contracts|].
    split; [|simpl; lra].
    intros t Ht. simpl. destruct (Rle_dec t 0); [lra|contradiction].
Qed.

(** A country without emissions under four pools of 100 Gt each. *)
Definition idle_country : AgentState :=
  agent_of "A" (economy_of 1.0 3.0 1e6 0.5 0.0) []
    (mkSocietyState 0.5 0.5 40.0) (mkClimateSubState 0.5 0.0 0.8 None)
    (mkRiskState 0.5 0.6 0.5 0.4).

Definition idle_world : WorldState :=
  mkWorldState 0%Z [("A", idle_country)]%string
    (global_of 2584.0 [100.0; 100.0; 100.0; 100.0]) [] [].

Lemma carbon_pools_decay_and_stock_floor_witness :
  exists world',
    update_global_climate_default idle_world = Some world'
    /\ CO2_PREINDUSTRIAL_GT <= co2 (global_state world')
    /\ nth_error (carbon_pools (global_state world')) 1 = Some (100.0 * exp (- 1.0 / 394.4)).
Proof.
  destruct (update_global_climate_returns idle_world 1.0 DEFAULT_ECS DEFAULT_F_NONCO2
              DEFAULT_HEAT_CAP_SURFACE DEFAULT_HEAT_CAP_DEEP DEFAULT_OCEAN_EXCHANGE
              CARBON_POOL_FRACTIONS CARBON_POOL_TIMESCALES) as [w' Hw'].
  { repeat constructor. simpl. lra. }
  exists w'. split; [exact Hw'|].
  destruct (carbon_pools_decay_and_stock_floor _ _ _ _ _ _ _ _ _ _ Hw')
    as (_ & Hfloor & _ & Hdecay & Hfin & _).
  split; [exact Hfloor|].
  destruct (Hdecay) with (i := 1%nat) (pool := 100.0) as [tau [Ht Hp]].
  - unfold total_emissions, Rsum. simpl. lra.
  - rewrite default_fractions_normalized. reflexivity.
  - reflexivity.
  - rewrite default_fractions_normalized in Ht. simpl in Ht.
    inversion Ht; subst tau. rewrite Hp. rewrite Hfin by lra.
    do 3 f_equal. lra.
Defined.

End CarbonPoolsClaim.

(** ** In-place loops over the agents *)

Lemma dict_mem_set : forall (V : Type) (d : dict V) k k' v,
  dict_mem (dict_set d k v) k' = (String.eqb k k' || dict_mem d k')%bool.
Proof.
  intros V d k k' v. unfold dict_mem.
  destruct (String.eqb k k') eqn:E.
  - apply String.eqb_eq in E. subst. now rewrite dict_get_set_same.
  - rewrite dict_get_set_other; [reflexivity|].
    intros ->. rewrite String.eqb_refl in E. discriminate.
Qed.

Lemma dict_mem_get : forall (V : Type) (d : dict V) k v,
  dict_get d k = Some v -> dict_mem d k = true.
Proof. intros V d k v H. unfold dict_mem. now rewrite H. Qed.

Lemma dict_get_keys : forall (V : Type) (d : dict V) k v,
  dict_get d k = Some v -> In k (dict_keys d).
Proof.
  intros V d k v H. apply dict_get_In in H. unfold dict_keys.
  change k with (fst (k, v)). now apply in_map.
Qed.

Lemma put_agent_get_same : forall w k a a0,
  dict_get (agents w) k = Some a0 ->
  dict_get (agents (put_agent k a w)) k = Some a.
Proof.
  intros w k a a0 H. unfold put_agent. rewrite (dict_mem_get _ _ _ _ H).
  simpl. apply dict_get_set_same.
Qed.

Lemma put_agent_get_other : forall w k k' a,
  k <> k' -> dict_get (agents (put_agent k a w)) k' = dict_get (agents w) k'.
Proof.
  intros w k k' a Hne. unfold put_agent.
  destruct (dict_mem (agents w) k); [|reflexivity].
  simpl. now apply dict_get_set_other.
Qed.

Lemma put_agent_relations : forall w k a, relations (put_agent k a w) = relations w.
Proof. intros w k a. unfold put_agent. destruct (dict_mem (agents w) k); reflexivity. Qed.

Lemma put_agent_mem : forall w k k' a,
  dict_mem (agents (put_agent k a w)) k' = dict_mem (agents w) k'.
Proof.
  intros w k k' a. unfold put_agent.
  destruct (dict_mem (agents w) k) eqn:E; [|reflexivity].
  simpl. rewrite dict_mem_set.
  destruct (String.eqb k k') eqn:E'; [|reflexivity].
  apply String.eqb_eq in E'. subst. now rewrite E.
Qed.

Section ForEachAgent.

Variable body : WorldState -> string -> AgentState -> AgentState.

(** What the turns of the loop keep of the world they started from. *)
Variable kept : WorldState -> WorldState -> Prop.
Hypothesis kept_refl : forall w, kept w w.
Hypothesis kept_step : forall w wi k a,
  kept w wi -> dict_get (agents wi) k = Some a -> kept w (put_agent k (body wi k a) wi).

Definition turn (w : WorldState) (k : string) : WorldState :=
  match dict_get (agents w) k with
  | Some agent => put_agent k (body w k agent) w
  | None => w
  end.

Lemma turns_keep : forall ks w wc, kept w wc -> kept w (fold_left turn ks wc).
Proof.
  induction ks as [|k ks IH]; intros w wc Hk; simpl; [assumption|].
  apply IH. unfold turn. destruct (dict_get (agents wc) k) eqn:E; [|assumption].
  now apply kept_step.
Qed.

Lemma turns_untouched : forall ks wc k,
  ~ In k ks -> dict_get (agents (fold_left turn ks wc)) k = dict_get (agents wc) k.
Proof.
  induction ks as [|k0 ks IH]; intros wc k Hn; simpl; [reflexivity|].
  rewrite IH by (intros Hin; apply Hn; now right).
  unfold turn. destruct (dict_get (agents wc) k0); [|reflexivity].
  apply put_agent_get_other. intros ->. apply Hn. now left.
Qed.

Lemma turns_reach : forall ks w wc k a,
  NoDup ks -> In k ks -> kept w wc -> dict_get (agents wc) k = Some a ->
  exists wi, kept w wi /\ dict_get (agents (fold_left turn ks wc)) k = Some (body wi k a).
Proof.
  induction ks as [|k0 ks IH]; intros w wc k a Hnd Hin Hk Hget; [contradiction|].
  inversion Hnd as [|? ? Hnot Hnd']; subst. simpl.
  destruct (string_dec k0 k) as [->|Hne].
  - exists wc. split; [assumption|].
    rewrite turns_untouched by assumption.
    unfold turn. rewrite Hget. now apply (put_agent_get_same wc k _ a).
  - destruct Hin as [Heq|Hin]; [contradiction|].
    apply IH; try assumption.
    + unfold turn. destruct (dict_get (agents wc) k0) eqn:E; [|assumption].
      now apply kept_step.
    + unfold turn. destruct (dict_get (agents wc) k0); [|assumption].
      now rewrite put_agent_get_other.
Qed.

(** The agent bound to [k] leaves the loop as the body made it, from a
    world that kept what the turns keep. *)
Lemma for_each_agent_reach : forall w k a,
  NoDup (dict_keys (agents w)) ->
  dict_get (agents w) k = Some a ->
  exists wi, kept w wi /\ dict_get (agents (for_each_agent body w)) k = Some (body wi k a).
Proof.
  intros w k a Hnd Hget. unfold for_each_agent.
  apply (turns_reach (dict_keys (agents w)) w w k a); auto.
  now apply (dict_get_keys _ _ _ a).
Qed.

End ForEachAgent.

(** ** Sanction resolution (C5, C6) *)

Section Sanctions.

Import PoliticalDynamics.

Lemma dict_get_not_key : forall (V : Type) (d : dict V) k,
  ~ In k (dict_keys d) -> dict_get d k = None.
Proof.
  intros V d k Hn. destruct (dict_get d k) as [v|] eqn:E; [|reflexivity].
  exfalso. apply Hn. now apply (dict_get_keys _ _ _ v).
Qed.

(** What a turn of [resolve_sanctions] reads of the other agents. *)
Definition sanction_view (w wi : WorldState) : Prop :=
  relations wi = relations w
  /\ forall k, option_map alliance_block (dict_get (agents wi) k)
               = option_map alliance_block (dict_get (agents w) k).

Lemma sanction_view_refl : forall w, sanction_view w w.
Proof. intros w. split; reflexivity. Qed.

Lemma sanction_view_step : forall actions w wi k a,
  sanction_view w wi -> dict_get (agents wi) k = Some a ->
  sanction_view w (put_agent k (resolve_sanctions_actor actions wi k a) wi).
Proof.
  intros actions w wi k a [Hr Ha] Hget. split.
  - now rewrite put_agent_relations.
  - intros k'. destruct (string_dec k k') as [->|Hne].
    + rewrite (put_agent_get_same wi k' _ a Hget). rewrite <- Ha, Hget. reflexivity.
    + rewrite put_agent_get_other by assumption. apply Ha.
Qed.

Lemma resolve_target_view : forall w wi actor_id actor intents t,
  sanction_view w wi ->
  resolve_target wi actor_id actor intents t = resolve_target w actor_id actor intents t.
Proof.
  intros w wi actor_id actor intents t [Hr Ha]. unfold resolve_target.
  destruct (String.eqb t actor_id); [reflexivity|].
  assert (Hm : dict_mem (agents wi) t = dict_mem (agents w) t).
  { unfold dict_mem. pose proof (Ha t) as H.
    destruct (dict_get (agents wi) t), (dict_get (agents w) t); simpl in H;
      try discriminate; reflexivity. }
  rewrite Hm. destruct (dict_mem (agents w) t); simpl; [|reflexivity].
  destruct (eq_sanction (dict_get_default intents t S_none) S_none); [reflexivity|].
  unfold get_relation, relations_of. rewrite Hr.
  destruct (dict_get (dict_get_default (relations w) actor_id []) t) as [rel|]; [|reflexivity].
  pose proof (Ha t) as H.
  destruct (dict_get (agents wi) t) as [t1|], (dict_get (agents w) t) as [t2|];
    simpl in H; try discriminate; [|reflexivity].
  inversion H as [Hb]. unfold _sanction_support. rewrite Hb. reflexivity.
Qed.

Lemma resolve_sanctions_actor_view : forall actions w wi k a,
  sanction_view w wi ->
  resolve_sanctions_actor actions wi k a = resolve_sanctions_actor actions w k a.
Proof.
  intros actions w wi k a Hv. unfold resolve_sanctions_actor.
  set (intents := _intent_map_sanctions (dict_get actions k)).
  assert (H : forall targets acc,
    fold_left
      (fun acc target_id =>
         match resolve_target wi k a intents target_id with
         | Some (t, y) => (dict_set (fst acc) target_id t, dict_set (snd acc) target_id y)
         | None => acc
         end) targets acc
    = fold_left
      (fun acc target_id =>
         match resolve_target w k a intents target_id with
         | Some (t, y) => (dict_set (fst acc) target_id t, dict_set (snd acc) target_id y)
         | None => acc
         end) targets acc).
  { induction targets as [|x targets IH]; intros acc; simpl; [reflexivity|].
    rewrite (resolve_target_view w wi k a intents x Hv). apply IH. }
  now rewrite H.
Qed.

(** After [resolve_sanctions] every agent is what its own turn computes
    from the world as it was before the call. *)
Lemma resolve_sanctions_agent : forall w actions k a,
  NoDup (dict_keys (agents w)) ->
  dict_get (agents w) k = Some a ->
  dict_get (agents (resolve_sanctions w actions)) k
  = Some (resolve_sanctions_actor actions w k a).
Proof.
  intros w actions k a Hnd Hget.
  destruct (for_each_agent_reach (resolve_sanctions_actor actions) sanction_view
              sanction_view_refl (sanction_view_step actions) w k a Hnd Hget)
    as [wi [Hv Hr]].
  unfold resolve_sanctions. rewrite Hr.
  now rewrite (resolve_sanctions_actor_view actions w wi k a Hv).
Qed.

Lemma new_sanctions_get : forall (f : string -> option (SanctionType * Z)) targets acc t,
  let r := fold_left
    (fun acc target_id =>
       match f target_id with
       | Some (ty, y) => (dict_set (fst acc) target_id ty, dict_set (snd acc) target_id y)
       | None => acc
       end) targets acc in
  (In t targets ->
     dict_get (fst r) t
     = match f t with Some (ty, _) => Some ty | None => dict_get (fst acc) t end
     /\ dict_get (snd r) t
        = match f t with Some (_, y) => Some y | None => dict_get (snd acc) t end)
  /\ (~ In t targets ->
        dict_get (fst r) t = dict_get (fst acc) t /\ dict_get (snd r) t = dict_get (snd acc) t).
Proof.
  intros f targets. induction targets as [|x targets IH]; intros acc t; simpl.
  - split; [contradiction|]. intros _. split; reflexivity.
  - set (acc' := match f x with
                 | Some (ty, y) => (dict_set (fst acc) x ty, dict_set (snd acc) x y)
                 | None => acc
                 end).
    destruct (IH acc' t) as [Hin Hout].
    assert (Hx : x = t ->
      dict_get (fst acc') t
      = match f t with Some (ty, _) => Some ty | None => dict_get (fst acc) t end
      /\ dict_get (snd acc') t
         = match f t with Some (_, y) => Some y | None => dict_get (snd acc) t end).
    { intros ->. unfold acc'. destruct (f t) as [[ty y]|]; simpl.
      - now rewrite !dict_get_set_same.
      - split; reflexivity. }
    assert (Hnx : x <> t ->
      dict_get (fst acc') t = dict_get (fst acc) t
      /\ dict_get (snd acc') t = dict_get (snd acc) t).
    { intros Hne. unfold acc'. destruct (f x) as [[ty y]|]; simpl.
      - now rewrite !dict_get_set_other.
      - split; reflexivity. }
    split.
    + intros Hor. destruct (in_dec string_dec t targets) as [Hi|Hni].
      * destruct (Hin Hi) as [H1 H2]. rewrite H1, H2.
        destruct (f t) as [[ty y]|]; [split; reflexivity|].
        destruct (string_dec x t) as [He|Hne]; [apply (Hx He) | apply (Hnx Hne)].
      * destruct (Hout Hni) as [H1 H2]. rewrite H1, H2.
        destruct Hor as [He|Hi]; [apply (Hx He) | contradiction].
    + intros Hnor. destruct (Hout (fun Hi => Hnor (or_intror Hi))) as [H1 H2].
      rewrite H1, H2. apply Hnx. intros He. apply Hnor. now left.
Qed.

(** The entries of the new dictionaries of an actor are the results of the
    loop body for the targets. *)
Lemma resolve_sanctions_actor_get : forall actions w k a t,
  let intents := _intent_map_sanctions (dict_get actions k) in
  let a' := resolve_sanctions_actor actions w k a in
  dict_get (active_sanctions a') t = option_map fst (resolve_target w k a intents t)
  /\ dict_get (sanction_years a') t = option_map snd (resolve_target w k a intents t).
Proof.
  intros actions w k a t intents a'. unfold a', resolve_sanctions_actor. fold intents. simpl.
  destruct (new_sanctions_get (resolve_target w k a intents) (sanction_targets intents a)
              ([], []) t) as [Hin Hout].
  destruct (in_dec string_dec t (sanction_targets intents a)) as [Hi|Hni].
  - destruct (Hin Hi) as [H1 H2]. rewrite H1, H2.
    destruct (resolve_target w k a intents t) as [[ty y]|]; split; reflexivity.
  - destruct (Hout Hni) as [H1 H2]. rewrite H1, H2. simpl.
    assert (Hnone : resolve_target w k a intents t = None).
    { unfold resolve_target.
      destruct (String.eqb t k); [reflexivity|].
      destruct (negb (dict_mem (agents w) t)); [reflexivity|].
      assert (Hint : dict_get intents t = None).
      { apply dict_get_not_key. intros Hk. apply Hni. unfold sanction_targets.
        apply in_or_app. now left. }
      assert (Hact : dict_get (active_sanctions a) t = None).
      { apply dict_get_not_key. intros Hk. apply Hni. unfold sanction_targets.
        apply in_or_app. right. apply filter_In. split; [assumption|].
        unfold dict_mem. now rewrite Hint. }
      unfold dict_get_default. rewrite Hint, Hact. reflexivity. }
    rewrite Hnone. split; reflexivity.
Qed.

End Sanctions.

Section SanctionClaims.

Import PoliticalDynamics Examples.

(** What the loop body keeps of an earlier sanction when it writes no new
    one. *)
Definition keep_existing (actor : AgentState) (target_id : string) : option (SanctionType * Z) :=
  match dict_get (active_sanctions actor) target_id with
  | Some t =>
      if Z.ltb 0 (dict_get_default (sanction_years actor) target_id 0%Z)
      then Some (t, (dict_get_default (sanction_years actor) target_id 0 - 1)%Z)
      else None
  | None => None
  end.

Lemma resolve_target_with_intent :
  forall world actor_id actor intents target_id target relation intent,
  dict_get intents target_id = Some intent ->
  intent <> S_none ->
  target_id <> actor_id ->
  dict_get (agents world) target_id = Some target ->
  get_relation world actor_id target_id = Some relation ->
  resolve_target world actor_id actor intents target_id
  = if Rle_dec 0.35 (_sanction_support actor target relation intent)
    then Some (intent, Z.max (dict_get_default (sanction_years actor) target_id 0%Z) min_duration)
    else keep_existing actor target_id.
Proof.
  intros world actor_id actor intents target_id target relation intent Hi Hn Hne Ht Hr.
  unfold resolve_target, keep_existing.
  assert (E : String.eqb target_id actor_id = false).
  { destruct (String.eqb target_id actor_id) eqn:E; [|reflexivity].
    apply String.eqb_eq in E. contradiction. }
  assert (Hd : dict_get_default intents target_id S_none = intent)
    by (unfold dict_get_default; now rewrite Hi).
  rewrite E, (dict_mem_get _ _ _ _ Ht), Hr, Ht. simpl. rewrite !Hd.
  set (s := _sanction_support actor target relation intent).
  unfold _desired_sanction_type.
  destruct intent; [contradiction| |]; simpl;
    destruct (Rle_dec 0.35 s) as [Hs|Hs]; simpl; try reflexivity;
    (destruct (Rlt_dec s 0.35); [lra|]);
    destruct (Rlt_dec s 0.65); reflexivity.
Qed.

Lemma resolve_target_without_intent : forall world actor_id actor intents target_id,
  dict_get intents target_id = None ->
  target_id <> actor_id ->
  dict_mem (agents world) target_id = true ->
  resolve_target world actor_id actor intents target_id = keep_existing actor target_id.
Proof.
  intros world actor_id actor intents target_id Hi Hne Hm.
  unfold resolve_target, keep_existing.
  assert (E : String.eqb target_id actor_id = false).
  { destruct (String.eqb target_id actor_id) eqn:E; [|reflexivity].
    apply String.eqb_eq in E. contradiction. }
  assert (Hd : dict_get_default intents target_id S_none = S_none)
    by (unfold dict_get_default; now rewrite Hi).
  rewrite E, Hm. simpl. rewrite Hd. reflexivity.
Qed.

(** C6, amended: for an actor with a mild or strong intent against another
    agent of the world to which it has a relation, [resolve_sanctions]
    records a sanction of exactly the intended type (so never a lower one),
    with a counter of at least [min_duration], whenever the support score
    reaches 0.35; below 0.35 no new sanction is written and the entry is what
    is left of an earlier sanction (its earlier type while its counter is
    positive, else none). *)
Theorem sanction_intent_kept_when_supported :
  forall world actions actor_id actor target_id target relation intent,
  NoDup (dict_keys (agents world)) ->
  dict_get (agents world) actor_id = Some actor ->
  dict_get (_intent_map_sanctions (dict_get actions actor_id)) target_id = Some intent ->
  intent <> S_none ->
  target_id <> actor_id ->
  dict_get (agents world) target_id = Some target ->
  get_relation world actor_id target_id = Some relation ->
  exists actor',
    dict_get (agents (resolve_sanctions world actions)) actor_id = Some actor'
    /\ (0.35 <= _sanction_support actor target relation intent ->
        dict_get (active_sanctions actor') target_id = Some intent
        /\ exists years, dict_get (sanction_years actor') target_id = Some years
                         /\ (min_duration <= years)%Z)
    /\ (_sanction_support actor target relation intent < 0.35 ->
        dict_get (active_sanctions actor') target_id
        = option_map fst (keep_existing actor target_id)).
Proof.
  intros world actions actor_id actor target_id target relation intent
    Hnd Ha Hi Hn Hne Ht Hr.
  exists (resolve_sanctions_actor actions world actor_id actor).
  split; [now apply resolve_sanctions_agent|].
  destruct (resolve_sanctions_actor_get actions world actor_id actor target_id) as [H1 H2].
  rewrite (resolve_target_with_intent _ _ _ _ _ _ _ _ Hi Hn Hne Ht Hr) in H1, H2.
  split; intros Hs;
    destruct (Rle_dec 0.35 (_sanction_support actor target relation intent)); try lra.
  - split; [exact H1|]. eexists. split; [exact H2|]. simpl. lia.
  - exact H1.
Qed.

(** Two members of one alliance; A asks for a mild sanction against B. *)
Definition ally (agent_id : string) : AgentState :=
  set_alliance_block "Western"
    (agent_of agent_id (economy_of 1.0 3.0 1e6 0.5 0.0) []
       (mkSocietyState 0.5 0.5 40.0) (mkClimateSubState 0.5 0.0 0.8 None)
       (mkRiskState 0.5 0.6 0.5 0.4)).

Definition ally_world : WorldState :=
  mkWorldState 0%Z [("A", ally "A"); ("B", ally "B")]%string (global_of 3270.0 [])
    [("A", [("B", relation_of 0.5 0.6 0.1)]); ("B", [("A", relation_of 0.5 0.6 0.1)])]%string
    [].

Definition action_with_sanctions (agent_id : string) (sanctions : list SanctionsAction)
    : Action :=
  mkAction agent_id 0%Z (mkDomesticPolicy 0.0 0.0 0.0 0.0 CP_none)
    (mkForeignPolicy [] sanctions [] (mkSecurityActions SA_none None))
    (mkFinancePolicy 0.0 0.0).

Definition mild_intent_actions : dict Action :=
  [("A", action_with_sanctions "A" [mkSanctionsAction "B" S_mild])]%string.

Lemma ally_world_keys : NoDup (dict_keys (agents ally_world)).
Proof.
  simpl. repeat constructor; simpl; intuition discriminate.
Qed.

(** C6, as stated, fails: between allies the support for A's mild intent
    is 0.216, below the threshold 0.35, and [resolve_sanctions] leaves A
    without any sanction against B. *)
Lemma mild_intent_between_allies_is_dropped :
  dict_get (_intent_map_sanctions (dict_get mild_intent_actions "A")) "B" = Some S_mild
  /\ exists actor',
       dict_get (agents (resolve_sanctions ally_world mild_intent_actions)) "A" = Some actor'
       /\ dict_get (active_sanctions actor') "B" = None.
Proof.
  split; [reflexivity|].
  exists (resolve_sanctions_actor mild_intent_actions ally_world "A" (ally "A")).
  split; [apply resolve_sanctions_agent; [apply ally_world_keys | reflexivity]|].
  destruct (resolve_sanctions_actor_get mild_intent_actions ally_world "A" (ally "A") "B")
    as [H1 _].
  rewrite H1.
  rewrite (resolve_target_with_intent ally_world "A" (ally "A") _ "B" (ally "B")
             (relation_of 0.5 0.6 0.1) S_mild);
    try reflexivity; try discriminate.
  destruct (Rle_dec 0.35 (_sanction_support (ally "A") (ally "B") (relation_of 0.5 0.6 0.1) S_mild))
    as [Hs|Hs]; [|reflexivity].
  exfalso. revert Hs. unfold _sanction_support. simpl. rminmax.
Qed.

Lemma sanction_intent_kept_when_supported_witness :
  exists actor',
    dict_get (agents (resolve_sanctions sane_world
                        [("A", action_with_sanctions "A" [mkSanctionsAction "B" S_strong])]%string))
      "A" = Some actor'
    /\ dict_get (active_sanctions actor') "B" = Some S_strong.
Proof.
  destruct (sanction_intent_kept_when_supported sane_world
              [("A", action_with_sanctions "A" [mkSanctionsAction "B" S_strong])]%string
              "A" (sane_agent "A" 1.6) "B" (sane_agent "B" 2.0) (relation_of 0.5 0.6 0.1)
              S_strong) as [actor' [Hget [Hsup _]]].
  - simpl. repeat constructor; simpl; intuition discriminate.
  - reflexivity.
  - reflexivity.
  - discriminate.
  - discriminate.
  - reflexivity.
  - reflexivity.
  - exists actor'. split; [exact Hget|]. apply Hsup.
    unfold _sanction_support. simpl. rminmax.
Defined.

End SanctionClaims.

Section SanctionHysteresis.

Import PoliticalDynamics Examples.

(** The actor submits no sanction intent against the target. *)
Definition no_intent (actions : dict Action) (actor_id target_id : string) : Prop :=
  dict_get (_intent_map_sanctions (dict_get actions actor_id)) target_id = None.

(** What the rest of a year leaves in place between two calls of
    [resolve_sanctions]: the agents keep their keys, the target is still an
    agent, and the sanction books of the actor are untouched. *)
Definition books_kept (actor_id target_id : string) (w w' : WorldState) : Prop :=
  NoDup (dict_keys (agents w'))
  /\ dict_mem (agents w') target_id = true
  /\ forall a, dict_get (agents w) actor_id = Some a ->
       exists a', dict_get (agents w') actor_id = Some a'
                  /\ active_sanctions a' = active_sanctions a
                  /\ sanction_years a' = sanction_years a.

(** [n] later calls of [resolve_sanctions], none with an intent of the
    actor against the target. *)
Inductive intent_free_calls (actor_id target_id : string)
    : WorldState -> nat -> WorldState -> Prop :=
| calls_none : forall w, intent_free_calls actor_id target_id w 0 w
| calls_more : forall w n w1 w2 actions,
    intent_free_calls actor_id target_id w n w1 ->
    books_kept actor_id target_id w1 w2 ->
    no_intent actions actor_id target_id ->
    intent_free_calls actor_id target_id w (S n) (resolve_sanctions w2 actions).

(** The sanction book of the actor shows the target with this type and
    this many remaining years. *)
Definition sanctioned (w : WorldState) (actor_id target_id : string)
    (ty : SanctionType) (years : Z) : Prop :=
  exists a, dict_get (agents w) actor_id = Some a
            /\ dict_get (active_sanctions a) target_id = Some ty
            /\ dict_get (sanction_years a) target_id = Some years.

Definition not_sanctioned (w : WorldState) (actor_id target_id : string) : Prop :=
  exists a, dict_get (agents w) actor_id = Some a
            /\ dict_get (active_sanctions a) target_id = None.

Lemma intent_free_call : forall w actions actor_id target_id ty years,
  NoDup (dict_keys (agents w)) ->
  dict_mem (agents w) target_id = true ->
  target_id <> actor_id ->
  no_intent actions actor_id target_id ->
  sanctioned w actor_id target_id ty years ->
  (0 < years -> sanctioned (resolve_sanctions w actions) actor_id target_id ty (years - 1))%Z
  /\ (years <= 0 -> not_sanctioned (resolve_sanctions w actions) actor_id target_id)%Z.
Proof.
  intros w actions actor_id target_id ty years Hnd Hm Hne Hno [a [Ha [Hty Hy]]].
  pose proof (resolve_sanctions_agent w actions actor_id a Hnd Ha) as Hget.
  destruct (resolve_sanctions_actor_get actions w actor_id a target_id) as [H1 H2].
  rewrite (resolve_target_without_intent w actor_id a _ target_id Hno Hne Hm) in H1, H2.
  unfold keep_existing, dict_get_default in H1, H2. rewrite Hty, Hy in H1, H2.
  split; intros Hyears.
  - assert (E : (0 <? years)%Z = true) by (apply Z.ltb_lt; lia).
    rewrite E in H1, H2. simpl in H1, H2.
    exists (resolve_sanctions_actor actions w actor_id a). auto.
  - assert (E : (0 <? years)%Z = false) by (apply Z.ltb_ge; lia).
    rewrite E in H1. simpl in H1.
    exists (resolve_sanctions_actor actions w actor_id a). auto.
Qed.

Lemma books_kept_sanctioned : forall actor_id target_id w w' ty years,
  books_kept actor_id target_id w w' ->
  sanctioned w actor_id target_id ty years ->
  sanctioned w' actor_id target_id ty years.
Proof.
  intros actor_id target_id w w' ty years [_ [_ Hk]] [a [Ha [Hty Hy]]].
  destruct (Hk a Ha) as [a' [Ha' [Hact Hyrs]]].
  exists a'. rewrite Hact, Hyrs. auto.
Qed.

Lemma intent_free_calls_count : forall actor_id target_id w ty years n w',
  target_id <> actor_id ->
  sanctioned w actor_id target_id ty years ->
  intent_free_calls actor_id target_id w n w' ->
  (Z.of_nat n <= years)%Z ->
  sanctioned w' actor_id target_id ty (years - Z.of_nat n).
Proof.
  intros actor_id target_id w ty years n w' Hne Hs Hcalls.
  induction Hcalls as [w|w n w1 w2 actions Hcalls IH Hk Hno]; intros Hn.
  - replace (years - Z.of_nat 0)%Z with years by lia. assumption.
  - assert (Hprev : sanctioned w1 actor_id target_id ty (years - Z.of_nat n))
      by (apply IH; [assumption | lia]).
    pose proof (books_kept_sanctioned _ _ _ _ _ _ Hk Hprev) as Hin.
    destruct Hk as [Hnd [Hm _]].
    destruct (intent_free_call w2 actions actor_id target_id ty (years - Z.of_nat n)
                Hnd Hm Hne Hno Hin) as [Hpos _].
    replace (years - Z.of_nat (S n))%Z with (years - Z.of_nat n - 1)%Z by lia.
    apply Hpos. lia.
Qed.

Lemma dict_set_keys : forall (V : Type) (d : dict V) k v,
  dict_mem d k = true -> dict_keys (dict_set d k v) = dict_keys d.
Proof.
  induction d as [|[k' v'] d IH]; intros k v Hm.
  - discriminate.
  - unfold dict_mem in Hm. simpl in *. destruct (String.eqb k' k) eqn:E; simpl.
    + reflexivity.
    + f_equal. apply IH. unfold dict_mem. exact Hm.
Qed.

Lemma put_agent_keys : forall w k a, dict_keys (agents (put_agent k a w)) = dict_keys (agents w).
Proof.
  intros w k a. unfold put_agent. destruct (dict_mem (agents w) k) eqn:E; [|reflexivity].
  simpl. now apply dict_set_keys.
Qed.

Lemma turns_keys : forall body ks w,
  dict_keys (agents (fold_left (turn body) ks w)) = dict_keys (agents w).
Proof.
  intros body ks. induction ks as [|k ks IH]; intros w; simpl; [reflexivity|].
  rewrite IH. unfold turn.
  destruct (dict_get (agents w) k); [apply put_agent_keys | reflexivity].
Qed.

Lemma turns_mem : forall body ks w k,
  dict_mem (agents (fold_left (turn body) ks w)) k = dict_mem (agents w) k.
Proof.
  intros body ks. induction ks as [|k0 ks IH]; intros w k; simpl; [reflexivity|].
  rewrite IH. unfold turn.
  destruct (dict_get (agents w) k0); [apply put_agent_mem | reflexivity].
Qed.

Lemma for_each_agent_keys : forall body w,
  dict_keys (agents (for_each_agent body w)) = dict_keys (agents w).
Proof. intros body w. apply (turns_keys body). Qed.

Lemma for_each_agent_mem : forall body w k,
  dict_mem (agents (for_each_agent body w)) k = dict_mem (agents w) k.
Proof. intros body w k. apply (turns_mem body). Qed.

(** A world that stays as it is keeps the books. *)
Lemma books_kept_same : forall actor_id target_id w,
  NoDup (dict_keys (agents w)) ->
  dict_mem (agents w) target_id = true ->
  books_kept actor_id target_id w w.
Proof.
  intros actor_id target_id w Hnd Hm. split; [assumption|]. split; [assumption|].
  intros a Ha. exists a. auto.
Qed.

(** C5: let the sanction book of an actor show a target (another agent)
    with a remaining-years counter of at least [min_duration], as
    [resolve_sanctions] leaves it when it records a sanction.  Then through
    later calls of [resolve_sanctions] in which the actor submits no intent
    against the target, the sanction stays in [active_sanctions] with its
    type and the counter falls by exactly one a call, for as many calls as
    the counter counted (so for at least [min_duration] calls); the call
    after that drops it. *)
Theorem sanction_persists_for_min_duration :
  forall (actor_id target_id : string) (w : WorldState) (ty : SanctionType) (years : Z),
  target_id <> actor_id ->
  sanctioned w actor_id target_id ty years ->
  (min_duration <= years)%Z ->
  (forall n w', intent_free_calls actor_id target_id w n w' ->
                (Z.of_nat n <= years)%Z ->
                sanctioned w' actor_id target_id ty (years - Z.of_nat n))
  /\ (forall n w', intent_free_calls actor_id target_id w n w' ->
                   (Z.of_nat n <= min_duration)%Z ->
                   exists left_years, sanctioned w' actor_id target_id ty left_years)
  /\ (forall n w', intent_free_calls actor_id target_id w n w' ->
                   (Z.of_nat n = years + 1)%Z ->
                   not_sanctioned w' actor_id target_id).
Proof.
  intros actor_id target_id w ty years Hne Hs Hmin.
  split; [|split].
  - intros n w' Hcalls Hn. now apply (intent_free_calls_count actor_id target_id w).
  - intros n w' Hcalls Hn. exists (years - Z.of_nat n)%Z.
    apply (intent_free_calls_count actor_id target_id w); [assumption..|lia].
  - intros n w' Hcalls Hn.
    inversion Hcalls as [|w0 m w1 w2 actions Hprev Hk Hno]; subst; [unfold min_duration in *; lia|].
    assert (Hzero : sanctioned w1 actor_id target_id ty (years - Z.of_nat m)).
    { apply (intent_free_calls_count actor_id target_id w); [assumption..|lia]. }
    pose proof (books_kept_sanctioned _ _ _ _ _ _ Hk Hzero) as Hin.
    destruct Hk as [Hnd [Hm _]].
    destruct (intent_free_call w2 actions actor_id target_id ty (years - Z.of_nat m)
                Hnd Hm Hne Hno Hin) as [_ Hdrop].
    apply Hdrop. lia.
Qed.

(** A has a mild sanction against B with two years left. *)
Definition sanctioning_agent : AgentState :=
  set_sanction_years [("B", 2%Z)]%string
    (set_active_sanctions [("B", S_mild)]%string (sane_agent "A" 1.6)).

Definition sanctioning_world : WorldState :=
  set_agents [("A", sanctioning_agent); ("B", sane_agent "B" 2.0)]%string sane_world.

Lemma two_quiet_calls :
  intent_free_calls "A" "B" sanctioning_world 2
    (resolve_sanctions (resolve_sanctions sanctioning_world []) []).
Proof.
  assert (Hnd : NoDup (dict_keys (agents sanctioning_world))).
  { simpl. repeat constructor; simpl; intuition discriminate. }
  apply calls_more with (w1 := resolve_sanctions sanctioning_world []).
  - apply calls_more with (w1 := sanctioning_world).
    + apply calls_none.
    + apply books_kept_same; [exact Hnd | reflexivity].
    + reflexivity.
  - apply books_kept_same.
    + unfold resolve_sanctions. rewrite for_each_agent_keys. exact Hnd.
    + unfold resolve_sanctions. rewrite for_each_agent_mem. reflexivity.
  - reflexivity.
Qed.

Lemma sanction_persists_for_min_duration_witness :
  sanctioned (resolve_sanctions (resolve_sanctions sanctioning_world []) []) "A" "B" S_mild 0.
Proof.
  apply (proj1 (sanction_persists_for_min_duration "A" "B" sanctioning_world S_mild 2
                  ltac:(discriminate)
                  (ex_intro _ sanctioning_agent (conj eq_refl (conj eq_refl eq_refl)))
                  ltac:(unfold min_duration; lia))
           2%nat _ two_quiet_calls).
  simpl. lia.
Defined.

End SanctionHysteresis.

(** ** The debt-crisis detector (C8) *)

Section DebtCrisis.

Import Social Examples.

(** The debt-crisis shock, attribute by attribute. *)
Definition shocked (before after : AgentState) : Prop :=
  public_debt (economy after) = public_debt (economy before) * 0.6
  /\ gdp (economy after) = gdp (economy before) * 0.9
  /\ unemployment (economy after) = Rmin 0.3 (unemployment (economy before) + 0.05)
  /\ trust_gov (society after) = Rmax 0 (trust_gov (society before) - 0.15)
  /\ social_tension (society after) = Rmin 1.0 (social_tension (society before) + 0.15)
  /\ regime_stability (risk after) = Rmax 0 (regime_stability (risk before) - 0.15)
  /\ _debt_crisis_this_step after = Some true.

(** The successive checks of one agent: the state and the world that each
    call of [check_debt_crisis] receives.  Between two checks anything may
    change but the flag, which only [check_debt_crisis] writes: the flag a
    check finds is the flag the check before left ([flag0] for the first). *)
Fixpoint linked (flag0 : option bool) (checks : list (AgentState * WorldState)) : Prop :=
  match checks with
  | [] => True
  | (agent, world) :: rest =>
      _debt_crisis_this_step agent = flag0
      /\ linked (_debt_crisis_this_step (check_debt_crisis agent world)) rest
  end.

Definition in_crisis (aw : AgentState * WorldState) : Prop :=
  debt_crisis_condition (fst aw) (snd aw) = true.

Lemma check_in_crisis_fresh : forall agent world,
  debt_crisis_condition agent world = true ->
  _debt_crisis_this_step agent <> Some true ->
  shocked agent (check_debt_crisis agent world).
Proof.
  intros agent world Hc Hf. unfold check_debt_crisis. rewrite Hc.
  destruct (_debt_crisis_this_step agent) as [[|]|];
    [contradiction| |]; repeat split; reflexivity.
Qed.

Lemma check_in_crisis_again : forall agent world,
  debt_crisis_condition agent world = true ->
  _debt_crisis_this_step agent = Some true ->
  check_debt_crisis agent world = agent.
Proof.
  intros agent world Hc Hf. unfold check_debt_crisis. now rewrite Hc, Hf.
Qed.

Lemma check_out_of_crisis : forall agent world,
  debt_crisis_condition agent world = false ->
  _debt_crisis_this_step (check_debt_crisis agent world) <> Some true
  /\ economy (check_debt_crisis agent world) = economy agent
  /\ society (check_debt_crisis agent world) = society agent
  /\ risk (check_debt_crisis agent world) = risk agent.
Proof.
  intros agent world Hc. unfold check_debt_crisis. rewrite Hc.
  destruct (_debt_crisis_this_step agent) eqn:E; simpl;
    repeat split; try reflexivity; try discriminate. now rewrite E.
Qed.

Lemma crisis_goes_on_unshocked : forall checks,
  linked (Some true) checks ->
  Forall in_crisis checks ->
  Forall (fun aw => check_debt_crisis (fst aw) (snd aw) = fst aw) checks.
Proof.
  induction checks as [|[a w] rest IH]; intros Hl Hc; constructor.
  - inversion Hc; subst. destruct Hl as [Hf _]. now apply check_in_crisis_again.
  - inversion Hc as [|? ? Hc1 Hc']; subst. destruct Hl as [Hf Hl].
    apply IH; [|assumption].
    simpl in Hc1. unfold in_crisis in Hc1. simpl in Hc1.
    now rewrite (check_in_crisis_again a w Hc1 Hf), Hf in Hl.
Qed.

(** C8: over a run of checks at each of which the crisis condition
    (debt/gdp > 1.2 and effective interest rate > 0.12) holds, begun with the
    crisis flag not raised (the agent was never checked, or its last check
    found no crisis), [check_debt_crisis] applies the shock (debt to 60%, gdp
    to 90%, unemployment, trust, tension and stability adjusted) at the first
    check and leaves the agent as it finds it at every later one; a check at
    which the condition fails changes nothing but lowers the flag, so the run
    that follows it is shocked again at its first check. *)
Theorem debt_crisis_shock_once_per_period :
  forall (flag0 : option bool) (agent : AgentState) (world : WorldState)
         (rest : list (AgentState * WorldState)),
  flag0 <> Some true ->
  linked flag0 ((agent, world) :: rest) ->
  Forall in_crisis ((agent, world) :: rest) ->
  shocked agent (check_debt_crisis agent world)
  /\ Forall (fun aw => check_debt_crisis (fst aw) (snd aw) = fst aw) rest
  /\ (forall calm calm_world agent2 world2 rest2,
        debt_crisis_condition calm calm_world = false ->
        linked (_debt_crisis_this_step (check_debt_crisis calm calm_world))
          ((agent2, world2) :: rest2) ->
        Forall in_crisis ((agent2, world2) :: rest2) ->
        economy (check_debt_crisis calm calm_world) = economy calm
        /\ society (check_debt_crisis calm calm_world) = society calm
        /\ risk (check_debt_crisis calm calm_world) = risk calm
        /\ shocked agent2 (check_debt_crisis agent2 world2)
        /\ Forall (fun aw => check_debt_crisis (fst aw) (snd aw) = fst aw) rest2).
Proof.
  assert (Hperiod : forall flag0 agent world rest,
    flag0 <> Some true ->
    linked flag0 ((agent, world) :: rest) ->
    Forall in_crisis ((agent, world) :: rest) ->
    shocked agent (check_debt_crisis agent world)
    /\ Forall (fun aw => check_debt_crisis (fst aw) (snd aw) = fst aw) rest).
  { intros flag0 agent world rest Hf [Hflag Hl] Hc.
    inversion Hc as [|? ? Hc1 Hc']; subst.
    assert (Hs : shocked agent (check_debt_crisis agent world))
      by (apply check_in_crisis_fresh; assumption).
    split; [exact Hs|].
    apply crisis_goes_on_unshocked; [|assumption].
    destruct Hs as (_ & _ & _ & _ & _ & _ & Hflag'). now rewrite Hflag' in Hl. }
  intros flag0 agent world rest Hf Hl Hc.
  destruct (Hperiod flag0 agent world rest Hf Hl Hc) as [H1 H2].
  split; [exact H1|]. split; [exact H2|].
  intros calm calm_world agent2 world2 rest2 Hcalm Hl2 Hc2.
  destruct (check_out_of_crisis calm calm_world Hcalm) as (Hflag & He & Hs & Hr).
  destruct (Hperiod _ agent2 world2 rest2 Hflag Hl2 Hc2) as [H3 H4].
  split; [exact He|]. split; [exact Hs|]. split; [exact Hr|]. split; assumption.
Qed.

(** A country whose debt is three times its output, and the same country a
    year after the shock, the flag still raised. *)
Definition debtor : AgentState :=
  agent_of "A" (economy_of 1.0 3.0 1e6 3.0 0.0) []
    (mkSocietyState 0.5 0.5 40.0) (mkClimateSubState 0.5 0.0 0.8 None)
    (mkRiskState 0.5 0.6 0.5 0.4).

Definition debtor_world : WorldState :=
  mkWorldState 0%Z [("A", debtor)]%string (global_of 3270.0 []) [] [].

Definition debtor_later : AgentState :=
  set_debt_crisis_this_step (Some true)
    (set_economy (economy_of 0.9 3.0 1e6 1.8 0.0) debtor).

Lemma debtor_in_crisis : debt_crisis_condition debtor debtor_world = true.
Proof.
  unfold debt_crisis_condition, Economy.compute_effective_interest_rate,
    Economy.debt_spread, Economy.contagion_spread, Economy.contagion_sums, Rltb.
  simpl. repeat destruct Rlt_dec; try reflexivity; exfalso; rminmax.
Qed.

Lemma debtor_later_in_crisis : debt_crisis_condition debtor_later debtor_world = true.
Proof.
  unfold debt_crisis_condition, Economy.compute_effective_interest_rate,
    Economy.debt_spread, Economy.contagion_spread, Economy.contagion_sums, Rltb.
  simpl. repeat destruct Rlt_dec; try reflexivity; exfalso; rminmax.
Qed.

Lemma debt_crisis_shock_once_per_period_witness :
  shocked debtor (check_debt_crisis debtor debtor_world)
  /\ check_debt_crisis debtor_later debtor_world = debtor_later.
Proof.
  destruct (debt_crisis_shock_once_per_period None debtor debtor_world
              [(debtor_later, debtor_world)]) as [Hs [Hrest _]].
  - discriminate.
  - split; [reflexivity|]. split; [|exact I].
    destruct (check_in_crisis_fresh debtor debtor_world debtor_in_crisis)
      as (_ & _ & _ & _ & _ & _ & Hflag); [discriminate|].
    rewrite Hflag. reflexivity.
  - repeat constructor; [exact debtor_in_crisis | exact debtor_later_in_crisis].
  - split; [exact Hs|]. inversion Hrest; subst. assumption.
Defined.

End DebtCrisis.

(** ** Assignments to relations *)

Lemma get_relation_outer : forall w a b r,
  get_relation w a b = Some r ->
  exists rels, dict_get (relations w) a = Some rels /\ dict_get rels b = Some r.
Proof.
  intros w a b r H. unfold get_relation, relations_of, dict_get_default in H.
  destruct (dict_get (relations w) a) as [rels|]; [|discriminate].
  now exists rels.
Qed.

Lemma put_relation_same : forall w a b r r0,
  get_relation w a b = Some r0 -> get_relation (put_relation a b r w) a b = Some r.
Proof.
  intros w a b r r0 H. destruct (get_relation_outer w a b r0 H) as [rels [Ho Hi]].
  unfold put_relation. rewrite Ho, (dict_mem_get _ _ _ _ Hi).
  unfold get_relation, relations_of, dict_get_default. simpl.
  now rewrite !dict_get_set_same.
Qed.

Lemma put_relation_other : forall w a b c d r,
  (a, b) <> (c, d) -> get_relation (put_relation a b r w) c d = get_relation w c d.
Proof.
  intros w a b c d r Hne. unfold put_relation.
  destruct (dict_get (relations w) a) as [rels|] eqn:Ho; [|reflexivity].
  destruct (dict_mem rels b) eqn:Hm; [|reflexivity].
  unfold get_relation, relations_of, dict_get_default. simpl.
  destruct (string_dec a c) as [->|Hac].
  - rewrite dict_get_set_same, Ho.
    apply dict_get_set_other. intros ->. now apply Hne.
  - now rewrite dict_get_set_other.
Qed.

Lemma put_relation_agents : forall w a b r, agents (put_relation a b r w) = agents w.
Proof.
  intros w a b r. unfold put_relation.
  destruct (dict_get (relations w) a) as [rels|]; [|reflexivity].
  destruct (dict_mem rels b); reflexivity.
Qed.

Lemma put_agent_get_relation : forall w k x a b,
  get_relation (put_agent k x w) a b = get_relation w a b.
Proof.
  intros w k x a b. unfold get_relation, relations_of. now rewrite put_agent_relations.
Qed.


(** ** The year of war (C7) *)

Section WarLifecycle.

Import Geopolitics Examples.

Lemma leb_same : forall s, String.leb s s = true.
Proof. intros s. destruct (String.leb_total s s); assumption. Qed.

Lemma lt_key_diff : forall a b, String.leb b a = false -> a <> b.
Proof. intros a b H ->. rewrite leb_same in H. discriminate. Qed.


(** The exhaustion test is the disjunction of the three shortfalls. *)
Lemma exhausted_iff : forall rel side,
  _exhausted rel side = true
  <-> (gdp (economy side) < 0.7 * war_start_gdp rel
       \/ population (economy side) < 0.9 * war_start_pop rel
       \/ _resource_index side < 0.5 * war_start_resource rel).
Proof.
  intros rel side. unfold _exhausted, Rleb.
  repeat destruct Rle_dec; simpl; split; intros H;
    try discriminate; try reflexivity; try lra;
    try (left; lra); try (right; left; lra); try (right; right; lra).
Qed.


(** The two edges that [fight] returns. *)
Definition fought_at (rel_at rel_ta : RelationState) (actor target : AgentState)
    : RelationState :=
  fst (fst (fst (fight rel_at rel_ta actor target))).
Definition fought_ta (rel_at rel_ta : RelationState) (actor target : AgentState)
    : RelationState :=
  snd (fst (fst (fight rel_at rel_ta actor target))).



(** The turn of a pair whose edges and agents are at hand and of which an
    edge is at war writes the edges of [fight]. *)
Lemma war_turn_pair : forall w a b rel_at rel_ta actor target,
  String.leb b a = false ->
  get_relation w a b = Some rel_at ->
  get_relation w b a = Some rel_ta ->
  (at_war rel_at || at_war rel_ta)%bool = true ->
  dict_get (agents w) a = Some actor ->
  dict_get (agents w) b = Some target ->
  get_relation (war_turn w (a, b)) a b = Some (fought_at rel_at rel_ta actor target)
  /\ get_relation (war_turn w (a, b)) b a = Some (fought_ta rel_at rel_ta actor target).
Proof.
  intros w a b rel_at rel_ta actor target Hlt Hat Hta Hw Ha Hb.
  pose proof (lt_key_diff a b Hlt) as Hne.
  unfold war_turn, fought_at, fought_ta. simpl. rewrite Hlt, Hat, Hta, Hw, Ha, Hb. simpl.
  destruct (fight rel_at rel_ta actor target) as [[[r1 r2] a1] t1]. simpl.
  rewrite !put_agent_get_relation.
  assert (Hta' : get_relation (put_relation a b r1 w) b a = Some rel_ta).
  { rewrite put_relation_other; [assumption|]. congruence. }
  split.
  - rewrite put_relation_other by congruence.
    now apply (put_relation_same w a b r1 rel_at).
  - now apply (put_relation_same _ b a r2 rel_ta).
Qed.

(** A turn touches the two edges of its own pair only. *)
Lemma war_turn_frame : forall w c d a b,
  (c, d) <> (a, b) -> (d, c) <> (a, b) ->
  get_relation (war_turn w (c, d)) a b = get_relation w a b.
Proof.
  intros w c d a b H1 H2. unfold war_turn. simpl.
  destruct (String.leb d c); [reflexivity|].
  destruct (get_relation w c d) as [rel_at|]; [|reflexivity].
  destruct (get_relation w d c) as [rel_ta|]; [|reflexivity].
  destruct (negb (at_war rel_at || at_war rel_ta)); [reflexivity|].
  destruct (dict_get (agents w) c) as [actor|]; [|reflexivity].
  destruct (dict_get (agents w) d) as [target|]; [|reflexivity].
  destruct (fight rel_at rel_ta actor target) as [[[r1 r2] a1] t1].
  rewrite !put_agent_get_relation.
  rewrite put_relation_other by assumption.
  now rewrite put_relation_other.
Qed.



End WarLifecycle.

Section WarLifecycleClaim.

Import Geopolitics Examples.














(** Two countries, A having opened a war against B this year. *)
Definition war_world : WorldState :=
  mkWorldState 0%Z
    [("A", sane_agent "A" 1.6); ("B", sane_agent "B" 2.0)]%string
    (global_of 3270.0 [])
    [("A", [("B", set_at_war true (relation_of 0.5 0.2 0.7))]);
     ("B", [("A", set_at_war true (relation_of 0.5 0.2 0.7))])]%string
    [].




End WarLifecycleClaim.

Section WarOnTwoFronts.

Import Geopolitics Examples.

Lemma war_turn_skips : forall w c d, String.leb d c = true -> war_turn w (c, d) = w.
Proof. intros w c d H. unfold war_turn. simpl. now rewrite H. Qed.

(** The two sides as [fight] leaves them. *)
Definition fought_actor (rel_at rel_ta : RelationState) (actor target : AgentState)
    : AgentState :=
  snd (fst (fight rel_at rel_ta actor target)).
Definition fought_target (rel_at rel_ta : RelationState) (actor target : AgentState)
    : AgentState :=
  snd (fight rel_at rel_ta actor target).

Lemma war_turn_sides : forall w a b rel_at rel_ta actor target,
  String.leb b a = false ->
  get_relation w a b = Some rel_at ->
  get_relation w b a = Some rel_ta ->
  (at_war rel_at || at_war rel_ta)%bool = true ->
  dict_get (agents w) a = Some actor ->
  dict_get (agents w) b = Some target ->
  dict_get (agents (war_turn w (a, b))) a = Some (fought_actor rel_at rel_ta actor target)
  /\ dict_get (agents (war_turn w (a, b))) b = Some (fought_target rel_at rel_ta actor target).
Proof.
  intros w a b rel_at rel_ta actor target Hlt Hat Hta Hw Ha Hb.
  pose proof (lt_key_diff a b Hlt) as Hne.
  unfold war_turn, fought_actor, fought_target. simpl. rewrite Hlt, Hat, Hta, Hw, Ha, Hb. simpl.
  destruct (fight rel_at rel_ta actor target) as [[[r1 r2] a1] t1]. simpl.
  split.
  - rewrite put_agent_get_other by congruence.
    apply (put_agent_get_same _ a a1 actor). now rewrite !put_relation_agents.
  - apply (put_agent_get_same _ b t1 target).
    rewrite put_agent_get_other by assumption. now rewrite !put_relation_agents.
Qed.

(** A turn leaves the agents of the other pairs as they are. *)
Lemma war_turn_bystander : forall w c d k,
  k <> c -> k <> d -> dict_get (agents (war_turn w (c, d))) k = dict_get (agents w) k.
Proof.
  intros w c d k Hc Hd. unfold war_turn. simpl.
  destruct (String.leb d c); [reflexivity|].
  destruct (get_relation w c d) as [rel_at|]; [|reflexivity].
  destruct (get_relation w d c) as [rel_ta|]; [|reflexivity].
  destruct (negb (at_war rel_at || at_war rel_ta)); [reflexivity|].
  destruct (dict_get (agents w) c) as [actor|]; [|reflexivity].
  destruct (dict_get (agents w) d) as [target|]; [|reflexivity].
  destruct (fight rel_at rel_ta actor target) as [[[r1 r2] a1] t1].
  rewrite !put_agent_get_other by congruence. now rewrite !put_relation_agents.
Qed.

(** Between sides of equal military power a year of war takes 3% of the
    gdp of each, whatever the exhaustion test says next. *)
Lemma fight_between_equals : forall rel_at rel_ta actor target,
  military_power (technology actor) = military_power (technology target) ->
  gdp (economy (fought_actor rel_at rel_ta actor target)) = gdp (economy actor) * 0.97
  /\ gdp (economy (fought_target rel_at rel_ta actor target)) = gdp (economy target) * 0.97.
Proof.
  intros rel_at rel_ta actor target Hm.
  assert (Hloss : forall m, 0 < m -> Rmax 0 (1.0 - 0.03 * (0.8 + 0.4 * (1.0 - m / (m + m)))) = 0.97).
  { intros m Hpos. assert (E : m / (m + m) = 1 / 2) by (field; lra).
    rewrite E. unfold Rmax. destruct Rle_dec; lra. }
  pose proof (floor_gdp_pos (military_power (technology target))) as Hpos.
  unfold fought_actor, fought_target, fight, war_year. cbv zeta. rewrite Hm.
  destruct (negb _); [|unfold war_outcome; cbv zeta; destruct (_ && _)%bool;
                        [|destruct (_exhausted _ _)]];
    cbn [fst snd upd_economy upd_society upd_technology economy set_economy set_society
         set_technology gdp set_gdp set_capital];
    rewrite (Hloss _ Hpos); split; reflexivity.
Qed.

(** What a year of war leaves alone once the snapshots are taken. *)
Lemma war_year_keeps : forall rel_at rel_ta actor target r1 r2 a1 t1,
  war_year rel_at rel_ta actor target = (r1, r2, a1, t1) ->
  0 < war_start_gdp rel_at -> 0 < war_start_gdp rel_ta ->
  (at_war r1 = true /\ war_start_gdp r1 = war_start_gdp rel_at
   /\ war_start_pop r1 = war_start_pop rel_at
   /\ war_start_resource r1 = war_start_resource rel_at)
  /\ (at_war r2 = true /\ war_start_gdp r2 = war_start_gdp rel_ta
      /\ war_start_pop r2 = war_start_pop rel_ta
      /\ war_start_resource r2 = war_start_resource rel_ta)
  /\ (population (economy a1) = population (economy actor)
      /\ resources a1 = resources actor /\ technology a1 = technology actor)
  /\ (population (economy t1) = population (economy target)
      /\ resources t1 = resources target /\ technology t1 = technology target).
Proof.
  intros rel_at rel_ta actor target r1 r2 a1 t1 H Hat Hta.
  unfold war_year in H. cbv zeta in H. unfold _ensure_war_start in H.
  cbn [war_start_gdp set_war_years set_at_war] in H.
  destruct (Rlt_dec 0 (war_start_gdp rel_at)); [|contradiction].
  destruct (Rlt_dec 0 (war_start_gdp rel_ta)); [|contradiction].
  inversion H; subst; clear H. cbn. repeat split; reflexivity.
Qed.

(** Three countries alike; A has been at war with B and with C for three
    years and has lost more than a quarter of the gdp it had when the wars
    began. *)
Definition front_agent (agent_id : string) : AgentState :=
  agent_of agent_id (economy_of 1.0 3.0 1e6 0.5 0.0)
    [("energy", mkResourceSubState 10.0 1.0 1.0 1.0)]%string
    (mkSocietyState 0.5 0.5 40.0) (mkClimateSubState 0.5 0.0 0.8 None)
    (mkRiskState 0.5 0.6 0.5 0.4).

Definition old_war : RelationState :=
  mkRelationState 0.5 0.2 0.7 0.0 true 3%Z 1.36 1e6 10.0.

Definition two_front_world : WorldState :=
  mkWorldState 0%Z
    [("A", front_agent "A"); ("B", front_agent "B"); ("C", front_agent "C")]%string
    (global_of 3270.0 [])
    [("A", [("B", old_war); ("C", old_war)]);
     ("B", [("A", old_war)]);
     ("C", [("A", old_war)])]%string
    [].

(** The first year of the counterexample: neither A nor B is exhausted
    after the attrition of their own turn. *)
Lemma first_front_goes_on :
  fight old_war old_war (front_agent "A") (front_agent "B")
  = war_year old_war old_war (front_agent "A") (front_agent "B").
Proof.
  unfold fight.
  destruct (war_year old_war old_war (front_agent "A") (front_agent "B"))
    as [[[r1 r2] a1] t1] eqn:Hy.
  assert (Hpos : 0 < war_start_gdp old_war) by (cbn; lra).
  destruct (war_year_keeps _ _ _ _ _ _ _ _ Hy Hpos Hpos)
    as ((_ & G1 & P1 & S1) & (_ & G2 & P2 & S2) & (Pa & Ra & Ta) & (Pt & Rt & Tt)).
  assert (Hg : gdp (economy a1) = 0.97 /\ gdp (economy t1) = 0.97).
  { unfold war_year in Hy. cbv zeta in Hy. inversion Hy; subst; clear Hy.
    cbn [upd_economy economy set_economy gdp set_gdp set_capital front_agent agent_of
         economy_of technology military_power default_technology].
    assert (E : Rmax 1.0 1e-6 / (Rmax 1.0 1e-6 + Rmax 1.0 1e-6) = 1 / 2).
    { pose proof (floor_gdp_pos 1.0). field. lra. }
    rewrite E. unfold Rmax at 1 2. repeat destruct Rle_dec; lra. }
  destruct Hg as [Ga Gt].
  assert (Ea : _exhausted r1 a1 = false).
  { destruct (_exhausted r1 a1) eqn:E; [|reflexivity]. exfalso.
    apply exhausted_iff in E. rewrite G1, P1, S1, Ga, Pa in E.
    unfold _resource_index in E. rewrite Ra in E. cbn in E. lra. }
  assert (Et : _exhausted r2 t1 = false).
  { destruct (_exhausted r2 t1) eqn:E; [|reflexivity]. exfalso.
    apply exhausted_iff in E. rewrite G2, P2, S2, Gt, Pt in E.
    unfold _resource_index in E. rewrite Rt in E. cbn in E. lra. }
  rewrite Ea, Et. reflexivity.
Qed.

(** C7, as stated, fails: A fights B and then C in one call.  After the
    turn of the pair (A, B) the gdp of A is 0.97, not below 70% of the 1.36
    it had when that war began (0.952), and the war goes on; the turn of
    (A, C) takes the gdp of A to 0.9409.  So after the attrition of the call
    A is below 70% of its war-start gdp on the edge to B, and the call
    leaves that edge at war. *)
Lemma war_on_two_fronts_outlasts_exhaustion :
  exists rel side,
    get_relation (update_active_conflicts two_front_world) "A" "B" = Some rel
    /\ dict_get (agents (update_active_conflicts two_front_world)) "A" = Some side
    /\ at_war rel = true
    /\ gdp (economy side) < 0.7 * war_start_gdp rel.
Proof.
  unfold update_active_conflicts.
  change (relation_keys two_front_world)
    with [("A", "B"); ("A", "C"); ("B", "A"); ("C", "A")]%string.
  cbn [fold_left].
  rewrite (war_turn_skips _ "C" "A")%string by reflexivity.
  rewrite (war_turn_skips _ "B" "A")%string by reflexivity.
  set (w1 := war_turn two_front_world ("A", "B")%string).
  destruct (war_year old_war old_war (front_agent "A") (front_agent "B"))
    as [[[r1 r2] a1] t1] eqn:Hy.
  assert (Hpos : 0 < war_start_gdp old_war) by (cbn; lra).
  destruct (war_year_keeps _ _ _ _ _ _ _ _ Hy Hpos Hpos)
    as ((W1 & G1 & _) & _ & (_ & _ & Ta) & _).
  destruct (war_turn_pair two_front_world "A" "B" old_war old_war
              (front_agent "A") (front_agent "B")
              eq_refl eq_refl eq_refl eq_refl eq_refl eq_refl) as [Hab _].
  destruct (war_turn_sides two_front_world "A" "B" old_war old_war
              (front_agent "A") (front_agent "B")
              eq_refl eq_refl eq_refl eq_refl eq_refl eq_refl) as [Ha _].
  fold w1 in Hab, Ha.
  unfold fought_at in Hab. unfold fought_actor in Ha.
  rewrite first_front_goes_on, Hy in Hab, Ha. cbn [fst snd] in Hab, Ha.
  assert (Hac : get_relation w1 "A" "C" = Some old_war).
  { unfold w1. rewrite war_turn_frame by discriminate. reflexivity. }
  assert (Hca : get_relation w1 "C" "A" = Some old_war).
  { unfold w1. rewrite war_turn_frame by discriminate. reflexivity. }
  assert (Hc : dict_get (agents w1) "C" = Some (front_agent "C")).
  { unfold w1. rewrite war_turn_bystander by discriminate. reflexivity. }
  destruct (war_turn_sides w1 "A" "C" old_war old_war a1 (front_agent "C")
              eq_refl Hac Hca eq_refl Ha Hc) as [Ha2 _].
  exists r1, (fought_actor old_war old_war a1 (front_agent "C")).
  split; [rewrite war_turn_frame by discriminate; exact Hab|].
  split; [exact Ha2|]. split; [exact W1|].
  assert (Hm : military_power (technology a1) = military_power (technology (front_agent "C")))
    by (rewrite Ta; reflexivity).
  destruct (fight_between_equals old_war old_war a1 (front_agent "C") Hm) as [E2 _].
  assert (Hm0 : military_power (technology (front_agent "A"))
                = military_power (technology (front_agent "B"))) by reflexivity.
  destruct (fight_between_equals old_war old_war (front_agent "A") (front_agent "B") Hm0)
    as [E1 _].
  unfold fought_actor in E1 at 1. rewrite first_front_goes_on, Hy in E1. cbn [fst snd] in E1.
  rewrite E2, E1, G1. cbn. lra.
Qed.

(** Why the count of years needs both edges: an edge at war whose opposite
    edge is missing is skipped by the loop, and stays at war with no year
    counted. *)
Definition one_way_world : WorldState :=
  mkWorldState 0%Z
    [("A", front_agent "A"); ("B", front_agent "B")]%string
    (global_of 3270.0 [])
    [("A", [("B", set_at_war true (relation_of 0.5 0.2 0.7))])]%string
    [].

Lemma one_way_war_is_not_counted :
  exists rel,
    get_relation (update_active_conflicts one_way_world) "A" "B" = Some rel
    /\ at_war rel = true /\ war_years rel = 0%Z.
Proof.
  exists (set_at_war true (relation_of 0.5 0.2 0.7)).
  split; [|split; reflexivity].
  unfold update_active_conflicts.
  change (relation_keys one_way_world) with [("A", "B")]%string.
  reflexivity.
Qed.

End WarOnTwoFronts.

(** ** Bounded fields

    The fields with a documented range and the phases of the year that keep
    them there. *)

(** The next call of a chain of calls that can raise has returned. *)
Ltac next_some H name E :=
  match type of H with
  | match ?x with Some _ => _ | None => _ end = _ =>
      destruct x as [name|] eqn:E; [|discriminate H]
  end.

Section BoundedFields.

Definition unit_interval (x : R) : Prop := 0 <= x <= 1.

Definition bounded_society (s : SocietyState) : Prop :=
  unit_interval (trust_gov s) /\ unit_interval (social_tension s)
  /\ 0 <= inequality_gini s <= 100.

Definition bounded_political (p : PoliticalState) : Prop :=
  unit_interval (legitimacy p) /\ unit_interval (protest_pressure p)
  /\ unit_interval (hawkishness p) /\ unit_interval (protectionism p)
  /\ unit_interval (coalition_openness p) /\ unit_interval (sanction_propensity p)
  /\ unit_interval (policy_space p).

Definition bounded_agent (a : AgentState) : Prop :=
  bounded_society (society a) /\ unit_interval (climate_risk (climate a))
  /\ bounded_political (political a).

Definition bounded_relation (r : RelationState) : Prop :=
  unit_interval (trust r) /\ unit_interval (conflict_level r)
  /\ unit_interval (trade_barrier r).

Definition bounded_agents (d : dict AgentState) : Prop :=
  Forall (fun kv => bounded_agent (snd kv)) d.

Definition bounded_relations (d : dict (dict RelationState)) : Prop :=
  Forall (fun kv => Forall (fun kr => bounded_relation (snd kr)) (snd kv)) d.

Definition bounded_world (w : WorldState) : Prop :=
  bounded_agents (agents w) /\ bounded_relations (relations w).

Lemma unit_clamp01 : forall v, unit_interval (clamp01 v).
Proof. intros v. apply clamp01_range. Qed.

Lemma Forall_dict_set : forall (V : Type) (P : V -> Prop) (d : dict V) k v,
  Forall (fun kv => P (snd kv)) d -> P v -> Forall (fun kv => P (snd kv)) (dict_set d k v).
Proof.
  induction d as [|[k' v'] d IH]; intros k v Hd Hv; simpl.
  - constructor; [assumption|constructor].
  - inversion Hd; subst. destruct (String.eqb k' k); constructor; auto.
Qed.

Lemma Forall_dict_get : forall (V : Type) (P : V -> Prop) (d : dict V) k v,
  Forall (fun kv => P (snd kv)) d -> dict_get d k = Some v -> P v.
Proof.
  intros V P d k v Hd Hg. apply dict_get_In in Hg.
  rewrite Forall_forall in Hd. exact (Hd _ Hg).
Qed.

Lemma bounded_get_agent : forall w k a,
  bounded_world w -> dict_get (agents w) k = Some a -> bounded_agent a.
Proof. intros w k a [Ha _] Hg. exact (Forall_dict_get _ _ _ _ _ Ha Hg). Qed.

Lemma bounded_relations_of : forall w k,
  bounded_world w -> Forall (fun kr => bounded_relation (snd kr)) (relations_of w k).
Proof.
  intros w k [_ Hr]. unfold relations_of, dict_get_default.
  destruct (dict_get (relations w) k) as [rels|] eqn:E; [|constructor].
  exact (Forall_dict_get _ (fun rels => Forall (fun kr => bounded_relation (snd kr)) rels)
           _ _ _ Hr E).
Qed.

Lemma bounded_get_relation : forall w a b rel,
  bounded_world w -> get_relation w a b = Some rel -> bounded_relation rel.
Proof.
  intros w a b rel Hw Hg. unfold get_relation in Hg.
  exact (Forall_dict_get _ _ _ _ _ (bounded_relations_of w a Hw) Hg).
Qed.

Lemma bounded_put_agent : forall w k a,
  bounded_world w -> bounded_agent a -> bounded_world (put_agent k a w).
Proof.
  intros w k a [Ha Hr] Hb. unfold put_agent.
  destruct (dict_mem (agents w) k); [|split; assumption].
  split; simpl; [|assumption]. now apply Forall_dict_set.
Qed.

Lemma bounded_put_relation : forall w a b rel,
  bounded_world w -> bounded_relation rel -> bounded_world (put_relation a b rel w).
Proof.
  intros w a b rel Hw Hb. pose proof Hw as [Ha Hr]. unfold put_relation.
  destruct (dict_get (relations w) a) as [rels|] eqn:E; [|assumption].
  destruct (dict_mem rels b); [|assumption].
  split; simpl; [assumption|].
  apply (Forall_dict_set _ (fun rels => Forall (fun kr => bounded_relation (snd kr)) rels));
    [assumption|].
  apply Forall_dict_set; [|assumption].
  exact (Forall_dict_get _ (fun rels => Forall (fun kr => bounded_relation (snd kr)) rels)
           _ _ _ Hr E).
Qed.

Lemma bounded_upd_agent : forall w k f,
  bounded_world w -> (forall a, bounded_agent a -> bounded_agent (f a)) ->
  bounded_world (Geopolitics.upd_agent k f w).
Proof.
  intros w k f Hw Hf. unfold Geopolitics.upd_agent.
  destruct (dict_get (agents w) k) as [a|] eqn:E; [|assumption].
  apply bounded_put_agent; [assumption|]. apply Hf. exact (bounded_get_agent _ _ _ Hw E).
Qed.

Lemma bounded_upd_relation : forall w a b f,
  bounded_world w -> (forall r, bounded_relation r -> bounded_relation (f r)) ->
  bounded_world (Geopolitics.upd_relation a b f w).
Proof.
  intros w a b f Hw Hf. unfold Geopolitics.upd_relation.
  destruct (get_relation w a b) as [r|] eqn:E; [|assumption].
  apply bounded_put_relation; [assumption|]. apply Hf. exact (bounded_get_relation _ _ _ _ Hw E).
Qed.

Lemma fold_left_invariant : forall (A B : Type) (P : A -> Prop) (f : A -> B -> A) l a,
  (forall a b, P a -> P (f a b)) -> P a -> P (fold_left f l a).
Proof.
  induction l as [|b l IH]; intros a Hf Ha; simpl; [assumption|]. apply IH; auto.
Qed.

Lemma foldM_invariant : forall (A B : Type) (P : A -> Prop) (f : A -> B -> option A) l a r,
  (forall a b a', P a -> f a b = Some a' -> P a') -> P a -> foldM f l a = Some r -> P r.
Proof.
  induction l as [|b l IH]; intros a r Hf Ha H; simpl in H.
  - inversion H; subst; assumption.
  - unfold bind in H. destruct (f a b) as [a'|] eqn:E; [|discriminate].
    exact (IH a' r Hf (Hf a b a' Ha E) H).
Qed.

Lemma bounded_for_each_agent : forall body w,
  (forall w k a, bounded_world w -> bounded_agent a -> bounded_agent (body w k a)) ->
  bounded_world w -> bounded_world (for_each_agent body w).
Proof.
  intros body w Hb Hw. unfold for_each_agent.
  apply fold_left_invariant; [|assumption].
  intros w' k Hw'. destruct (dict_get (agents w') k) as [a|] eqn:E; [|assumption].
  apply bounded_put_agent; [assumption|]. apply Hb; [assumption|].
  exact (bounded_get_agent _ _ _ Hw' E).
Qed.

Lemma bounded_for_each_agent_opt : forall body w w',
  (forall w k a a', bounded_world w -> bounded_agent a -> body w k a = Some a' ->
                    bounded_agent a') ->
  bounded_world w -> for_each_agent_opt body w = Some w' -> bounded_world w'.
Proof.
  intros body w w' Hb Hw H. unfold for_each_agent_opt in H.
  revert H. apply foldM_invariant; [|assumption].
  intros w1 k w2 Hw1 H. destruct (dict_get (agents w1) k) as [a|] eqn:E.
  - unfold bind in H. destruct (body w1 k a) as [a'|] eqn:E'; [|discriminate].
    inversion H; subst. apply bounded_put_agent; [assumption|].
    eapply Hb; eauto. exact (bounded_get_agent _ _ _ Hw1 E).
  - inversion H; subst; assumption.
Qed.

Lemma bounded_for_each_relation : forall body w,
  (forall w a b r, bounded_world w -> bounded_relation r -> bounded_relation (body w a b r)) ->
  bounded_world w -> bounded_world (for_each_relation body w).
Proof.
  intros body w Hb Hw. unfold for_each_relation.
  apply fold_left_invariant; [|assumption].
  intros w' ab Hw'. destruct (get_relation w' (fst ab) (snd ab)) as [r|] eqn:E; [|assumption].
  apply bounded_put_relation; [assumption|]. apply Hb; [assumption|].
  exact (bounded_get_relation _ _ _ _ Hw' E).
Qed.

(** A function that leaves the society, the climate risk and the political
    traits of an agent alone keeps the agent bounded. *)
Definition same_bounded_fields (a a' : AgentState) : Prop :=
  society a' = society a
  /\ climate_risk (climate a') = climate_risk (climate a)
  /\ political a' = political a.

Lemma bounded_same_fields : forall a a',
  same_bounded_fields a a' -> bounded_agent a -> bounded_agent a'.
Proof.
  intros a a' (Hs & Hc & Hp) H. unfold bounded_agent. now rewrite Hs, Hc, Hp.
Qed.



Lemma bounded_set_frame : forall w w',
  agents w' = agents w -> relations w' = relations w -> bounded_world w -> bounded_world w'.
Proof. intros w w' Ha Hr H. unfold bounded_world. now rewrite Ha, Hr. Qed.


(** *** update_political_states *)


(** *** update_institutions *)

Lemma bounded_member_relations_loop : forall o f w,
  (forall r, bounded_relation r -> bounded_relation (f r)) ->
  bounded_world w -> bounded_world (Institutions.member_relations_loop o f w).
Proof.
  intros o f w Hf Hw. unfold Institutions.member_relations_loop.
  apply fold_left_invariant; [|assumption].
  intros w1 m Hw1. apply fold_left_invariant; [|assumption].
  intros w2 p Hw2. destruct (Institutions.is_member_of p o); [|assumption].
  now apply bounded_upd_relation.
Qed.

Lemma bounded_liquidity_support : forall ms st,
  bounded_world (fst (fst st)) ->
  bounded_world (fst (fst (fold_left Institutions.liquidity_support ms st))).
Proof.
  intros ms st. apply (fold_left_invariant _ _ (fun st => bounded_world (fst (fst st)))).
  intros [[w b] stop] m Hw. simpl in *. unfold Institutions.liquidity_support.
  destruct stop; [assumption|].
  destruct (dict_get (agents w) m) as [a|]; [|assumption].
  destruct Rle_dec; [assumption|]. destruct Rle_dec; [assumption|]. simpl.
  apply bounded_upd_agent; [assumption|].
  intros a' Ha'. exact Ha'.
Qed.

Lemma bounded_apply_org_measures : forall w o,
  0 <= org_legitimacy o ->
  bounded_world w -> bounded_world (fst (Institutions._apply_org_measures w o)).
Proof.
  intros w o Hl Hw. unfold Institutions._apply_org_measures.
  destruct (members o) as [|m ms] eqn:Em; [assumption|]. rewrite <- Em.
  destruct (String.eqb (org_type o) "TradeOrg").
  { simpl. apply bounded_member_relations_loop; [|assumption].
    intros r (Ht & Hc & Hb). destruct Rle_dec; [exact (conj Ht (conj Hc Hb))|].
    split; [exact Ht|]. split; [exact Hc|]. simpl. unfold unit_interval in *. rminmax. }
  destruct (String.eqb (org_type o) "FinanceOrg").
  { destruct Rle_dec; [assumption|].
    pose proof (bounded_liquidity_support (members o) (w, budget o, false) Hw) as H.
    destruct (fold_left Institutions.liquidity_support (members o) (w, budget o, false))
      as [[w' b'] s']. exact H. }
  destruct (String.eqb (org_type o) "SecurityOrg").
  { simpl. apply bounded_member_relations_loop; [|assumption].
    intros r (Ht & Hc & Hb). destruct Rlt_dec; [exact (conj Ht (conj Hc Hb))|].
    split; [exact Ht|]. split; [|exact Hb]. simpl. unfold unit_interval in *. rminmax. }
  destruct (String.eqb (org_type o) "ClimateOrg").
  { simpl. apply fold_left_invariant; [|assumption].
    intros w1 m1 Hw1. apply bounded_upd_agent; [assumption|].
    intros a (Hs & Hc & Hp). destruct Rlt_dec; [exact (conj Hs (conj Hc Hp))|].
    split; [exact Hs|]. split; [|exact Hp]. simpl. unfold unit_interval in *. rminmax. }
  destruct (String.eqb (org_type o) "SocialOrg").
  { simpl. apply fold_left_invariant; [|assumption].
    intros w1 m1 Hw1. apply bounded_upd_agent; [assumption|].
    intros a ((Ht & Hn & Hg) & Hc & Hp).
    split; [|split; [exact Hc|exact Hp]]. simpl.
    split; [apply clamp01_range|]. split; [|exact Hg].
    unfold unit_interval in *. simpl. rminmax. }
  assumption.
Qed.

Lemma bounded_institution_turn : forall metrics w k,
  bounded_world w -> bounded_world (Institutions.institution_turn metrics w k).
Proof.
  intros metrics w k Hw. unfold Institutions.institution_turn.
  destruct (dict_get (institutions w) k) as [o|]; [|assumption].
  set (o1 := set_budget _ _).
  assert (Hl : 0 <= org_legitimacy o1).
  { unfold o1, Institutions._update_legitimacy. simpl. apply clamp01_range. }
  pose proof (bounded_apply_org_measures w o1 Hl Hw) as H.
  destruct (Institutions._apply_org_measures w o1) as [w' o']. simpl in H.
  exact (bounded_set_frame w' _ eq_refl eq_refl H).
Qed.

Lemma bounded_update_institutions : forall w,
  bounded_world w -> bounded_world (Institutions.update_institutions w).
Proof.
  intros w Hw. unfold Institutions.update_institutions.
  apply fold_left_invariant; [intros; now apply bounded_institution_turn|].
  destruct (institutions w); [|assumption].
  exact (bounded_set_frame w _ eq_refl eq_refl Hw).
Qed.

Ltac unbound :=
  unfold bounded_agent, bounded_society, bounded_political, bounded_relation, unit_interval,
    Geopolitics.upd_society, Geopolitics.upd_economy, Geopolitics.upd_technology in *;
  simpl in *.

(** *** resolve_foreign_policy *)

Lemma bounded_resolve_sanctions : forall w actions,
  bounded_world w -> bounded_world (PoliticalDynamics.resolve_sanctions w actions).
Proof.
  intros w actions Hw. apply bounded_for_each_agent; [|assumption].
  intros w1 k a _ Ha. exact Ha.
Qed.

Lemma bounded_update_trade_barriers : forall w actions,
  bounded_world w -> bounded_world (PoliticalDynamics.update_trade_barriers w actions).
Proof.
  intros w actions Hw. apply bounded_for_each_relation; [|assumption].
  intros w1 a b r _ (Ht & Hc & Hb). unfold PoliticalDynamics.trade_barrier_turn.
  destruct (dict_get (agents w1) a); [|exact (conj Ht (conj Hc Hb))].
  destruct (dict_get (agents w1) b); [|exact (conj Ht (conj Hc Hb))].
  split; [exact Ht|]. split; [exact Hc|]. apply clamp01_range.
Qed.

Lemma bounded_update_coalitions : forall w cooldown w',
  bounded_world w -> PoliticalDynamics.update_coalitions w cooldown = Some w' ->
  bounded_world w'.
Proof.
  intros w cooldown w' Hw. apply bounded_for_each_agent_opt; [|assumption].
  intros w1 k a a' _ Ha H. unfold PoliticalDynamics.coalition_turn in H.
  destruct (Z.ltb _ _); [inversion H; subst; exact Ha|].
  unfold bind in H.
  destruct (PoliticalDynamics._block_score _ _ _ _); [|discriminate].
  destruct (foldM _ _ _) as [best|]; [|discriminate].
  destruct (_ && _)%bool; inversion H; subst; exact Ha.
Qed.

Lemma bounded_resolve_foreign_policy : forall w actions w',
  bounded_world w -> PoliticalDynamics.resolve_foreign_policy w actions = Some w' ->
  bounded_world w'.
Proof.
  intros w actions w' Hw H. unfold PoliticalDynamics.resolve_foreign_policy in H.
  eapply bounded_update_coalitions; [|exact H].
  now apply bounded_update_trade_barriers, bounded_resolve_sanctions.
Qed.

(** *** apply_sanctions_effects *)

Lemma bounded_apply_sanction_entry : forall w e,
  bounded_world w -> bounded_world (Geopolitics.apply_sanction_entry w e).
Proof.
  intros w [[a b] t] Hw. unfold Geopolitics.apply_sanction_entry.
  destruct (dict_get (agents w) a); [|assumption].
  destruct (get_relation w a b) as [r|] eqn:E; [|assumption].
  pose proof (bounded_get_relation _ _ _ _ Hw E) as Hr.
  destruct t; [assumption| |].
  - apply bounded_put_relation; [assumption|]. unbound. rminmax.
  - apply bounded_upd_agent; [|intros a' Ha'; exact Ha'].
    apply bounded_put_relation; [assumption|]. unbound. rminmax.
Qed.

Lemma bounded_sanction_social_reaction : forall scale bias increase a,
  bounded_agent a ->
  bounded_agent (Geopolitics._apply_sanction_social_reaction scale bias increase a).
Proof.
  intros scale bias increase a ((Ht & Hn & Hg) & Hc & Hp).
  unfold Geopolitics._apply_sanction_social_reaction.
  split; [|split; [exact Hc|exact Hp]].
  split; [apply clamp01_range|]. split; [apply clamp01_range|exact Hg].
Qed.

Lemma bounded_apply_sanction_pressure : forall w tc,
  bounded_world w -> bounded_world (Geopolitics.apply_sanction_pressure w tc).
Proof.
  intros w [t [m s]] Hw. unfold Geopolitics.apply_sanction_pressure. simpl.
  destruct (dict_get (agents w) t) as [a|] eqn:E; [|assumption].
  destruct (_ && _)%bool; [assumption|].
  apply bounded_put_agent; [assumption|].
  apply bounded_sanction_social_reaction.
  exact (bounded_get_agent _ _ _ Hw E).
Qed.

Lemma bounded_apply_sanctions_effects : forall w,
  bounded_world w -> bounded_world (Geopolitics.apply_sanctions_effects w).
Proof.
  intros w Hw. unfold Geopolitics.apply_sanctions_effects.
  apply fold_left_invariant; [intros; now apply bounded_apply_sanction_pressure|].
  apply fold_left_invariant; [intros; now apply bounded_apply_sanction_entry|assumption].
Qed.

(** *** apply_security_actions *)

Lemma bounded_raise_conflict : forall delta r,
  0 <= delta -> bounded_relation r -> bounded_relation (Geopolitics.raise_conflict delta r).
Proof. intros delta r Hd Hr. unfold Geopolitics.raise_conflict. unbound. rminmax. Qed.

Lemma bounded_scale_trust : forall factor r,
  0 <= factor <= 1 -> bounded_relation r -> bounded_relation (Geopolitics.scale_trust factor r).
Proof.
  intros factor r Hf Hr. unfold Geopolitics.scale_trust. unbound.
  destruct Hr as ((H1 & H2) & Hc & Hb). repeat split; try lra; try nra.
Qed.

Lemma bounded_ensure_war_start : forall a r,
  bounded_relation r -> bounded_relation (Geopolitics._ensure_war_start a r).
Proof.
  intros a r Hr. unfold Geopolitics._ensure_war_start. destruct Rlt_dec; [exact Hr|exact Hr].
Qed.

Lemma bounded_hit : forall dt dn a,
  0 <= dt -> 0 <= dn -> bounded_agent a ->
  bounded_agent
    (Geopolitics.upd_society
       (fun s => set_trust_gov (Rmax 0 (trust_gov s - dt))
                   (set_social_tension (Rmin 1.0 (social_tension s + dn)) s)) a).
Proof. intros dt dn a Ht Hn Ha. unbound. rminmax. Qed.

Lemma bounded_open_war : forall w a b,
  bounded_world w ->
  bounded_world
    (match dict_get (agents w) a with
     | Some actor => Geopolitics.upd_relation a b (Geopolitics._ensure_war_start actor) w
     | None => w
     end).
Proof.
  intros w a b Hw. destruct (dict_get (agents w) a); [|assumption].
  apply bounded_upd_relation; [assumption|]. intros r. apply bounded_ensure_war_start.
Qed.

Lemma bounded_security_effects : forall t a b w,
  bounded_world w -> bounded_world (Geopolitics.security_effects t a b w).
Proof.
  intros t a b w Hw.
  assert (Hrc : forall d, 0 <= d -> forall x y w', bounded_world w' ->
            bounded_world (Geopolitics.upd_relation x y (Geopolitics.raise_conflict d) w')).
  { intros d Hd x y w' Hw'. apply bounded_upd_relation; [assumption|].
    intros r. now apply bounded_raise_conflict. }
  assert (Hst : forall f, 0 <= f <= 1 -> forall x y w', bounded_world w' ->
            bounded_world (Geopolitics.upd_relation x y (Geopolitics.scale_trust f) w')).
  { intros f Hf x y w' Hw'. apply bounded_upd_relation; [assumption|].
    intros r. now apply bounded_scale_trust. }
  assert (Hfr : forall f, (forall x, same_bounded_fields x (f x)) -> forall k w',
            bounded_world w' -> bounded_world (Geopolitics.upd_agent k f w')).
  { intros f Hf k w' Hw'. apply bounded_upd_agent; [assumption|].
    intros x. apply bounded_same_fields, Hf. }
  assert (Hhit : forall dt dn, 0 <= dt -> 0 <= dn -> forall k w', bounded_world w' ->
            bounded_world
              (Geopolitics.upd_agent k
                 (Geopolitics.upd_society
                    (fun s => set_trust_gov (Rmax 0 (trust_gov s - dt))
                                (set_social_tension (Rmin 1.0 (social_tension s + dn)) s)))
                 w')).
  { intros dt dn Ht Hn k w' Hw'. apply bounded_upd_agent; [assumption|].
    intros x. now apply bounded_hit. }
  unfold Geopolitics.security_effects.
  destruct t.
  - assumption.
  - cbv zeta. apply Hst; [lra|]. apply Hst; [lra|]. apply Hrc; [lra|]. apply Hrc; [lra|].
    assumption.
  - cbv zeta. apply Hrc; [lra|]. apply Hrc; [lra|]. apply Hfr; [|assumption].
    intros x. repeat split.
  - cbv zeta. apply bounded_upd_agent.
    2:{ intros x Hx. apply (bounded_hit 0.03 0.05); [lra|lra|].
        revert Hx. apply bounded_same_fields. repeat split. }
    apply bounded_upd_agent.
    2:{ intros x Hx. apply (bounded_hit 0.03 0.05); [lra|lra|].
        revert Hx. apply bounded_same_fields. repeat split. }
    apply Hrc; [lra|]. apply Hrc; [lra|]. assumption.
  - destruct (dict_get (agents w) a); [|assumption].
    destruct (dict_get (agents w) b); [|assumption].
    cbv zeta.
    apply bounded_open_war. apply bounded_open_war.
    apply bounded_upd_relation; [|intros r Hr; exact Hr].
    apply bounded_upd_relation; [|intros r Hr; exact Hr].
    apply Hst; [lra|]. apply Hst; [lra|]. apply Hrc; [lra|]. apply Hrc; [lra|].
    apply Hhit; [lra|lra|]. apply Hhit; [lra|lra|].
    apply Hfr; [intros x; repeat split|].
    apply Hfr; [intros x; repeat split|].
    apply Hfr; [intros x; repeat split|].
    apply Hfr; [intros x; repeat split|].
    assumption.
Qed.

Lemma bounded_security_turn : forall random st k,
  bounded_world (fst (fst st)) ->
  bounded_world (fst (fst (Geopolitics.security_turn random st k))).
Proof.
  intros random [[w actions] drawn] k Hw. cbn [fst] in Hw.
  unfold Geopolitics.security_turn.
  destruct (dict_get actions k) as [action|]; [|exact Hw].
  cbv zeta.
  match goal with
  | |- context [match ?p with Some a => _ | None => (w, actions, ?d) end] =>
      destruct p as [action'|]; [|exact Hw]
  end.
  destruct (Geopolitics._coerce_agent_id _) as [target_id|]; [|exact Hw].
  destruct (negb _); [exact Hw|].
  destruct (get_relation w (agent_id action') target_id); [|exact Hw].
  destruct (get_relation w target_id (agent_id action')); [|exact Hw].
  cbn [fst]. now apply bounded_security_effects.
Qed.

Lemma bounded_apply_security_actions : forall w actions random drawn,
  bounded_world w ->
  bounded_world (fst (fst (Geopolitics.apply_security_actions w actions random drawn))).
Proof.
  intros w actions random drawn Hw. unfold Geopolitics.apply_security_actions.
  apply (fold_left_invariant _ _ (fun st => bounded_world (fst (fst st)))); [|assumption].
  intros st k. apply bounded_security_turn.
Qed.

(** *** update_active_conflicts *)

Lemma bounded_end_war : forall r, bounded_relation r -> bounded_relation (Geopolitics.end_war r).
Proof. intros r Hr. exact Hr. Qed.

Lemma bounded_war_year : forall rel_at rel_ta actor target,
  bounded_relation rel_at -> bounded_relation rel_ta ->
  bounded_agent actor -> bounded_agent target ->
  let r := Geopolitics.war_year rel_at rel_ta actor target in
  bounded_relation (fst (fst (fst r))) /\ bounded_relation (snd (fst (fst r)))
  /\ bounded_agent (snd (fst r)) /\ bounded_agent (snd r).
Proof.
  intros rel_at rel_ta actor target H1 H2 H3 H4. unfold Geopolitics.war_year. cbv zeta.
  cbn [fst snd].
  split; [|split; [|split; [exact H3|exact H4]]].
  - unfold Geopolitics._ensure_war_start. destruct Rlt_dec; exact H1.
  - unfold Geopolitics._ensure_war_start. destruct Rlt_dec; exact H2.
Qed.

Lemma bounded_war_outcome : forall e1 e2 rel_at rel_ta actor target,
  bounded_relation rel_at -> bounded_relation rel_ta ->
  bounded_agent actor -> bounded_agent target ->
  let r := Geopolitics.war_outcome e1 e2 rel_at rel_ta actor target in
  bounded_relation (fst (fst (fst r))) /\ bounded_relation (snd (fst (fst r)))
  /\ bounded_agent (snd (fst r)) /\ bounded_agent (snd r).
Proof.
  intros e1 e2 rel_at rel_ta actor target H1 H2 H3 H4.
  assert (Hrel : forall f c r, 0 <= f <= 1 -> 0 <= c <= 1 -> bounded_relation r ->
            bounded_relation (set_trust (trust (Geopolitics.end_war r) * f)
                                (set_conflict_level c (Geopolitics.end_war r)))).
  { intros f c r Hf Hc ((Ht1 & Ht2) & _ & Hb). split; [|split; [exact Hc|exact Hb]].
    unfold unit_interval. simpl. split; nra. }
  assert (Hworn : forall a, bounded_agent a ->
            bounded_agent
              (Geopolitics.upd_society
                 (fun s => set_trust_gov (Rmax 0 (trust_gov s - 0.05))
                             (set_social_tension (Rmin 1.0 (social_tension s + 0.08)) s))
                 (Geopolitics.upd_technology
                    (fun t => set_military_power (military_power t * 0.9) t) a))).
  { intros a Ha. apply (bounded_hit 0.05 0.08); [lra|lra|exact Ha]. }
  assert (Hwon : forall a, bounded_agent a ->
            bounded_agent
              (Geopolitics.upd_society
                 (fun s => set_social_tension (Rmax 0 (social_tension s - 0.03))
                             (set_trust_gov (clamp01 (trust_gov s + 0.03)) s)) a)).
  { intros a ((Ht & Hn & Hg) & Hc & Hp). split; [|split; [exact Hc|exact Hp]].
    split; [apply clamp01_range|]. split; [|exact Hg].
    unfold unit_interval in *. simpl. rminmax. }
  assert (Hlost : forall a, bounded_agent a ->
            bounded_agent
              (Geopolitics.upd_technology
                 (fun t => set_military_power (military_power t * 0.85) t)
                 (Geopolitics.upd_society
                    (fun s => set_social_tension (Rmin 1.0 (social_tension s + 0.10))
                                (set_trust_gov (Rmax 0 (trust_gov s - 0.08)) s)) a))).
  { intros a ((Ht & Hn & Hg) & Hc & Hp). split; [|split; [exact Hc|exact Hp]].
    unfold bounded_society, unit_interval in *. simpl. rminmax. }
  unfold Geopolitics.war_outcome. cbv zeta.
  destruct (e1 && e2)%bool; cbn [fst snd].
  - split; [apply Hrel; [lra|lra|exact H1]|].
    split; [apply Hrel; [lra|lra|exact H2]|].
    split; apply Hworn; assumption.
  - split; [apply Hrel; [lra|lra|exact H1]|].
    split; [apply Hrel; [lra|lra|exact H2]|].
    destruct e1; split; auto.
Qed.

Lemma bounded_fight : forall rel_at rel_ta actor target,
  bounded_relation rel_at -> bounded_relation rel_ta ->
  bounded_agent actor -> bounded_agent target ->
  let r := Geopolitics.fight rel_at rel_ta actor target in
  bounded_relation (fst (fst (fst r))) /\ bounded_relation (snd (fst (fst r)))
  /\ bounded_agent (snd (fst r)) /\ bounded_agent (snd r).
Proof.
  intros rel_at rel_ta actor target H1 H2 H3 H4.
  pose proof (bounded_war_year rel_at rel_ta actor target H1 H2 H3 H4) as Hy.
  unfold Geopolitics.fight.
  destruct (Geopolitics.war_year rel_at rel_ta actor target) as [[[r1 r2] a1] t1].
  cbn [fst snd] in Hy. destruct Hy as (Y1 & Y2 & Y3 & Y4). cbv zeta.
  destruct (negb _).
  - cbn [fst snd]. auto.
  - now apply bounded_war_outcome.
Qed.

Lemma bounded_war_turn : forall w ab,
  bounded_world w -> bounded_world (Geopolitics.war_turn w ab).
Proof.
  intros w [a b] Hw. unfold Geopolitics.war_turn. cbn [fst snd].
  destruct (String.leb b a); [assumption|].
  destruct (get_relation w a b) as [rel_at|] eqn:E1; [|assumption].
  destruct (get_relation w b a) as [rel_ta|] eqn:E2; [|assumption].
  destruct (negb _); [assumption|].
  destruct (dict_get (agents w) a) as [actor|] eqn:E3; [|assumption].
  destruct (dict_get (agents w) b) as [target|] eqn:E4; [|assumption].
  pose proof (bounded_fight rel_at rel_ta actor target
                (bounded_get_relation _ _ _ _ Hw E1) (bounded_get_relation _ _ _ _ Hw E2)
                (bounded_get_agent _ _ _ Hw E3) (bounded_get_agent _ _ _ Hw E4)) as Hf.
  destruct (Geopolitics.fight rel_at rel_ta actor target) as [[[r1 r2] a1] t1].
  cbn [fst snd] in Hf. destruct Hf as (F1 & F2 & F3 & F4).
  apply bounded_put_agent; [|assumption]. apply bounded_put_agent; [|assumption].
  apply bounded_put_relation; [|assumption]. now apply bounded_put_relation.
Qed.

Lemma bounded_update_active_conflicts : forall w,
  bounded_world w -> bounded_world (Geopolitics.update_active_conflicts w).
Proof.
  intros w Hw. unfold Geopolitics.update_active_conflicts.
  apply fold_left_invariant; [apply bounded_war_turn|assumption].
Qed.

(** *** apply_trade_barrier_effects and update_relations_endogenous *)

Lemma bounded_apply_trade_barrier_effects : forall w,
  bounded_world w -> bounded_world (PoliticalDynamics.apply_trade_barrier_effects w).
Proof.
  intros w Hw. apply bounded_for_each_relation; [|assumption].
  intros w1 a b r _ Hr. unfold PoliticalDynamics.trade_barrier_effect.
  destruct (dict_get (agents w1) a); [|exact Hr].
  destruct (dict_get (agents w1) b); exact Hr.
Qed.

Lemma bounded_update_relations_endogenous : forall w,
  bounded_world w -> bounded_world (PoliticalDynamics.update_relations_endogenous w).
Proof.
  intros w Hw. apply bounded_for_each_relation; [|assumption].
  intros w1 a b r _ (Ht & Hc & Hb). unfold PoliticalDynamics.relation_drift.
  destruct (dict_get (agents w1) a); [|exact (conj Ht (conj Hc Hb))].
  destruct (dict_get (agents w1) b); [|exact (conj Ht (conj Hc Hb))].
  cbv zeta. split; [apply clamp01_range|]. split; [apply clamp01_range|exact Hb].
Qed.


(** *** apply_action and apply_trade_deals *)

Lemma bounded_fuel_tax_step : forall delta a,
  bounded_agent a -> bounded_agent (Actions.fuel_tax_step delta a).
Proof.
  intros delta a ((Ht & Hn & Hg) & Hc & Hp). unfold Actions.fuel_tax_step. cbv zeta.
  split; [|split; [exact Hc|exact Hp]].
  split; [apply clamp01_range|]. split; [apply clamp01_range|exact Hg].
Qed.

Lemma bounded_social_spending_step : forall delta a,
  bounded_agent a -> bounded_agent (Actions.social_spending_step delta a).
Proof.
  intros delta a ((Ht & Hn & Hg) & Hc & Hp). unfold Actions.social_spending_step. cbv zeta.
  split; [|split; [exact Hc|exact Hp]].
  split; [apply clamp01_range|]. split; [apply clamp01_range|exact Hg].
Qed.

Lemma bounded_military_spending_step : forall delta a,
  bounded_agent a -> bounded_agent (Actions.military_spending_step delta a).
Proof.
  intros delta a ((Ht & Hn & Hg) & Hc & Hp). unfold Actions.military_spending_step. cbv zeta.
  split; [|split; [exact Hc|exact Hp]].
  split; [apply clamp01_range|]. split; [exact Hn|exact Hg].
Qed.

Lemma bounded_rd_step : forall delta a,
  bounded_agent a -> bounded_agent (Actions.rd_step delta a).
Proof. intros delta a Ha. exact Ha. Qed.

Lemma bounded_climate_policy_step : forall policy a,
  bounded_agent a -> bounded_agent (Actions.climate_policy_step policy a).
Proof.
  intros policy a ((Ht & Hn & Hg) & Hc & Hp). unfold Actions.climate_policy_step. cbv zeta.
  split; [|split; [exact Hc|exact Hp]].
  assert (Hi : 0 <= match policy with
                    | CP_weak => 0.01 | CP_moderate => 0.03 | CP_strong => 0.07 | CP_none => 0.0
                    end) by (destruct policy; lra).
  set (intensity := match policy with
                    | CP_weak => 0.01 | CP_moderate => 0.03 | CP_strong => 0.07 | CP_none => 0.0
                    end) in *.
  destruct (_ && _)%bool eqn:E.
  - apply andb_prop in E. destruct E as [_ E]. unfold Rltb in E.
    destruct Rlt_dec as [Hse|]; [|discriminate].
    split; [apply clamp01_range|]. split; [|exact Hg].
    unfold unit_interval in *. simpl.
    assert (0 <= 0.01 * intensity * (survival_self_expression (culture a) / 10.0)) by nra.
    rminmax.
  - split; [apply clamp01_range|]. split; [exact Hn|exact Hg].
Qed.

Lemma bounded_apply_action : forall w action w' action',
  bounded_world w -> Actions.apply_action w action = Some (w', action') -> bounded_world w'.
Proof.
  intros w action w' action' Hw H. unfold Actions.apply_action, bind in H.
  destruct (Actions._normalize_domestic_levers action w) as [act|]; [|discriminate].
  destruct (dict_get (agents w) (agent_id act)) as [a|] eqn:E; [|discriminate].
  cbv zeta in H. inversion H; subst w' action'; clear H.
  apply bounded_put_agent; [assumption|].
  pose proof (bounded_get_agent _ _ _ Hw E) as Ha.
  assert (Hstep : forall delta f x,
            (forall d y, bounded_agent y -> bounded_agent (f d y)) -> bounded_agent x ->
            bounded_agent (if Rltb 1e-6 (Rabs delta) then f delta x else x)).
  { intros delta f x Hf Hx. destruct (Rltb _ _); auto. }
  destruct (Actions.is_none _).
  - apply Hstep; [apply bounded_rd_step|].
    apply Hstep; [apply bounded_military_spending_step|].
    apply Hstep; [apply bounded_social_spending_step|].
    apply Hstep; [apply bounded_fuel_tax_step|]. exact Ha.
  - apply bounded_climate_policy_step.
    apply Hstep; [apply bounded_rd_step|].
    apply Hstep; [apply bounded_military_spending_step|].
    apply Hstep; [apply bounded_social_spending_step|].
    apply Hstep; [apply bounded_fuel_tax_step|]. exact Ha.
Qed.









(** *** The resource and climate phases *)








Lemma bounded_extreme_event : forall temperature bp mp random st,
  bounded_agent (fst st) ->
  bounded_agent
    (fst (Climate.apply_climate_extreme_events_agent temperature bp mp random st)).
Proof.
  intros temperature bp mp random [a n] Ha. cbn [fst] in Ha.
  unfold Climate.apply_climate_extreme_events_agent. cbn [fst snd].
  destruct Rle_dec as [|Hrisk]; [exact Ha|]. cbv zeta.
  destruct Rle_dec; [exact Ha|]. cbn [fst].
  destruct Ha as ((Ht & Hn & Hg) & Hc & Hp).
  split; [|split; [exact Hc|exact Hp]].
  pose proof (clamp01_range (0.40 * regime_stability (risk a)
                             + 0.30 * clamp01 (tech_level (technology a) / 2.0)
                             + 0.15 * trust_gov (society a)
                             + 0.15 * clamp01 (Rmax 0 (climate_adaptation_spending (economy a))
                                               / Rmax (gdp (economy a)) 1e-6 / 0.03)))
    as Hres.
  fold (Climate._climate_resilience a) in Hres.
  set (res := Climate._climate_resilience a) in *.
  set (rk := climate_risk (climate a)) in *.
  assert (Hj : 0 <= (0.03 + 0.10 * rk) * (1.0 - 0.35 * res)).
  { unfold unit_interval in Hc. apply Rmult_le_pos; lra. }
  set (jump := (0.03 + 0.10 * rk) * (1.0 - 0.35 * res)) in *.
  unfold bounded_society, unit_interval in *.
  destruct Rlt_dec; simpl; rminmax.
Qed.

Lemma bounded_extreme_events_loop : forall temperature bp mp random l n,
  bounded_agents l ->
  bounded_agents (fst (Climate.apply_climate_extreme_events_loop temperature bp mp random l n)).
Proof.
  induction l as [|[k a] l IH]; intros n Hl; simpl; [constructor|].
  inversion Hl; subst. constructor.
  - cbn [snd]. now apply bounded_extreme_event.
  - now apply IH.
Qed.

Lemma bounded_apply_climate_extreme_events : forall w bp mp random n,
  bounded_world w ->
  bounded_world (fst (Climate.apply_climate_extreme_events w bp mp random n)).
Proof.
  intros w bp mp random n [Ha Hr]. split; [|exact Hr].
  unfold Climate.apply_climate_extreme_events. cbn [fst agents set_agents].
  now apply bounded_extreme_events_loop.
Qed.


(** *** The economy, finance and society phases *)

Lemma same_fields_update_tfp_endogenous : forall a w,
  same_bounded_fields a (Metrics.update_tfp_endogenous a w).
Proof. intros a w. repeat split. Qed.







Lemma clamp_range : forall lo hi lo' hi' x,
  lo <= hi -> lo' <= lo -> hi <= hi' -> lo' <= Rmax lo (Rmin hi x) <= hi'.
Proof. intros lo hi lo' hi' x H1 H2 H3. rminmax. Qed.





(** *** The whole year *)


End BoundedFields.

(** ** Properties of the phases of a year *)

Section YearPhases.

Lemma Forall_two : forall (A : Type) (P : A -> Prop) x y, P x -> P y -> Forall P [x; y].
Proof. intros. constructor; [assumption|]. constructor; [assumption|constructor]. Qed.

Lemma sane_agent_bounded : forall k d, bounded_agent (sane_agent k d).
Proof.
  intros k d. unfold bounded_agent, bounded_society, bounded_political, unit_interval.
  simpl. lra.
Qed.

Lemma relation_of_bounded : forall ti t c,
  0 <= t <= 1 -> 0 <= c <= 1 -> bounded_relation (Examples.relation_of ti t c).
Proof.
  intros ti t c Ht Hc. unfold bounded_relation, unit_interval. simpl. lra.
Qed.

Lemma sane_world_bounded : bounded_world sane_world.
Proof.
  split.
  - apply Forall_two; apply sane_agent_bounded.
  - apply Forall_two; (constructor; [|constructor]); apply relation_of_bounded; lra.
Qed.

Lemma sanctioning_world_bounded : bounded_world sanctioning_world.
Proof.
  split.
  - apply Forall_two; [exact (sane_agent_bounded "A" 1.6)|apply sane_agent_bounded].
  - exact (proj2 sane_world_bounded).
Qed.

Lemma war_world_bounded : bounded_world war_world.
Proof.
  split.
  - apply Forall_two; apply sane_agent_bounded.
  - apply Forall_two; (constructor; [|constructor]);
      apply (relation_of_bounded 0.5 0.2 0.7); lra.
Qed.

Lemma two_keys : NoDup ["A"; "B"]%string.
Proof.
  constructor.
  - intros [H|[]]. discriminate.
  - constructor; [intros []|constructor].
Qed.

(** X1: whatever the world looks like before, after
    [update_political_states] each of the seven political traits
    (legitimacy, protest pressure, hawkishness, protectionism, coalition
    openness, sanction propensity, policy space) of every agent lies in
    [0,1]; the keys of a dictionary are distinct. *)
Theorem political_traits_land_in_unit_interval : forall w k a,
  NoDup (dict_keys (agents w)) ->
  dict_get (agents (PoliticalDynamics.update_political_states w)) k = Some a ->
  bounded_political (political a).
Proof.
  intros w k a Hnd Hget. unfold PoliticalDynamics.update_political_states in Hget.
  pose proof (dict_mem_get _ _ _ _ Hget) as Hmem.
  rewrite for_each_agent_mem in Hmem. unfold dict_mem in Hmem.
  destruct (dict_get (agents w) k) as [a0|] eqn:E0; [|discriminate].
  destruct (for_each_agent_reach
              (fun _ _ agent => PoliticalDynamics.update_political_state agent)
              (fun _ _ => True) (fun _ => I) (fun _ _ _ _ _ _ => I) w k a0 Hnd E0)
    as (wi & _ & Hr).
  rewrite Hr in Hget. inversion Hget; subst a.
  unfold PoliticalDynamics.update_political_state. cbn [political set_political].
  repeat split; apply clamp01_range.
Qed.

Lemma political_traits_land_in_unit_interval_witness :
  exists a,
    dict_get (agents (PoliticalDynamics.update_political_states sane_world)) "A" = Some a
    /\ bounded_political (political a).
Proof.
  destruct (dict_get (agents (PoliticalDynamics.update_political_states sane_world)) "A")
    as [a|] eqn:E.
  - exists a. split; [reflexivity|].
    exact (political_traits_land_in_unit_interval sane_world "A" a two_keys E).
  - exfalso. apply (f_equal (fun o => match o with Some _ => true | None => false end)) in E.
    change (dict_mem (agents (PoliticalDynamics.update_political_states sane_world)) "A"
            = false) in E.
    unfold PoliticalDynamics.update_political_states in E.
    rewrite for_each_agent_mem in E. discriminate.
Defined.

(** X2: [update_institutions] keeps every bounded field of every agent and
    relation in its range: trust in government, social tension, climate risk
    and the political traits in [0,1], the Gini index in [0,100], relation
    trust, conflict level and trade barrier in [0,1]. *)
Theorem institutions_keep_bounded_fields : forall w,
  bounded_world w -> bounded_world (Institutions.update_institutions w).
Proof. intros w Hw. now apply bounded_update_institutions. Qed.

Lemma institutions_keep_bounded_fields_witness :
  bounded_world sane_world /\ bounded_world (Institutions.update_institutions sane_world).
Proof.
  split; [exact sane_world_bounded|].
  exact (institutions_keep_bounded_fields sane_world sane_world_bounded).
Defined.

(** X3: [apply_sanctions_effects] keeps the bounded fields in range: a
    sanctioned relation's trade barrier rises to at most 1, its trust is only
    scaled down, and the target's trust in government and social tension are
    clamped to [0,1]. *)
Theorem sanctions_effects_keep_bounded_fields : forall w,
  bounded_world w -> bounded_world (Geopolitics.apply_sanctions_effects w).
Proof. intros w Hw. now apply bounded_apply_sanctions_effects. Qed.

Lemma sanctions_effects_keep_bounded_fields_witness :
  bounded_world sanctioning_world
  /\ bounded_world (Geopolitics.apply_sanctions_effects sanctioning_world).
Proof.
  split; [exact sanctioning_world_bounded|].
  exact (sanctions_effects_keep_bounded_fields sanctioning_world sanctioning_world_bounded).
Defined.

(** X4: [apply_security_actions] keeps the bounded fields in range whatever
    the actions and the random draws are: conflict levels are raised to at
    most 1, trust is only scaled down, and the societies hit by a border
    incident or a conflict stay within [0,1]. *)
Theorem security_actions_keep_bounded_fields : forall w actions random drawn,
  bounded_world w ->
  bounded_world (fst (fst (Geopolitics.apply_security_actions w actions random drawn))).
Proof. intros w actions random drawn Hw. now apply bounded_apply_security_actions. Qed.

Lemma security_actions_keep_bounded_fields_witness :
  bounded_world war_world
  /\ bounded_world
       (fst (fst (Geopolitics.apply_security_actions war_world
                    [("A", Geopolitics.set_sec SA_conflict (Some "B")
                             (action_with_sanctions "A" []))]%string
                    (fun _ => 0.5) 0))).
Proof.
  split; [exact war_world_bounded|].
  exact (security_actions_keep_bounded_fields war_world _ _ 0%nat war_world_bounded).
Defined.

(** X5: [update_active_conflicts] keeps the bounded fields in range through
    the attrition of a year of war and through both ways a war can end. *)
Theorem active_conflicts_keep_bounded_fields : forall w,
  bounded_world w -> bounded_world (Geopolitics.update_active_conflicts w).
Proof. intros w Hw. now apply bounded_update_active_conflicts. Qed.

Lemma active_conflicts_keep_bounded_fields_witness :
  bounded_world war_world /\ bounded_world (Geopolitics.update_active_conflicts war_world).
Proof.
  split; [exact war_world_bounded|].
  exact (active_conflicts_keep_bounded_fields war_world war_world_bounded).
Defined.

(** X6: for a relation between two agents of the world, the body of
    [update_trade_barriers] smooths the trade barrier: the new barrier is in
    [0,1], and when the old one is in [0,1] the new one lies between 70% of
    the old one and 70% of the old one plus 0.3, whatever the intents and the
    sanctions are. *)
Theorem trade_barrier_moves_gradually : forall actions w a b actor target rel,
  dict_get (agents w) a = Some actor ->
  dict_get (agents w) b = Some target ->
  let rel' := PoliticalDynamics.trade_barrier_turn actions w a b rel in
  0 <= trade_barrier rel' <= 1
  /\ (0 <= trade_barrier rel <= 1 ->
      0.7 * trade_barrier rel <= trade_barrier rel' <= 0.7 * trade_barrier rel + 0.3)
  /\ trust rel' = trust rel /\ conflict_level rel' = conflict_level rel
  /\ trade_intensity rel' = trade_intensity rel.
Proof.
  intros actions w a b actor target rel Ha Hb rel'. subst rel'.
  unfold PoliticalDynamics.trade_barrier_turn. rewrite Ha, Hb. cbv zeta.
  cbn [trade_barrier set_trade_barrier trust conflict_level trade_intensity].
  match goal with
  | |- context [0.3 * clamp01 ?d] =>
      pose proof (clamp01_range d) as Hd; set (desired := clamp01 d) in *; clearbody desired
  end.
  split; [apply clamp01_range|]. split; [|repeat split].
  intros Hb0. rewrite clamp01_id by lra. lra.
Qed.

Lemma trade_barrier_moves_gradually_witness :
  let rel := Examples.relation_of 0.5 0.6 0.1 in
  let rel' := PoliticalDynamics.trade_barrier_turn [] sane_world "A" "B" rel in
  0 <= trade_barrier rel' <= 1
  /\ (0 <= trade_barrier rel <= 1 ->
      0.7 * trade_barrier rel <= trade_barrier rel' <= 0.7 * trade_barrier rel + 0.3)
  /\ trust rel' = trust rel /\ conflict_level rel' = conflict_level rel
  /\ trade_intensity rel' = trade_intensity rel.
Proof.
  exact (trade_barrier_moves_gradually [] sane_world "A" "B"
           (sane_agent "A" 1.6) (sane_agent "B" 2.0) (Examples.relation_of 0.5 0.6 0.1)
           eq_refl eq_refl).
Defined.

(** X7: when [resolve_foreign_policy] returns (it raises only if an agent's
    [id] is not a key of the world), the bounded fields of every agent and
    relation are still in range. *)
Theorem foreign_policy_keeps_bounded_fields : forall w actions,
  bounded_world w ->
  match PoliticalDynamics.resolve_foreign_policy w actions with
  | Some w' => bounded_world w'
  | None => True
  end.
Proof.
  intros w actions Hw.
  destruct (PoliticalDynamics.resolve_foreign_policy w actions) as [w'|] eqn:E; [|exact I].
  exact (bounded_resolve_foreign_policy _ _ _ Hw E).
Qed.

Lemma foreign_policy_keeps_bounded_fields_witness :
  bounded_world sane_world
  /\ match PoliticalDynamics.resolve_foreign_policy sane_world mild_intent_actions with
     | Some w' => bounded_world w'
     | None => True
     end.
Proof.
  split; [exact sane_world_bounded|].
  exact (foreign_policy_keeps_bounded_fields sane_world mild_intent_actions sane_world_bounded).
Defined.

(** X8: [update_relations_endogenous] and [apply_trade_barrier_effects] keep
    the bounded fields in range: the drift of conflict and trust is clamped
    to [0,1], and the decay of trade touches the trade intensity only. *)
Theorem relation_drift_keeps_bounded_fields : forall w,
  bounded_world w ->
  bounded_world (PoliticalDynamics.update_relations_endogenous w)
  /\ bounded_world (PoliticalDynamics.apply_trade_barrier_effects w).
Proof.
  intros w Hw. split;
    [now apply bounded_update_relations_endogenous
    |now apply bounded_apply_trade_barrier_effects].
Qed.

Lemma relation_drift_keeps_bounded_fields_witness :
  bounded_world sane_world
  /\ bounded_world (PoliticalDynamics.update_relations_endogenous sane_world)
  /\ bounded_world (PoliticalDynamics.apply_trade_barrier_effects sane_world).
Proof.
  split; [exact sane_world_bounded|].
  exact (relation_drift_keeps_bounded_fields sane_world sane_world_bounded).
Defined.

(** X9: whatever the world looks like before, after [update_climate_risks]
    the climate risk of every agent lies in [0,1]. *)
Theorem climate_risk_lands_in_unit_interval :
  forall w response_rate sensitivity base_const base_water base_gini,
    Forall (fun kv => unit_interval (climate_risk (climate (snd kv))))
      (agents (Climate.update_climate_risks w response_rate sensitivity
                 base_const base_water base_gini)).
Proof.
  intros w rr sens bc bw bg. unfold Climate.update_climate_risks. cbv zeta.
  cbn [agents set_agents]. rewrite Forall_map. apply Forall_forall.
  intros kv _. cbn [snd]. unfold Climate.update_climate_risks_agent. cbv zeta.
  apply clamp01_range.
Qed.

(** X10: [apply_climate_extreme_events] keeps the bounded fields in range
    whatever the random draws are: the jump of social tension is not
    negative and is capped at 1, and the change of trust is capped at both
    ends. *)
Theorem extreme_events_keep_bounded_fields : forall w base_prob max_extra_prob random drawn,
  bounded_world w ->
  bounded_world
    (fst (Climate.apply_climate_extreme_events w base_prob max_extra_prob random drawn)).
Proof.
  intros w bp mp random drawn Hw. now apply bounded_apply_climate_extreme_events.
Qed.

Lemma extreme_events_keep_bounded_fields_witness :
  bounded_world sane_world
  /\ bounded_world
       (fst (Climate.apply_climate_extreme_events sane_world 0.012 0.07 (fun _ => 0) 0)).
Proof.
  split; [exact sane_world_bounded|].
  exact (extreme_events_keep_bounded_fields sane_world 0.012 0.07 (fun _ => 0) 0%nat
           sane_world_bounded).
Defined.

(** X11: whatever the agent and the action are, [update_social_state]
    leaves trust in government and social tension in [0,1] and the Gini
    index in [20,70]. *)
Theorem social_state_lands_in_range : forall a action,
  let s := society (Social.update_social_state a action) in
  0 <= trust_gov s <= 1 /\ 0 <= social_tension s <= 1 /\ 20 <= inequality_gini s <= 70.
Proof.
  intros a action. unfold Social.update_social_state. cbv zeta.
  cbn [society set_society set_economy trust_gov social_tension inequality_gini
       set_trust_gov set_social_tension set_inequality_gini].
  split; [apply clamp_range; lra|]. split; apply clamp_range; lra.
Qed.

(** X12: the shock of a regime collapse is never applied twice in a row: a
    second [check_regime_stability] right after the first leaves the
    economy, the society and the risk indicators as the first left them. *)
Theorem regime_collapse_not_repeated : forall a,
  let a1 := Social.check_regime_stability a in
  let a2 := Social.check_regime_stability a1 in
  economy a2 = economy a1 /\ society a2 = society a1 /\ risk a2 = risk a1.
Proof.
  intros a. cbv zeta.
  remember (Social.check_regime_stability a) as a1 eqn:E1.
  unfold Social.check_regime_stability in E1.
  destruct (Rltb (trust_gov (society a)) 0.2 && Rltb 0.8 (social_tension (society a)))%bool
    eqn:Ec.
  - assert (Hcalm : forall a', 0.25 <= trust_gov (society a') ->
              (Rltb (trust_gov (society a')) 0.2
               && Rltb 0.8 (social_tension (society a')))%bool = false).
    { intros a' H. apply andb_false_intro1. unfold Rltb.
      destruct Rlt_dec; [lra|reflexivity]. }
    destruct (_collapsed_this_step a) as [[|]|] eqn:Ef.
    + subst a1. unfold Social.check_regime_stability. rewrite Ec, Ef. repeat split.
    + cbv zeta in E1. subst a1. unfold Social.check_regime_stability.
      rewrite Hcalm by (cbn; apply Rmax_lower_r). repeat split.
    + cbv zeta in E1. subst a1. unfold Social.check_regime_stability.
      rewrite Hcalm by (cbn; apply Rmax_lower_r). repeat split.
  - destruct (_collapsed_this_step a) eqn:Ef.
    + subst a1. unfold Social.check_regime_stability.
      cbn [society set_collapsed_this_step _collapsed_this_step]. rewrite Ec.
      repeat split.
    + subst a1. unfold Social.check_regime_stability. rewrite Ec, Ef. repeat split.
Qed.

(** *** Actions *)

Lemma normalize_keeps_agent_id : forall action w action',
  Actions._normalize_domestic_levers action w = Some action' ->
  agent_id action' = agent_id action
  /\ foreign_policy action' = foreign_policy action
  /\ dict_get (agents w) (agent_id action) <> None.
Proof.
  intros action w action' H. unfold Actions._normalize_domestic_levers, bind in H.
  destruct (dict_get (agents w) (agent_id action)) as [a|] eqn:E; [|discriminate].
  cbv zeta in H. inversion H; subst. repeat split. discriminate.
Qed.

Lemma normalize_returns : forall action w a,
  dict_get (agents w) (agent_id action) = Some a ->
  exists action', Actions._normalize_domestic_levers action w = Some action'.
Proof.
  intros action w a H. unfold Actions._normalize_domestic_levers, bind. rewrite H.
  cbv zeta. eexists. reflexivity.
Qed.

Lemma apply_action_returns : forall action w a,
  dict_get (agents w) (agent_id action) = Some a ->
  exists r, Actions.apply_action w action = Some r.
Proof.
  intros action w a H. destruct (normalize_returns action w a H) as [action' Hn].
  destruct (normalize_keeps_agent_id _ _ _ Hn) as (Hid & _ & _).
  unfold Actions.apply_action, bind. rewrite Hn, Hid, H. cbv zeta. eexists. reflexivity.
Qed.

(** X13: [apply_action] raises exactly when the action names no agent of
    the world; when it returns, it has changed nothing but the agent the
    action names: the relations, the global state, the institutions, the
    time and every other agent are as before. *)
Theorem apply_action_touches_only_its_agent : forall w action,
  match Actions.apply_action w action with
  | None => dict_get (agents w) (agent_id action) = None
  | Some (w', _) =>
      dict_get (agents w) (agent_id action) <> None
      /\ relations w' = relations w /\ global_state w' = global_state w
      /\ institutions w' = institutions w /\ time w' = time w
      /\ forall k, k <> agent_id action -> dict_get (agents w') k = dict_get (agents w) k
  end.
Proof.
  intros w action.
  destruct (Actions.apply_action w action) as [[w' action']|] eqn:E.
  - unfold Actions.apply_action, bind in E.
    destruct (Actions._normalize_domestic_levers action w) as [act|] eqn:En; [|discriminate].
    destruct (normalize_keeps_agent_id _ _ _ En) as (Hid & _ & Hin).
    destruct (dict_get (agents w) (agent_id act)); [|discriminate].
    cbv zeta in E. inversion E; subst w' action'. rewrite Hid.
    split; [exact Hin|].
    unfold put_agent. destruct (dict_mem (agents w) (agent_id action)).
    + repeat split. intros k Hk. cbn [agents set_agents]. now apply dict_get_set_other.
    + repeat split.
  - destruct (dict_get (agents w) (agent_id action)) as [a|] eqn:Ea; [|reflexivity].
    destruct (apply_action_returns action w a Ea) as [r Hr]. congruence.
Qed.

(** X14: when [apply_action] returns, the bounded fields of every agent and
    relation are still in range, whatever levers the action pulls. *)
Theorem apply_action_keeps_bounded_fields : forall w action,
  bounded_world w ->
  match Actions.apply_action w action with
  | Some (w', _) => bounded_world w'
  | None => True
  end.
Proof.
  intros w action Hw.
  destruct (Actions.apply_action w action) as [[w' action']|] eqn:E; [|exact I].
  exact (bounded_apply_action _ _ _ _ Hw E).
Qed.

Definition tax_and_spend : Action :=
  mkAction "A" 0%Z (mkDomesticPolicy 1.0 0.02 0.015 0.008 CP_strong)
    (mkForeignPolicy [] [] [] (mkSecurityActions SA_none None))
    (mkFinancePolicy 0.0 0.0).

Lemma apply_action_keeps_bounded_fields_witness :
  bounded_world sane_world
  /\ match Actions.apply_action sane_world tax_and_spend with
     | Some (w', _) => bounded_world w'
     | None => True
     end.
Proof.
  split; [exact sane_world_bounded|].
  exact (apply_action_keeps_bounded_fields sane_world tax_and_spend sane_world_bounded).
Defined.

Lemma scaled_expansion : forall a b c m,
  0 < m -> m < Rmax 0 a + Rmax 0 b + Rmax 0 c ->
  let s := m / (Rmax 0 a + Rmax 0 b + Rmax 0 c) in
  0 < s < 1 /\ Rmax 0 (a * s) + Rmax 0 (b * s) + Rmax 0 (c * s) = m.
Proof.
  intros a b c m Hm Ht s.
  set (t := Rmax 0 a + Rmax 0 b + Rmax 0 c) in *.
  assert (Hs : s * t = m) by (unfold s; field; lra).
  assert (Hs0 : 0 < s) by (unfold s; apply Rdiv_lt_0_compat; lra).
  assert (Hs1 : s < 1) by nra.
  split; [lra|].
  assert (Hx : forall x, Rmax 0 (x * s) = s * Rmax 0 x).
  { intros x. unfold Rmax. destruct (Rle_dec 0 (x * s)), (Rle_dec 0 x); nra. }
  rewrite !Hx. unfold t in Hs. lra.
Qed.

(** X15: when [_normalize_domestic_levers] returns, the four levers lie in
    their ranges (fuel tax in [-1.5,1.5], social spending in [-0.015,0.02],
    military spending in [-0.01,0.015], R&D in [-0.002,0.008]) and the sum of
    the positive spending changes is at most 3% of GDP, and at most 2% when
    the public debt exceeds 120% of GDP. *)
Theorem domestic_levers_are_capped : forall action w,
  match Actions._normalize_domestic_levers action w, dict_get (agents w) (agent_id action) with
  | Some action', Some agent =>
      let d := domestic_policy action' in
      -1.5 <= tax_fuel_change d <= 1.5
      /\ -0.015 <= social_spending_change d <= 0.02
      /\ -0.01 <= military_spending_change d <= 0.015
      /\ -0.002 <= rd_investment_change d <= 0.008
      /\ Rmax 0 (social_spending_change d) + Rmax 0 (military_spending_change d)
         + Rmax 0 (rd_investment_change d)
         <= (if Rlt_dec 1.2 (public_debt (economy agent) / Rmax (gdp (economy agent)) 1e-6)
             then 0.02 else 0.03)
  | None, None => True
  | _, _ => False
  end.
Proof.
  intros action w. unfold Actions._normalize_domestic_levers, bind.
  destruct (dict_get (agents w) (agent_id action)) as [agent|]; [|exact I].
  cbv zeta.
  set (cap := if Rlt_dec 1.2 _ then 0.02 else 0.03).
  assert (Hcap : 0 < cap <= 0.03) by (unfold cap; destruct Rlt_dec; lra).
  clearbody cap.
  cbn [domestic_policy set_domestic_policy tax_fuel_change social_spending_change
       military_spending_change rd_investment_change set_tax_fuel_change
       set_social_spending_change set_military_spending_change set_rd_investment_change].
  unfold Actions._clamp.
  pose proof (clamp_range (-1.5) 1.5 (-1.5) 1.5 (tax_fuel_change (domestic_policy action)))
    as Ht.
  pose proof (clamp_range (-0.015) 0.02 (-0.015) 0.02
                (social_spending_change (domestic_policy action))) as Hs.
  pose proof (clamp_range (-0.01) 0.015 (-0.01) 0.015
                (military_spending_change (domestic_policy action))) as Hm.
  pose proof (clamp_range (-0.002) 0.008 (-0.002) 0.008
                (rd_investment_change (domestic_policy action))) as Hr.
  set (tx := Rmax (-1.5) (Rmin 1.5 _)) in *.
  set (sc := Rmax (-0.015) (Rmin 0.02 _)) in *.
  set (ml := Rmax (-0.01) (Rmin 0.015 _)) in *.
  set (rd := Rmax (-0.002) (Rmin 0.008 _)) in *.
  specialize (Ht ltac:(lra) ltac:(lra) ltac:(lra)).
  specialize (Hs ltac:(lra) ltac:(lra) ltac:(lra)).
  specialize (Hm ltac:(lra) ltac:(lra) ltac:(lra)).
  specialize (Hr ltac:(lra) ltac:(lra) ltac:(lra)).
  clearbody tx sc ml rd.
  destruct (Rltb cap (Rmax 0 sc + Rmax 0 ml + Rmax 0 rd)
            && Rltb 0 (Rmax 0 sc + Rmax 0 ml + Rmax 0 rd))%bool eqn:E.
  - apply andb_prop in E. destruct E as [E _]. unfold Rltb in E.
    destruct Rlt_dec as [Hlt|]; [|discriminate].
    destruct (scaled_expansion sc ml rd cap (proj1 Hcap) Hlt) as (Hs01 & Hsum).
    cbv zeta in Hs01, Hsum.
    set (s := cap / (Rmax 0 sc + Rmax 0 ml + Rmax 0 rd)) in *. clearbody s.
    cbn [tax_fuel_change social_spending_change military_spending_change
         rd_investment_change set_social_spending_change set_military_spending_change
         set_rd_investment_change].
    split; [exact Ht|]. split; [nra|]. split; [nra|]. split; [nra|]. lra.
  - cbn [tax_fuel_change social_spending_change military_spending_change
         rd_investment_change set_tax_fuel_change set_social_spending_change
         set_military_spending_change set_rd_investment_change].
    split; [exact Ht|]. split; [exact Hs|]. split; [exact Hm|]. split; [exact Hr|].
    assert (Hle : ~ cap < Rmax 0 sc + Rmax 0 ml + Rmax 0 rd).
    { intros Hlt. apply andb_false_iff in E. unfold Rltb in E.
      destruct E as [E|E].
      - destruct (Rlt_dec cap (Rmax 0 sc + Rmax 0 ml + Rmax 0 rd)); [discriminate|auto].
      - destruct (Rlt_dec 0 (Rmax 0 sc + Rmax 0 ml + Rmax 0 rd)); [discriminate|lra]. }
    lra.
Qed.

(** *** Political constraints and sanctions *)

(** X16: [apply_political_constraints] scales the three spending levers by
    one common factor between 0.4 and 1, so that none of them grows or
    changes sign; an agent whose sanction propensity is below 0.4 sends no
    strong sanction, and none at all below 0.2; and the action never gains a
    sanction. *)
Theorem political_constraints_only_restrain : forall action agent,
  let action' := PoliticalDynamics.apply_political_constraints action agent in
  let d := domestic_policy action in
  let d' := domestic_policy action' in
  (exists scale, 0.4 <= scale <= 1
     /\ social_spending_change d' = social_spending_change d * scale
     /\ military_spending_change d' = military_spending_change d * scale
     /\ rd_investment_change d' = rd_investment_change d * scale)
  /\ (sanction_propensity (political agent) < 0.4 ->
      Forall (fun s => sanc_type s <> S_strong) (sanctions_actions (foreign_policy action')))
  /\ (sanction_propensity (political agent) < 0.2 ->
      sanctions_actions (foreign_policy action') = [])
  /\ (List.length (sanctions_actions (foreign_policy action'))
      <= List.length (sanctions_actions (foreign_policy action)))%nat.
Proof.
  intros action agent. cbv zeta. unfold PoliticalDynamics.apply_political_constraints.
  cbv zeta.
  cbn [domestic_policy foreign_policy set_foreign_policy set_domestic_policy].
  split.
  { exists (0.4 + 0.6 * clamp01 (policy_space (political agent))).
    pose proof (clamp01_range (policy_space (political agent))) as Hc.
    split; [lra|].
    destruct (Rlt_dec 0 (tax_fuel_change (domestic_policy action))); repeat split. }
  assert (Hsec : forall (c : bool) fp,
            sanctions_actions
              (if c then set_security_actions (mkSecurityActions SA_none None) fp else fp)
            = sanctions_actions fp) by (intros [|] fp; reflexivity).
  assert (Hres : forall fp,
            sanctions_actions
              (if Rlt_dec (protectionism (political agent)) 0.2
               then set_trade_restrictions [] fp
               else if Rlt_dec (protectionism (political agent)) 0.4
                    then set_trade_restrictions
                           (map (fun r => if PoliticalDynamics.eq_level (level r) TR_hard
                                          then set_level TR_soft r else r)
                                (trade_restrictions fp)) fp
                    else fp)
            = sanctions_actions fp).
  { intros fp. destruct Rlt_dec; [reflexivity|]. destruct Rlt_dec; reflexivity. }
  rewrite Hsec, Hres.
  destruct (Rlt_dec (sanction_propensity (political agent)) 0.2) as [H2|H2].
  { cbn [sanctions_actions set_sanctions_actions]. repeat split; auto.
    cbn [List.length]. apply Nat.le_0_l. }
  destruct (Rlt_dec (sanction_propensity (political agent)) 0.4) as [H4|H4].
  - cbn [sanctions_actions set_sanctions_actions]. split; [|split].
    + intros _. rewrite Forall_map. apply Forall_forall. intros s _.
      destruct (sanc_type s) eqn:Es; cbn [PoliticalDynamics.eq_sanction];
        try (rewrite Es; discriminate).
      cbn [sanc_type set_sanc_type]. discriminate.
    + intros H. lra.
    + rewrite length_map. apply Nat.le_refl.
  - split; [intros H; lra|]. split; [intros H; lra|]. apply Nat.le_refl.
Qed.

Definition dove : AgentState :=
  set_political (set_sanction_propensity 0.1 Examples.default_political) (sane_agent "A" 1.6).

Lemma political_constraints_only_restrain_witness :
  let action' :=
    PoliticalDynamics.apply_political_constraints
      (action_with_sanctions "A" [mkSanctionsAction "B" S_strong]) dove in
  Forall (fun s => sanc_type s <> S_strong) (sanctions_actions (foreign_policy action'))
  /\ sanctions_actions (foreign_policy action') = [].
Proof.
  cbv zeta.
  destruct (political_constraints_only_restrain
              (action_with_sanctions "A" [mkSanctionsAction "B" S_strong]) dove)
    as (_ & H4 & H2 & _).
  cbv zeta in H4, H2.
  assert (Hp : sanction_propensity (political dove) = 0.1) by reflexivity.
  split; [apply H4; rewrite Hp; lra|apply H2; rewrite Hp; lra].
Defined.

Lemma resolve_target_entry : forall w k a intents t ty y,
  PoliticalDynamics.resolve_target w k a intents t = Some (ty, y) ->
  t <> k /\ dict_mem (agents w) t = true /\ (0 <= y)%Z.
Proof.
  intros w k a intents t ty y H. unfold PoliticalDynamics.resolve_target in H.
  destruct (String.eqb t k) eqn:Ek; [discriminate|].
  destruct (dict_mem (agents w) t) eqn:Em; [|discriminate].
  cbn [negb] in H. cbv zeta in H.
  split; [intros ->; rewrite String.eqb_refl in Ek; discriminate|].
  split; [reflexivity|].
  destruct (dict_get (active_sanctions a) t) as [t0|];
    destruct (Z.ltb 0 (dict_get_default (sanction_years a) t 0%Z)) eqn:Ez;
    try apply Z.ltb_lt in Ez;
    destruct (PoliticalDynamics.eq_sanction (dict_get_default intents t S_none) S_none);
    try discriminate;
    try (inversion H; subst; lia);
    destruct (get_relation w k t); try discriminate;
    destruct (dict_get (agents w) t); try discriminate;
    destruct (negb _); try discriminate;
    inversion H; subst; unfold PoliticalDynamics.min_duration; lia.
Qed.

(** X17: after [resolve_sanctions] no agent sanctions itself, every
    sanctioned target is an agent of the world, and every recorded sanction
    has a remaining-years counter, which is not negative. *)
Theorem recorded_sanctions_are_well_formed : forall w actions k a t ty,
  NoDup (dict_keys (agents w)) ->
  dict_get (agents (PoliticalDynamics.resolve_sanctions w actions)) k = Some a ->
  dict_get (active_sanctions a) t = Some ty ->
  t <> k /\ dict_mem (agents w) t = true
  /\ exists y, dict_get (sanction_years a) t = Some y /\ (0 <= y)%Z.
Proof.
  intros w actions k a t ty Hnd Hget Hact.
  pose proof (dict_mem_get _ _ _ _ Hget) as Hmem.
  unfold PoliticalDynamics.resolve_sanctions in Hmem.
  rewrite for_each_agent_mem in Hmem. unfold dict_mem in Hmem.
  destruct (dict_get (agents w) k) as [a0|] eqn:E0; [|discriminate].
  rewrite (resolve_sanctions_agent w actions k a0 Hnd E0) in Hget.
  inversion Hget; subst a. clear Hget Hmem.
  destruct (resolve_sanctions_actor_get actions w k a0 t) as [H1 H2].
  cbv zeta in H1, H2. rewrite H1 in Hact. rewrite H2.
  destruct (PoliticalDynamics.resolve_target w k a0 _ t) as [[ty' y]|] eqn:Er;
    [|discriminate].
  destruct (resolve_target_entry _ _ _ _ _ _ _ Er) as (Hk & Hm & Hy).
  split; [exact Hk|]. split; [exact Hm|]. exists y. split; [reflexivity|exact Hy].
Qed.

Lemma recorded_sanctions_are_well_formed_witness :
  exists a,
    dict_get (agents (PoliticalDynamics.resolve_sanctions sanctioning_world [])) "A" = Some a
    /\ dict_get (active_sanctions a) "B" = Some S_mild
    /\ "B"%string <> "A"%string /\ dict_mem (agents sanctioning_world) "B" = true
    /\ exists y, dict_get (sanction_years a) "B" = Some y /\ (0 <= y)%Z.
Proof.
  assert (Hg : dict_get (agents (PoliticalDynamics.resolve_sanctions sanctioning_world []))
                 "A"
               = Some (PoliticalDynamics.resolve_sanctions_actor [] sanctioning_world "A"
                         sanctioning_agent)).
  { apply resolve_sanctions_agent; [exact two_keys|reflexivity]. }
  assert (Ha : dict_get
                 (active_sanctions
                    (PoliticalDynamics.resolve_sanctions_actor [] sanctioning_world "A"
                       sanctioning_agent)) "B" = Some S_mild).
  { destruct (resolve_sanctions_actor_get [] sanctioning_world "A" sanctioning_agent "B")
      as [H1 _]. cbv zeta in H1. rewrite H1. reflexivity. }
  eexists. split; [exact Hg|]. split; [exact Ha|].
  exact (recorded_sanctions_are_well_formed sanctioning_world [] "A" _ "B" S_mild
           two_keys Hg Ha).
Defined.

(** *** Public finances, prices and carbon fractions *)

Lemma debt_step : forall debt deficit g,
  0 < g ->
  let debt' :=
    if Rlt_dec 0 deficit then debt + Rmin deficit (0.05 * g)
    else Rmax 0 (debt + deficit) + 0.0 in
  Rmin debt 0 <= debt' <= Rmax debt 0 + 0.05 * g.
Proof. intros debt deficit g Hg. cbv zeta. destruct Rlt_dec; rminmax. Qed.

(** X18: in one call of [update_public_finances] the public debt grows by
    at most 5% of GDP (GDP floored at 1e-6) and a debt that is not negative
    stays so: the new debt lies between min(debt, 0) and
    max(debt, 0) + 0.05 * GDP; the taxes are 22% of GDP. *)
Theorem yearly_borrowing_is_capped : forall a w,
  let e := economy a in
  let e' := economy (Economy.update_public_finances a w) in
  let g := Rmax (gdp e) 1e-6 in
  Rmin (public_debt e) 0 <= public_debt e' <= Rmax (public_debt e) 0 + 0.05 * g
  /\ taxes e' = 0.22 * g.
Proof.
  intros a w. cbv zeta. unfold Economy.update_public_finances. cbv zeta.
  cbn [economy set_economy].
  match goal with
  | |- context [if Rlt_dec 0 ?d then _ else _] => set (deficit := d)
  end.
  pose proof (debt_step (public_debt (economy a)) deficit (Rmax (gdp (economy a)) 1e-6)
                (floor_gdp_pos _)) as H.
  cbv zeta in H. clearbody deficit.
  destruct (Rlt_dec 0 deficit); (split; [exact H|reflexivity]).
Qed.

Lemma price_after : forall (ps : dict R) a b c va vb vc name,
  a <> b -> a <> c -> b <> c -> In name [a; b; c] ->
  dict_get (dict_set (dict_set (dict_set ps a va) b vb) c vc) name
  = Some (if String.eqb name a then va else if String.eqb name b then vb else vc).
Proof.
  intros ps a b c va vb vc name Hab Hac Hbc [<-|[<-|[<-|[]]]].
  - rewrite String.eqb_refl.
    rewrite dict_get_set_other by auto. rewrite dict_get_set_other by auto.
    apply dict_get_set_same.
  - destruct (String.eqb_spec b a) as [E|_]; [congruence|]. rewrite String.eqb_refl.
    rewrite dict_get_set_other by auto. apply dict_get_set_same.
  - destruct (String.eqb_spec c a) as [E|_]; [congruence|].
    destruct (String.eqb_spec c b) as [E|_]; [congruence|].
    apply dict_get_set_same.
Qed.

(** X19: after [update_global_resource_prices] the price of each of the
    three resources (energy, food, metals) lies between [min_price] and
    [max_price], whatever the supply and the demand are. *)
Theorem resource_prices_stay_in_band : forall w alpha min_price max_price name,
  min_price <= max_price ->
  In name RESOURCE_NAMES ->
  exists p,
    dict_get
      (prices (global_state (Resources.update_global_resource_prices w alpha
                               min_price max_price))) name = Some p
    /\ min_price <= p <= max_price.
Proof.
  intros w alpha lo hi name Hlh Hin.
  unfold Resources.update_global_resource_prices. cbv zeta.
  cbn [global_state set_global_state prices set_prices].
  unfold RESOURCE_NAMES in *. cbn [fold_left].
  rewrite price_after by (try discriminate; exact Hin).
  eexists. split; [reflexivity|].
  destruct (String.eqb name "energy"); [apply clamp_range; lra|].
  destruct (String.eqb name "food"); apply clamp_range; lra.
Qed.

Lemma resource_prices_stay_in_band_witness :
  exists p,
    dict_get
      (prices (global_state (Resources.update_global_resource_prices sane_world 0.15 0.3 5.0)))
      "food" = Some p
    /\ 0.3 <= p <= 5.0.
Proof.
  apply (resource_prices_stay_in_band sane_world 0.15 0.3 5.0 "food").
  - lra.
  - right. left. reflexivity.
Defined.

(** *** The memory of the agents *)

Definition fresh_history (world : WorldState) (max_horizon : Z) (history : list Memory.Snapshot)
    : Prop :=
  (Z.of_nat (List.length history) <= max_horizon)%Z
  /\ exists older s, history = older ++ [s] /\ Memory.snap_time s = time world.

Lemma trimmed_history : forall world mh old (s : Memory.Snapshot),
  (1 <= mh)%Z -> Memory.snap_time s = time world ->
  fresh_history world mh
    (if Z.ltb mh (Z.of_nat (List.length (old ++ [s])))
     then Memory.last_n mh (old ++ [s]) else old ++ [s]).
Proof.
  intros world mh old s Hmh Hs.
  destruct (Z.ltb_spec mh (Z.of_nat (List.length (old ++ [s])))) as [Hlt|Hge].
  - unfold Memory.last_n. destruct (Z.ltb_spec 0 mh) as [_|]; [|lia].
    rewrite length_app in *. cbn [List.length] in *.
    assert (Hj : (List.length old + 1 - Z.to_nat mh <= List.length old)%nat) by lia.
    rewrite skipn_app.
    replace (List.length old + 1 - Z.to_nat mh - List.length old)%nat with 0%nat by lia.
    cbn [skipn]. split.
    + rewrite length_app, length_skipn. cbn [List.length]. lia.
    + exists (skipn (List.length old + 1 - Z.to_nat mh) old), s. split; [reflexivity|exact Hs].
  - split; [exact Hge|]. exists old, s. split; [reflexivity|exact Hs].
Qed.

Lemma memory_fold : forall world actions mh k l mem,
  (1 <= mh)%Z ->
  In k (map fst l)
  \/ (exists h, dict_get mem k = Some h /\ fresh_history world mh h) ->
  exists h,
    dict_get
      (fold_left
         (fun mem kv =>
            let snapshot := Memory.snapshot_of world (snd kv) (dict_get actions (fst kv)) in
            let history := dict_get_default mem (fst kv) [] ++ [snapshot] in
            dict_set mem (fst kv)
              (if Z.ltb mh (Z.of_nat (List.length history))
               then Memory.last_n mh history
               else history))
         l mem) k = Some h
    /\ fresh_history world mh h.
Proof.
  intros world actions mh k l. induction l as [|[k0 a0] l IH]; intros mem Hmh H.
  - destruct H as [[]|H]. exact H.
  - cbn [fold_left]. apply IH; [exact Hmh|].
    destruct (in_dec string_dec k (map fst l)) as [Hin|Hnin]; [left; exact Hin|].
    right. cbv zeta. cbn [fst snd].
    destruct (string_dec k0 k) as [->|Hne].
    + rewrite dict_get_set_same. eexists. split; [reflexivity|].
      now apply trimmed_history.
    + rewrite dict_get_set_other by exact Hne.
      destruct H as [[Hk|Hin]|H]; [cbn in Hk; contradiction|contradiction|exact H].
Qed.

(** X21: with a horizon of at least one year, after [update_agent_memory]
    every agent of the world has a history that ends with a snapshot of the
    current year and holds at most [max_horizon] snapshots, however long the
    history was before. *)
Theorem memory_keeps_a_bounded_window : forall memory world actions max_horizon k a,
  (1 <= max_horizon)%Z ->
  dict_get (agents world) k = Some a ->
  exists history,
    dict_get (Memory.update_agent_memory memory world actions max_horizon) k = Some history
    /\ (Z.of_nat (List.length history) <= max_horizon)%Z
    /\ exists older s, history = older ++ [s] /\ Memory.snap_time s = time world.
Proof.
  intros memory world actions mh k a Hmh Hget. unfold Memory.update_agent_memory.
  apply memory_fold; [exact Hmh|]. left.
  exact (dict_get_keys _ _ _ _ Hget).
Qed.

Lemma memory_keeps_a_bounded_window_witness :
  exists history,
    dict_get (Memory.update_agent_memory [] sane_world [] 10) "B" = Some history
    /\ (Z.of_nat (List.length history) <= 10)%Z
    /\ exists older s, history = older ++ [s] /\ Memory.snap_time s = time sane_world.
Proof.
  apply (memory_keeps_a_bounded_window [] sane_world [] 10 "B" (sane_agent "B" 2.0)).
  - lia.
  - reflexivity.
Defined.

(** *** Institutions *)

Lemma liquidity_budget : forall ms st,
  0 <= snd (fst st) ->
  let st' := fold_left Institutions.liquidity_support ms st in
  0 <= snd (fst st') <= snd (fst st).
Proof.
  induction ms as [|m ms IH]; intros [[w b] stop] Hb; cbn [fold_left].
  - cbv zeta. cbn [fst snd] in *. lra.
  - cbv zeta.
    assert (Hstep : 0 <= snd (fst (Institutions.liquidity_support (w, b, stop) m)) <= b).
    { cbn [fst snd] in Hb. unfold Institutions.liquidity_support.
      destruct stop; [cbn [fst snd]; lra|].
      destruct (dict_get (agents w) m); [|cbn [fst snd]; lra].
      destruct Rle_dec; [cbn [fst snd]; lra|]. cbv zeta.
      destruct Rle_dec as [|Hg]; [cbn [fst snd]; lra|]. cbn [fst snd].
      revert Hg. rminmax. }
    specialize (IH (Institutions.liquidity_support (w, b, stop) m) (proj1 Hstep)).
    cbv zeta in IH. cbn [fst snd]. lra.
Qed.

(** X22: a finance organisation never lends more than it has: after
    [_apply_org_measures] its budget lies between 0 and the budget it had,
    when that was not negative. *)
Theorem finance_budget_is_never_overdrawn : forall w o,
  org_type o = "FinanceOrg"%string ->
  0 <= budget o ->
  0 <= budget (snd (Institutions._apply_org_measures w o)) <= budget o.
Proof.
  intros w o Ht Hb. unfold Institutions._apply_org_measures. rewrite Ht.
  cbn [String.eqb Ascii.eqb Bool.eqb andb].
  destruct (members o) as [|m ms] eqn:Em; [cbn [snd]; lra|]. rewrite <- Em.
  cbv zeta. destruct Rle_dec; [cbn [snd]; lra|].
  pose proof (liquidity_budget (members o) (w, budget o, false) Hb) as H.
  cbv zeta in H.
  destruct (fold_left Institutions.liquidity_support (members o) (w, budget o, false))
    as [[w' b'] s']. cbn [fst snd] in *. exact H.
Qed.

Definition lender : InstitutionState :=
  mkInstitutionState "IMF" "International Monetary Fund" "FinanceOrg"
    ["liquidity"; "stability"]%string ["A"; "B"]%string 0.65 0.004 0.0012.

Lemma finance_budget_is_never_overdrawn_witness :
  0 <= budget (snd (Institutions._apply_org_measures sane_world lender)) <= budget lender.
Proof.
  apply (finance_budget_is_never_overdrawn sane_world lender).
  - reflexivity.
  - cbn [budget lender]. lra.
Defined.

(** *** A year of war *)



End YearPhases.

(** ** The shape of the world

    The time, the keys of the agents and the pairs of keys of the
    relations; the phases of a year rewrite the values bound to them. *)

Section WorldShape.

Definition shape (w : WorldState) : Z * list string * list (string * string) :=
  (time w, dict_keys (agents w), relation_keys w).

Lemma shape_frame : forall w w',
  time w' = time w -> dict_keys (agents w') = dict_keys (agents w) ->
  relations w' = relations w -> shape w' = shape w.
Proof.
  intros w w' Ht Ha Hr. unfold shape, relation_keys. now rewrite Ht, Ha, Hr.
Qed.

Lemma shape_put_agent : forall k a w, shape (put_agent k a w) = shape w.
Proof.
  intros k a w. apply shape_frame.
  - unfold put_agent. destruct (dict_mem (agents w) k); reflexivity.
  - apply put_agent_keys.
  - apply put_agent_relations.
Qed.

Lemma relation_keys_set : forall (d : dict (dict RelationState)) a rels rels',
  dict_get d a = Some rels -> dict_keys rels' = dict_keys rels ->
  flat_map (fun kv => map (fun kr => (fst kv, fst kr)) (snd kv)) (dict_set d a rels')
  = flat_map (fun kv => map (fun kr => (fst kv, fst kr)) (snd kv)) d.
Proof.
  induction d as [|[k v] d IH]; intros a rels rels' Hg Hk; simpl in Hg; [discriminate|].
  simpl. destruct (String.eqb k a) eqn:E.
  - inversion Hg; subst. simpl. f_equal.
    unfold dict_keys in Hk.
    rewrite <- (map_map fst (fun x => (k, x)) rels'), Hk, map_map. reflexivity.
  - simpl. f_equal. now apply (IH a rels rels').
Qed.

Lemma shape_put_relation : forall a b r w, shape (put_relation a b r w) = shape w.
Proof.
  intros a b r w. unfold put_relation.
  destruct (dict_get (relations w) a) as [rels|] eqn:E; [|reflexivity].
  destruct (dict_mem rels b) eqn:Em; [|reflexivity].
  unfold shape, relation_keys. cbn [time agents relations set_relations].
  f_equal. apply (relation_keys_set _ a rels); [exact E|]. now apply dict_set_keys.
Qed.

Lemma shape_upd_agent : forall k f w, shape (Geopolitics.upd_agent k f w) = shape w.
Proof.
  intros k f w. unfold Geopolitics.upd_agent.
  destruct (dict_get (agents w) k); [apply shape_put_agent|reflexivity].
Qed.

Lemma shape_upd_relation : forall a b f w, shape (Geopolitics.upd_relation a b f w) = shape w.
Proof.
  intros a b f w. unfold Geopolitics.upd_relation.
  destruct (get_relation w a b); [apply shape_put_relation|reflexivity].
Qed.

Lemma shape_fold : forall (B : Type) (f : WorldState -> B -> WorldState) l w,
  (forall w b, shape (f w b) = shape w) -> shape (fold_left f l w) = shape w.
Proof.
  intros B f l w Hf.
  apply (fold_left_invariant _ _ (fun w' => shape w' = shape w)); [|reflexivity].
  intros w' b H. now rewrite Hf.
Qed.

Lemma shape_foldM : forall (B : Type) (f : WorldState -> B -> option WorldState) l w w',
  (forall w b w', f w b = Some w' -> shape w' = shape w) ->
  foldM f l w = Some w' -> shape w' = shape w.
Proof.
  intros B f l w w' Hf.
  apply (foldM_invariant _ _ (fun w' => shape w' = shape w)); [|reflexivity].
  intros w1 b w2 H1 H2. rewrite (Hf _ _ _ H2). exact H1.
Qed.

Lemma shape_for_each_agent : forall body w, shape (for_each_agent body w) = shape w.
Proof.
  intros body w. unfold for_each_agent. apply shape_fold.
  intros w' k. destruct (dict_get (agents w') k); [apply shape_put_agent|reflexivity].
Qed.

Lemma shape_for_each_agent_opt : forall body w w',
  for_each_agent_opt body w = Some w' -> shape w' = shape w.
Proof.
  intros body w w'. unfold for_each_agent_opt. apply shape_foldM.
  intros w1 k w2 H. destruct (dict_get (agents w1) k) as [a|].
  - unfold bind in H. destruct (body w1 k a); [|discriminate].
    inversion H; subst. apply shape_put_agent.
  - inversion H; subst. reflexivity.
Qed.

Lemma shape_for_each_relation : forall body w, shape (for_each_relation body w) = shape w.
Proof.
  intros body w. unfold for_each_relation. apply shape_fold.
  intros w' ab. destruct (get_relation w' (fst ab) (snd ab));
    [apply shape_put_relation|reflexivity].
Qed.

Lemma shape_map_agents : forall (f : string * AgentState -> AgentState) w,
  shape (set_agents (map (fun kv => (fst kv, f kv)) (agents w)) w) = shape w.
Proof.
  intros f w. apply shape_frame; try reflexivity.
  cbn [agents set_agents]. unfold dict_keys. rewrite map_map. reflexivity.
Qed.

Lemma shape_update_institutions : forall w,
  shape (Institutions.update_institutions w) = shape w.
Proof.
  intros w. unfold Institutions.update_institutions. cbv zeta.
  assert (Hloop : forall o f w', shape (Institutions.member_relations_loop o f w') = shape w').
  { intros o f w'. unfold Institutions.member_relations_loop. apply shape_fold.
    intros w1 m. apply shape_fold. intros w2 p.
    destruct (Institutions.is_member_of p o); [apply shape_upd_relation|reflexivity]. }
  assert (Hliq : forall ms st,
            shape (fst (fst (fold_left Institutions.liquidity_support ms st)))
            = shape (fst (fst st))).
  { intros ms st.
    apply (fold_left_invariant _ _
             (fun st' => shape (fst (fst st')) = shape (fst (fst st)))); [|reflexivity].
    intros [[w1 b1] s1] m H. cbn [fst] in *. rewrite <- H.
    unfold Institutions.liquidity_support.
    destruct s1; [reflexivity|].
    destruct (dict_get (agents w1) m); [|reflexivity].
    destruct Rle_dec; [reflexivity|]. cbv zeta. destruct Rle_dec; [reflexivity|].
    cbn [fst]. apply shape_upd_agent. }
  assert (Hm : forall w' o, shape (fst (Institutions._apply_org_measures w' o)) = shape w').
  { intros w' o. unfold Institutions._apply_org_measures.
    destruct (members o) as [|m ms] eqn:Em; [reflexivity|]. rewrite <- Em.
    destruct (String.eqb (org_type o) "TradeOrg"); [cbn [fst]; apply Hloop|].
    destruct (String.eqb (org_type o) "FinanceOrg").
    { destruct Rle_dec; [reflexivity|].
      pose proof (Hliq (members o) (w', budget o, false)) as H.
      destruct (fold_left Institutions.liquidity_support (members o) (w', budget o, false))
        as [[w2 b2] s2]. exact H. }
    destruct (String.eqb (org_type o) "SecurityOrg"); [cbn [fst]; apply Hloop|].
    destruct (String.eqb (org_type o) "ClimateOrg").
    { cbn [fst]. apply shape_fold. intros; apply shape_upd_agent. }
    destruct (String.eqb (org_type o) "SocialOrg").
    { cbn [fst]. apply shape_fold. intros; apply shape_upd_agent. }
    reflexivity. }
  transitivity (shape (match institutions w with
                       | [] => set_institutions (Institutions.build_default_institutions w) w
                       | _ => w
                       end)).
  - apply shape_fold. intros w1 k. unfold Institutions.institution_turn.
    destruct (dict_get (institutions w1) k) as [o|]; [|reflexivity]. cbv zeta.
    match goal with
    | |- context [Institutions._apply_org_measures w1 ?o1] =>
        pose proof (Hm w1 o1) as H;
        destruct (Institutions._apply_org_measures w1 o1) as [w2 o2]
    end.
    cbn [fst] in H. rewrite <- H. reflexivity.
  - destruct (institutions w); reflexivity.
Qed.

Lemma shape_resolve_foreign_policy : forall w actions w',
  PoliticalDynamics.resolve_foreign_policy w actions = Some w' -> shape w' = shape w.
Proof.
  intros w actions w' H. unfold PoliticalDynamics.resolve_foreign_policy in H. cbv zeta in H.
  unfold PoliticalDynamics.update_coalitions in H.
  rewrite (shape_for_each_agent_opt _ _ _ H).
  unfold PoliticalDynamics.update_trade_barriers. rewrite shape_for_each_relation.
  apply shape_for_each_agent.
Qed.

Lemma shape_apply_sanctions_effects : forall w,
  shape (Geopolitics.apply_sanctions_effects w) = shape w.
Proof.
  intros w. unfold Geopolitics.apply_sanctions_effects. cbv zeta.
  rewrite shape_fold.
  - apply shape_fold. intros w1 [[a b] t]. unfold Geopolitics.apply_sanction_entry.
    destruct (dict_get (agents w1) a); [|reflexivity].
    destruct (get_relation w1 a b); [|reflexivity].
    destruct t; [reflexivity|apply shape_put_relation|].
    rewrite shape_upd_agent. apply shape_put_relation.
  - intros w1 [t [m s]]. unfold Geopolitics.apply_sanction_pressure. cbn [fst snd].
    destruct (dict_get (agents w1) t); [|reflexivity].
    destruct (_ && _)%bool; [reflexivity|apply shape_put_agent].
Qed.

Lemma shape_security_effects : forall t a b w,
  shape (Geopolitics.security_effects t a b w) = shape w.
Proof.
  intros t a b w. unfold Geopolitics.security_effects.
  destruct t; cbv zeta;
    repeat first [rewrite shape_upd_relation | rewrite shape_upd_agent]; try reflexivity.
  destruct (dict_get (agents w) a); [|reflexivity].
  destruct (dict_get (agents w) b); [|reflexivity].
  match goal with
  | |- shape (match dict_get (agents ?w1) b with _ => _ end) = _ =>
      transitivity (shape w1);
      [destruct (dict_get (agents w1) b); [apply shape_upd_relation|reflexivity]|]
  end.
  match goal with
  | |- shape (match dict_get (agents ?w1) a with _ => _ end) = _ =>
      transitivity (shape w1);
      [destruct (dict_get (agents w1) a); [apply shape_upd_relation|reflexivity]|]
  end.
  repeat first [rewrite shape_upd_relation | rewrite shape_upd_agent]. reflexivity.
Qed.

Lemma shape_apply_security_actions : forall w actions random drawn,
  shape (fst (fst (Geopolitics.apply_security_actions w actions random drawn))) = shape w.
Proof.
  intros w actions random drawn. unfold Geopolitics.apply_security_actions.
  apply (fold_left_invariant _ _ (fun st => shape (fst (fst st)) = shape w)); [|reflexivity].
  intros [[w1 acts] d1] k H. cbn [fst] in H. rewrite <- H.
  unfold Geopolitics.security_turn.
  destruct (dict_get acts k) as [action|]; [|reflexivity]. cbv zeta.
  match goal with
  | |- context [match ?p with Some a => _ | None => (w1, acts, ?d) end] =>
      destruct p as [action'|]; [|reflexivity]
  end.
  destruct (Geopolitics._coerce_agent_id _) as [target_id|]; [|reflexivity].
  destruct (negb _); [reflexivity|].
  destruct (get_relation w1 (agent_id action') target_id); [|reflexivity].
  destruct (get_relation w1 target_id (agent_id action')); [|reflexivity].
  cbn [fst]. apply shape_security_effects.
Qed.

Lemma shape_update_active_conflicts : forall w,
  shape (Geopolitics.update_active_conflicts w) = shape w.
Proof.
  intros w. unfold Geopolitics.update_active_conflicts. apply shape_fold.
  intros w1 [a b]. unfold Geopolitics.war_turn. cbn [fst snd].
  destruct (String.leb b a); [reflexivity|].
  destruct (get_relation w1 a b); [|reflexivity].
  destruct (get_relation w1 b a); [|reflexivity].
  destruct (negb _); [reflexivity|].
  destruct (dict_get (agents w1) a); [|reflexivity].
  destruct (dict_get (agents w1) b); [|reflexivity].
  destruct (Geopolitics.fight _ _ _ _) as [[[rel1 rel2] actor1] target1].
  now rewrite !shape_put_agent, !shape_put_relation.
Qed.

Lemma shape_apply_actions : forall w actions w' actions',
  Simulation.apply_actions w actions = Some (w', actions') -> shape w' = shape w.
Proof.
  intros w actions w' actions' H. unfold Simulation.apply_actions in H.
  change (shape (fst (w', actions')) = shape w).
  revert H. apply (foldM_invariant _ _ (fun st => shape (fst st) = shape w)); [|reflexivity].
  intros [w1 acts] k [w2 acts2] H1 H. cbn [fst snd] in *.
  destruct (dict_get acts k) as [action|]; [|inversion H; subst; exact H1].
  unfold bind in H. destruct (Actions.apply_action w1 action) as [[w3 act3]|] eqn:E;
    [|discriminate].
  inversion H; subst. rewrite <- H1. clear H H1.
  unfold Actions.apply_action, bind in E.
  destruct (Actions._normalize_domestic_levers action w1); [|discriminate].
  destruct (dict_get (agents w1) _); [|discriminate].
  cbv zeta in E. inversion E; subst. apply shape_put_agent.
Qed.

Lemma shape_balance_net_exports : forall w, shape (Actions.balance_net_exports w) = shape w.
Proof.
  intros w. unfold Actions.balance_net_exports. cbv zeta.
  destruct (Rltb _ _); [|reflexivity].
  destruct Rlt_dec; [|reflexivity].
  apply shape_frame; try reflexivity. cbn [agents set_agents].
  unfold dict_keys. rewrite map_map. cbn [fst].
  assert (H : forall (l : dict AgentState) (ws : list R),
            List.length ws = List.length l ->
            map (fun x => fst (fst x)) (combine l ws) = map fst l).
  { induction l as [|x l IH]; intros [|y ws] Hl; simpl in *; try discriminate;
      [reflexivity|]. f_equal. apply IH. lia. }
  apply H. destruct Rle_dec; unfold dict_values; now rewrite !length_map.
Qed.

Lemma shape_trade_deal : forall gp k w b w',
  Actions.trade_deal gp k w b = Some w' -> shape w' = shape w.
Proof.
  intros gp k w b w' H. unfold Actions.trade_deal in H.
  destruct (dict_get (agents w) k) as [initiator|]; [|discriminate].
  destruct (dict_get (agents w) (partner b)) as [prt|]; [|inversion H; reflexivity].
  destruct (dict_get (resources initiator) _); [|inversion H; reflexivity].
  destruct (dict_get (resources prt) _); [|inversion H; reflexivity].
  cbv zeta in H.
  destruct Rle_dec; [inversion H; reflexivity|].
  destruct Rle_dec; [inversion H; reflexivity|].
  destruct Rle_dec; [inversion H; reflexivity|].
  match type of H with
  | (if _ then _ else Some ?w1) = _ => assert (H1 : shape w1 = shape w)
  end.
  { destruct (direction b); rewrite !shape_upd_agent; unfold Actions.upd_resource;
      apply shape_upd_agent. }
  destruct (_ && _)%bool; [|inversion H; subst; exact H1].
  unfold bind in H. destruct (get_relation _ _ _); [|discriminate].
  inversion H; subst. now rewrite !shape_upd_relation.
Qed.

Lemma shape_apply_trade_deals : forall w actions w',
  Actions.apply_trade_deals w actions = Some w' -> shape w' = shape w.
Proof.
  intros w actions w' H. unfold Actions.apply_trade_deals in H. cbv zeta in H.
  unfold bind in H. destruct (foldM _ actions _) as [w1|] eqn:E; [|discriminate].
  inversion H; subst. rewrite shape_balance_net_exports.
  apply shape_foldM in E.
  - rewrite E.
    apply (shape_map_agents (fun kv => Geopolitics.upd_economy (set_net_exports 0.0) (snd kv))).
  - intros w2 ka w3 H2.
    destruct (dict_get (agents w2) (fst ka)); [|discriminate].
    revert H2. apply shape_foldM. intros w4 b w5. apply shape_trade_deal.
Qed.

Lemma keys_update_agents_resources : forall p w l totals r,
  Resources.update_agents_resources p w l totals = Some r ->
  dict_keys (fst r) = dict_keys l.
Proof.
  induction l as [|[k a] l IH]; intros totals r H; cbn -[foldM] in H.
  - inversion H; subst. reflexivity.
  - unfold bind in H.
    destruct (foldM _ _ _) as [r1|]; [|discriminate].
    destruct (Resources.update_agents_resources p w l (snd r1)) as [r2|] eqn:E2;
      [|discriminate].
    inversion H; subst. cbn [fst]. unfold dict_keys in *. cbn [map fst].
    f_equal. exact (IH _ _ E2).
Qed.

Lemma shape_update_resource_stocks : forall w p w',
  Resources.update_resource_stocks w p = Some w' -> shape w' = shape w.
Proof.
  intros w p w' H. unfold Resources.update_resource_stocks, bind in H.
  destruct (Resources.update_agents_resources _ _ _ _) as [r|] eqn:E; [|discriminate].
  cbv zeta in H. inversion H; subst. apply shape_frame; try reflexivity.
  cbn [agents set_agents set_global_state]. exact (keys_update_agents_resources _ _ _ _ _ E).
Qed.

Lemma shape_update_global_climate : forall w dt ecs f hs hd ox fr ts w',
  Climate.update_global_climate w dt ecs f hs hd ox fr ts = Some w' -> shape w' = shape w.
Proof.
  intros w dt ecs f hs hd ox fr ts w' H.
  unfold Climate.update_global_climate in H. cbv zeta in H. unfold bind in H.
  match type of H with
  | match Climate.biodiversity_sums (dict_values (agents ?w0)) _ with _ => _ end = _ =>
      assert (H0 : shape w0 = shape w);
      [destruct (Nat.eqb _ _); reflexivity|];
      destruct (Climate.biodiversity_sums (dict_values (agents w0)) (0.0, 0.0));
      [|discriminate]
  end.
  inversion H; subst. rewrite <- H0. apply shape_frame; try reflexivity.
  cbn [agents set_agents set_global_state]. unfold dict_keys. rewrite map_map. reflexivity.
Qed.

Lemma shape_update_climate_risks : forall w rr sens bc bw bg,
  shape (Climate.update_climate_risks w rr sens bc bw bg) = shape w.
Proof.
  intros w rr sens bc bw bg. unfold Climate.update_climate_risks. cbv zeta.
  apply (shape_map_agents
           (fun kv => Climate.update_climate_risks_agent _ rr sens bc bw bg (snd kv))).
Qed.

Lemma keys_extreme_events_loop : forall temperature bp mp random l n,
  dict_keys (fst (Climate.apply_climate_extreme_events_loop temperature bp mp random l n))
  = dict_keys l.
Proof.
  induction l as [|[k a] l IH]; intros n; simpl; [reflexivity|].
  f_equal. apply IH.
Qed.

Lemma shape_apply_climate_extreme_events : forall w bp mp random n,
  shape (fst (Climate.apply_climate_extreme_events w bp mp random n)) = shape w.
Proof.
  intros w bp mp random n. unfold Climate.apply_climate_extreme_events. cbv zeta.
  cbn [fst]. apply shape_frame; try reflexivity.
  cbn [agents set_agents]. apply keys_extreme_events_loop.
Qed.

Lemma shape_update_migration_flows : forall w w',
  Social.update_migration_flows w = Some w' -> shape w' = shape w.
Proof.
  intros w w' H. unfold Social.update_migration_flows in H. cbv zeta in H.
  unfold bind in H. destruct (foldM _ (agents w) _) as [flows|]; [|discriminate].
  inversion H; subst. apply shape_fold.
  intros w1 kd. destruct Rle_dec; [reflexivity|].
  destruct (dict_get (agents w1) (fst kd)); [apply shape_put_agent|reflexivity].
Qed.

Lemma shape_compute_relative_metrics : forall w w',
  Metrics.compute_relative_metrics w = Some w' -> shape w' = shape w.
Proof.
  intros w w' H. unfold Metrics.compute_relative_metrics in H. cbv zeta in H.
  revert H. apply shape_foldM.
  intros w1 kv w2 H.
  destruct (dict_get (agents w1) (fst kv)) as [a|]; [|inversion H; reflexivity].
  unfold bind in H.
  destruct (Metrics.compute_relative_metrics_agent _ _ _ _ a); [|discriminate].
  inversion H; subst. apply shape_put_agent.
Qed.

Lemma shape_step_world : forall llm random w policies memory ev pf inst w' memory',
  Simulation.step_world llm random w policies memory ev pf inst = Some (w', memory') ->
  shape w' = (time w + 1, dict_keys (agents w), relation_keys w)%Z.
Proof.
  intros llm random w policies memory ev pf inst w' memory' H.
  unfold Simulation.step_world in H. cbv zeta in H. unfold bind in H.
  assert (H2 : shape (if inst
                      then Institutions.update_institutions
                             (PoliticalDynamics.update_political_states w)
                      else PoliticalDynamics.update_political_states w) = shape w).
  { unfold PoliticalDynamics.update_political_states.
    destruct inst; [rewrite shape_update_institutions|]; apply shape_for_each_agent. }
  set (w2 := if inst then _ else _) in *. clearbody w2.
  next_some H actions E0. clear E0.
  next_some H w3 E3.
  rewrite <- (shape_resolve_foreign_policy _ _ _ E3) in H2. clear E3.
  rewrite <- (shape_apply_sanctions_effects w3) in H2.
  rewrite <- (shape_apply_security_actions _ actions random 0) in H2.
  destruct (Geopolitics.apply_security_actions _ actions random 0) as [[w5 actions5] drawn].
  cbn [fst] in H2.
  rewrite <- (shape_update_active_conflicts w5) in H2.
  unfold PoliticalDynamics.apply_trade_barrier_effects in H.
  rewrite <- (shape_for_each_relation PoliticalDynamics.trade_barrier_effect) in H2.
  next_some H st7 E7. destruct st7 as [w7 actions7].
  rewrite <- (shape_apply_actions _ _ _ _ E7) in H2. clear E7. cbn [fst snd] in H.
  next_some H w8 E8.
  rewrite <- (shape_apply_trade_deals _ _ _ E8) in H2. clear E8.
  unfold PoliticalDynamics.update_relations_endogenous in H.
  rewrite <- (shape_for_each_relation
                (PoliticalDynamics.relation_drift (PoliticalDynamics.trade_conflict w8)
                   (PoliticalDynamics.block_tension w8)
                   (PoliticalDynamics.security_orgs w8)) w8) in H2.
  next_some H w10 E10.
  rewrite <- (shape_update_resource_stocks _ _ _ E10) in H2. clear E10.
  next_some H w12 E12.
  assert (H12 : shape w12 = shape w).
  { rewrite (shape_update_global_climate _ _ _ _ _ _ _ _ _ _ E12). exact H2. }
  clear E12 H2.
  rewrite <- (shape_update_climate_risks w12 0.06 0.45 0.3 0.45 0.15) in H12.
  fold (Climate.update_climate_risks_default w12) in H12.
  assert (H14 : shape (if ev
                       then fst (Climate.apply_climate_extreme_events_default
                                   (Climate.update_climate_risks_default w12) random drawn)
                       else Climate.update_climate_risks_default w12) = shape w).
  { destruct ev; [|exact H12].
    unfold Climate.apply_climate_extreme_events_default.
    now rewrite shape_apply_climate_extreme_events. }
  clear H12. set (w14 := if ev then _ else _) in *. clearbody w14.
  rewrite <- (shape_for_each_agent
                (fun w0 _ agent => Economy.update_economy_output agent w0) w14) in H14.
  rewrite <- (shape_for_each_agent Simulation.finance_turn) in H14.
  next_some H w17 E17.
  rewrite <- (shape_update_migration_flows _ _ E17) in H14. clear E17.
  rewrite <- (shape_for_each_agent (Simulation.society_turn actions7) w17) in H14.
  next_some H w19 E19.
  rewrite <- (shape_compute_relative_metrics _ _ E19) in H14.
  inversion H; subst. unfold shape in *. cbn [time set_time agents relations].
  inversion H14. unfold relation_keys. reflexivity.
Qed.

(** X25: when [step_world] returns, it has advanced the time by exactly
    one year and has neither added nor removed an agent or a relation: the
    keys of the agents and the pairs of keys of the relations are as before,
    whatever the policies, the memory, the random draws and the three
    switches are. *)
Theorem step_world_keeps_the_shape :
  forall llm random w policies memory ev pf inst,
    match Simulation.step_world llm random w policies memory ev pf inst with
    | Some (w', _) =>
        time w' = (time w + 1)%Z
        /\ dict_keys (agents w') = dict_keys (agents w)
        /\ relation_keys w' = relation_keys w
    | None => True
    end.
Proof.
  intros llm random w policies memory ev pf inst.
  destruct (Simulation.step_world llm random w policies memory ev pf inst)
    as [[w' memory']|] eqn:E; [|exact I].
  pose proof (shape_step_world _ _ _ _ _ _ _ _ _ _ E) as H.
  unfold shape in H. inversion H. auto.
Qed.




End WorldShape.
